(** * Distributed-ML: lung segmentation, normalisation/resampling and its cache

    A shallow embedding of

      - [src/preprocess/normalize_resample.py]
      - [src/preprocess/segment_lung.py]
      - the path construction, the option filter and the raw loader of
        [src/preprocess/run.py]

    Python objects that the code shares and mutates (dicts, lists, numpy
    arrays) live in an explicit heap; the file system is a finite map from
    path strings to files; exceptions are a result type threaded together
    with the state.  Floating-point numbers are IEEE-754 values
    ([SpecFloat]), always kept in canonical binary64 form, with float32
    obtained by rounding. *)

From Stdlib Require Import ZArith Ascii String Floats.SpecFloat.
From stdpp Require Import base option list gmap strings pretty sorting.

Set Warnings "-register-all".
Open Scope Z_scope.

(** ** Floating point *)

Module Float.

Definition float := spec_float.

(** Re-round a value to binary64 / binary32 (round to nearest, ties to
    even); zeros, infinities and NaN are kept. *)
Definition b64 (x : float) : float :=
  match x with
  | S754_finite s m e => binary_normalize 53 1024 (cond_Zopp s (Zpos m)) e s
  | _ => x
  end.

Definition b32 (x : float) : float :=
  match x with
  | S754_finite s m e => binary_normalize 24 128 (cond_Zopp s (Zpos m)) e s
  | _ => x
  end.

(** [np.float32(x)] for a Python float [x], read back as a Python float:
    the nearest float32, written in canonical binary64 form. *)
Definition f32 (x : float) : float := b64 (b32 x).

(** [float(z)] for a Python int. *)
Definition of_Z (z : Z) : float := binary_normalize 53 1024 z 0 false.

Definition zero : float := S754_zero false.
Definition div : float → float → float := SFdiv 53 1024.
Definition ltb : float → float → bool := SFltb.
Definition leb : float → float → bool := SFleb.

(** The float nearest to the decimal literal [n / d] (both exactly
    representable): division is correctly rounded. *)
Definition dec (n d : Z) : float := div (of_Z n) (of_Z d).

#[global] Instance float_eq_dec : EqDecision float.
Proof. solve_decision. Defined.

End Float.

Import Float.

(** ** Python values, heap objects and exceptions *)

Inductive exn :=
  | ValueError (msg : string)
  | TypeError (msg : string)
  | FileNotFoundError (msg : string)
  | OSError (msg : string)
  | RuntimeError (msg : string)
  | IndexError (msg : string)
  | KeyError (key : string)
  | BadReference.

Inductive result (A : Type) :=
  | Ok (a : A)
  | Raise (e : exn).
Arguments Ok {A} a.
Arguments Raise {A} e.

Definition is_ok {A} (r : result A) : bool :=
  match r with Ok _ => true | Raise _ => false end.

Definition loc := nat.

(** Immutable values are stored inline; dicts, lists and arrays are
    references into the heap. *)
Inductive pyval :=
  | VNone
  | VBool (b : bool)
  | VInt (z : Z)
  | VFloat (f : float)
  | VStr (s : string)
  | VTuple (vs : list pyval)
  | VRef (l : loc).

Inductive dtype := Float32 | Float64 | Int16 | Int32.

#[global] Instance dtype_eq_dec : EqDecision dtype.
Proof. solve_decision. Defined.

(** A numpy array: element type, shape and the elements in C order. *)
Record ndarray := NdArray {
  arr_dtype : dtype;
  arr_shape : list nat;
  arr_data : list float;
}.

Inductive pyobj :=
  | ODict (d : gmap string pyval)
  | OList (vs : list pyval)
  | OArray (a : ndarray).

(** ** JSON documents

    The text produced by [json.dumps] is represented by its document
    tree. *)
Inductive json :=
  | JNull
  | JBool (b : bool)
  | JInt (z : Z)
  | JFloat (f : float)
  | JStr (s : string)
  | JArr (js : list json)
  | JObj (kvs : list (string * json)).

(** ** The file system *)

(** An archive as [np.load] reads it: the three named entries.  The
    spacing of an archive is any triple of floats; [save_cached_volume]
    writes float32 values there, and [load_cached_volume] casts what it
    finds to float32. *)
Record npz := Npz {
  npz_data : ndarray;
  npz_spacing : float * float * float;
  npz_metadata_json : json;
}.

Inductive file :=
  | FNpz (a : npz)
  | FOther.

(** [raw_loads] is a ghost counter: the number of times a raw-volume
    loader has been invoked (see [call_loader]). *)
Record world := World {
  heap : list pyobj;
  files : gmap string file;
  dirs : gset string;
  raw_loads : nat;
}.

Definition set_heap (h : list pyobj) (w : world) : world :=
  World h (files w) (dirs w) (raw_loads w).
Definition set_files (f : gmap string file) (w : world) : world :=
  World (heap w) f (dirs w) (raw_loads w).
Definition set_dirs (d : gset string) (w : world) : world :=
  World (heap w) (files w) d (raw_loads w).
Definition set_raw_loads (n : nat) (w : world) : world :=
  World (heap w) (files w) (dirs w) n.

(** ** The state-and-exception monad

    A raised exception keeps the state reached so far: mutations done
    before the [raise] stay visible to the caller. *)
Definition M (A : Type) : Type := world → result A * world.

Definition ret {A} (a : A) : M A := λ w, (Ok a, w).
Definition raise {A} (e : exn) : M A := λ w, (Raise e, w).
Definition bind {A B} (m : M A) (k : A → M B) : M B :=
  λ w, match m w with
       | (Ok a, w') => k a w'
       | (Raise e, w') => (Raise e, w')
       end.

#[global] Instance M_ret : MRet M := @ret.
#[global] Instance M_bind : MBind M := λ A B k m, bind m k.

Definition get_world : M world := λ w, (Ok w, w).
Definition modify (f : world → world) : M unit := λ w, (Ok tt, f w).
Definition lift_result {A} (r : result A) : M A := λ w, (r, w).

Definition alloc (o : pyobj) : M loc :=
  λ w, (Ok (length (heap w)), set_heap (heap w ++ [o]) w).

Definition get_obj (l : loc) : M pyobj :=
  λ w, match heap w !! l with
       | Some o => (Ok o, w)
       | None => (Raise BadReference, w)
       end.

Definition set_obj (l : loc) (o : pyobj) : M unit :=
  λ w, match heap w !! l with
       | Some _ => (Ok tt, set_heap (<[l:=o]> (heap w)) w)
       | None => (Raise BadReference, w)
       end.

Definition get_array (l : loc) : M ndarray :=
  o ← get_obj l;
  match o with
  | OArray a => ret a
  | _ => raise (TypeError "expected a numpy array")
  end.

Definition dict_of (v : pyval) : M (gmap string pyval) :=
  match v with
  | VRef l =>
      o ← get_obj l;
      match o with
      | ODict d => ret d
      | _ => raise (TypeError "expected a dict")
      end
  | _ => raise (TypeError "expected a dict")
  end.

(** [target[key] = value] *)
Definition setitem (target : pyval) (key : string) (value : pyval) : M unit :=
  match target with
  | VRef l =>
      o ← get_obj l;
      match o with
      | ODict d => set_obj l (ODict (<[key:=value]> d))
      | OList _ => raise (TypeError "list indices must be integers or slices, not str")
      | OArray _ => raise (IndexError "only integers, slices and arrays are valid indices")
      end
  | _ => raise (TypeError "object does not support item assignment")
  end.

(** [d.get(key, default)], with [default] already evaluated. *)
Definition dict_get (d : pyval) (key : string) (default : pyval) : M pyval :=
  m ← dict_of d;
  ret (match m !! key with Some v => v | None => default end).

(** ** Errors without state *)

#[global] Instance result_ret : MRet result := @Ok.
#[global] Instance result_bind : MBind result := λ A B k r,
  match r with
  | Ok a => k a
  | Raise e => Raise e
  end.

Section MapM.
Context {A B : Type} (f : A → result B).

Fixpoint result_mapM (l : list A) : result (list B) :=
  match l with
  | [] => Ok []
  | x :: xs => y ← f x; ys ← result_mapM xs; Ok (y :: ys)
  end.

End MapM.

(** ** [json.dumps] and [json.loads]

    [dumps_fuel n h v] serialises [v], following at most [n] nested
    references into the heap [h].  [json.dumps] refuses a container that
    contains itself; here such a value exhausts any fuel, and with more
    fuel than there are heap objects only such values do. *)
Fixpoint dumps_fuel (n : nat) (h : list pyobj) : pyval → result json :=
  fix dumps_val (v : pyval) : result json :=
    match v with
    | VNone => Ok JNull
    | VBool b => Ok (JBool b)
    | VInt z => Ok (JInt z)
    | VFloat f => Ok (JFloat f)
    | VStr s => Ok (JStr s)
    | VTuple vs => js ← result_mapM dumps_val vs; Ok (JArr js)
    | VRef l =>
        match n with
        | O => Raise (ValueError "Circular reference detected")
        | S n' =>
            match h !! l with
            | Some (ODict d) =>
                kvs ← result_mapM
                        (λ kv : string * pyval,
                           j ← dumps_fuel n' h kv.2; Ok (kv.1, j))
                        (map_to_list d);
                Ok (JObj kvs)
            | Some (OList vs) =>
                js ← result_mapM (dumps_fuel n' h) vs; Ok (JArr js)
            | Some (OArray _) =>
                Raise (TypeError "Object of type ndarray is not JSON serializable")
            | None => Raise BadReference
            end
        end
    end.

Definition json_dumps (h : list pyobj) (v : pyval) : result json :=
  dumps_fuel (S (length h)) h v.

(** A dict built from key/value pairs in order: a later pair replaces an
    earlier one with the same key. *)
Definition dict_of_pairs (kvs : list (string * pyval)) : gmap string pyval :=
  foldl (λ m kv, <[kv.1 := kv.2]> m) ∅ kvs.

(** [json.loads]: objects become new dicts and arrays new lists, children
    before their parent. *)
Section LoadsChildren.
Context (load : json → list pyobj → pyval * list pyobj).

Fixpoint loads_items (js : list json) (h : list pyobj) : list pyval * list pyobj :=
  match js with
  | [] => ([], h)
  | j :: js =>
      let '(v, h1) := load j h in
      let '(vs, h2) := loads_items js h1 in
      (v :: vs, h2)
  end.

Fixpoint loads_pairs (kvs : list (string * json)) (h : list pyobj)
  : list (string * pyval) * list pyobj :=
  match kvs with
  | [] => ([], h)
  | kv :: kvs =>
      let '(v, h1) := load kv.2 h in
      let '(pairs, h2) := loads_pairs kvs h1 in
      ((kv.1, v) :: pairs, h2)
  end.

End LoadsChildren.

Fixpoint loads (j : json) (h : list pyobj) : pyval * list pyobj :=
  match j with
  | JNull => (VNone, h)
  | JBool b => (VBool b, h)
  | JInt z => (VInt z, h)
  | JFloat f => (VFloat f, h)
  | JStr s => (VStr s, h)
  | JArr js =>
      let '(vs, h1) := loads_items loads js h in
      (VRef (length h1), h1 ++ [OList vs])
  | JObj kvs =>
      let '(pairs, h1) := loads_pairs loads kvs h in
      (VRef (length h1), h1 ++ [ODict (dict_of_pairs pairs)])
  end.

Definition json_loads (j : json) : M pyval :=
  λ w, let '(v, h) := loads j (heap w) in (Ok v, set_heap h w).

(** Python truth value, as used by [x or y]. *)
Definition truthy (v : pyval) : M bool :=
  match v with
  | VNone => mret false
  | VBool b => mret b
  | VInt z => mret (negb (z =? 0))
  | VFloat f => mret (negb (SFeqb f zero))
  | VStr s => mret (negb (String.eqb s ""))
  | VTuple vs => mret (negb (bool_decide (vs = [])))
  | VRef l =>
      o ← get_obj l;
      match o with
      | ODict d => mret (negb (bool_decide (d = ∅)))
      | OList vs => mret (negb (bool_decide (vs = [])))
      | OArray a =>
          match arr_data a with
          | [] => mret false
          | [x] => mret (negb (SFeqb x zero))
          | _ => raise (ValueError "The truth value of an array with more than one element is ambiguous")
          end
      end
  end.

(** ** [pathlib] paths (POSIX flavour)

    A path is its root flag and its components; empty components and
    ["."] are dropped when a string is parsed, [".."] is kept. *)
Record Path := mkPath {
  path_absolute : bool;
  path_parts : list string;
}.

Definition slash : ascii := "/"%char.

Fixpoint split_slash (s : string) : list string :=
  match s with
  | EmptyString => [EmptyString]
  | String a s' =>
      match split_slash s' with
      | [] => [String a EmptyString]
      | c :: cs =>
          if Ascii.eqb a slash then EmptyString :: c :: cs
          else String a c :: cs
      end
  end.

Definition is_component (c : string) : bool :=
  negb (String.eqb c "") && negb (String.eqb c ".").

Definition starts_with_slash (s : string) : bool :=
  match s with
  | String a _ => Ascii.eqb a slash
  | EmptyString => false
  end.

(** [Path(s)] *)
Definition path_of_string (s : string) : Path :=
  mkPath (starts_with_slash s) (filter (λ c, is_component c = true) (split_slash s)).

(** [p / s]: an absolute right operand replaces the left one. *)
Definition path_join (p : Path) (s : string) : Path :=
  let q := path_of_string s in
  if path_absolute q then q
  else mkPath (path_absolute p) (path_parts p ++ path_parts q).

Fixpoint join_with_slash (l : list string) : string :=
  match l with
  | [] => ""
  | [c] => c
  | c :: cs => c +:+ "/" +:+ join_with_slash cs
  end.

(** [str(p)] *)
Definition path_str (p : Path) : string :=
  if path_absolute p then "/" +:+ join_with_slash (path_parts p)
  else match path_parts p with
       | [] => "."
       | _ => join_with_slash (path_parts p)
       end.

(** [p.name] and [p.parent] *)
Definition path_name (p : Path) : string := List.last (path_parts p) "".
Definition path_parent (p : Path) : Path :=
  mkPath (path_absolute p) (removelast (path_parts p)).

(** The path itself and its ancestors, nearest first. *)
Fixpoint path_ancestors_aux (a : bool) (rev_parts : list string) : list Path :=
  match rev_parts with
  | [] => []
  | _ :: rest => mkPath a (rev rev_parts) :: path_ancestors_aux a rest
  end.
Definition path_and_ancestors (p : Path) : list Path :=
  path_ancestors_aux (path_absolute p) (rev (path_parts p)).

(** [p.exists()] *)
Definition path_exists (p : Path) : M bool :=
  λ w, (Ok (bool_decide (is_Some (files w !! path_str p))
            || bool_decide (path_str p ∈ dirs w)), w).

(** [p.mkdir(parents=True, exist_ok=True)]: fails only when the path or
    one of its ancestors is an existing file. *)
Definition path_mkdir_parents (p : Path) : M unit :=
  λ w,
    if bool_decide (Exists (λ q, is_Some (files w !! path_str q)) (path_and_ancestors p))
    then (Raise (OSError "File exists or not a directory"), w)
    else (Ok tt, set_dirs (list_to_set (path_str <$> path_and_ancestors p) ∪ dirs w) w).

(** [s.replace(c, d)] for single characters. *)
Fixpoint str_replace_char (c d : ascii) (s : string) : string :=
  match s with
  | EmptyString => EmptyString
  | String a s' => String (if Ascii.eqb a c then d else a) (str_replace_char c d s')
  end.

(** ** Library functions taken as given

    [scipy.ndimage.gaussian_filter] and [scipy.ndimage.zoom] compute a
    new array from the contents of their argument and never write to it;
    [repr_float] is Python's [repr] of a float. *)
Class External := {
  repr_float : float → string;
  gaussian_filter : ndarray → float → result ndarray;
  zoom : ndarray → float * float * float → Z → result ndarray;
}.

(** * [src/preprocess/normalize_resample.py] *)

Module NormalizeResample.

Definition Spacing3D : Type := float * float * float.

Record CTVolume := mkCTVolume {
  ct_data : loc;
  ct_spacing : Spacing3D;
  ct_metadata : pyval;
}.

(** [a.astype(np.float32, copy=False)]: the array itself when it already
    is float32, a converted copy otherwise. *)
Definition cast_float32 (a : ndarray) : ndarray :=
  NdArray Float32 (arr_shape a) (f32 <$> arr_data a).

Definition astype_float32 (l : loc) : M loc :=
  a ← get_array l;
  if decide (arr_dtype a = Float32) then ret l
  else alloc (OArray (cast_float32 a)).

(** One element of [np.clip]: [min(max(x, lo), hi)] where NaN is kept. *)
Definition is_nan (x : float) : bool :=
  match x with S754_nan => true | _ => false end.
Definition npy_max (a b : float) : float :=
  if is_nan a || ltb b a then a else b.
Definition npy_min (a b : float) : float :=
  if is_nan a || ltb a b then a else b.
Definition clip1 (lo hi x : float) : float := npy_min (npy_max x lo) hi.

(** [np.clip(v, lo, hi, out=v)] on a float32 array with Python int
    bounds: the bounds are taken as float32, the result is written into
    [v] and [v] is returned. *)
Definition clip_array (lo hi : Z) (a : ndarray) : ndarray :=
  NdArray (arr_dtype a) (arr_shape a)
    (clip1 (f32 (of_Z lo)) (f32 (of_Z hi)) <$> arr_data a).

Definition clip_out (v : loc) (lo hi : Z) : M loc :=
  a ← get_array v;
  set_obj v (OArray (clip_array lo hi a));;
  ret v.

Definition clamp_hu (volume : loc) (hu_min hu_max : Z) : M loc :=
  v ← astype_float32 volume;
  clip_out v hu_min hu_max.

Section WithLibraries.
Context `{External}.

Definition maybe_denoise (volume : loc) (enabled : bool) (sigma : float) : M loc :=
  if negb enabled then ret volume
  else
    v ← astype_float32 volume;
    a ← get_array v;
    r ← lift_result (gaussian_filter a sigma);
    out ← alloc (OArray r);
    astype_float32 out.

Definition repr_spacing (s : Spacing3D) : string :=
  let '(z, y, x) := s in
  "(" +:+ repr_float z +:+ ", " +:+ repr_float y +:+ ", " +:+ repr_float x +:+ ")".

Definition compute_zoom_factors (current_spacing target_spacing : Spacing3D)
  : result (float * float * float) :=
  let '(sz, sy, sx) := current_spacing in
  let '(tz, ty, tx) := target_spacing in
  if leb tz zero || leb ty zero || leb tx zero then
    Raise (ValueError ("Target spacing must be positive, got "
                       +:+ repr_spacing target_spacing))
  else Ok (div sz tz, div sy ty, div sx tx).

Definition resample_to_spacing (volume : loc) (current_spacing target_spacing : Spacing3D)
    (order : Z) : M loc :=
  zoom_factors ← lift_result (compute_zoom_factors current_spacing target_spacing);
  v ← astype_float32 volume;
  a ← get_array v;
  r ← lift_result (zoom a zoom_factors order);
  resampled ← alloc (OArray r);
  astype_float32 resampled.

(** The keyword arguments of [normalize_and_resample]. *)
Record normalize_kwargs := mkKwargs {
  target_spacing : Spacing3D;
  hu_window : Z * Z;
  apply_denoising : bool;
  denoise_sigma : float;
  interpolation_order : Z;
}.

Definition one : float := of_Z 1.

Definition default_kwargs : normalize_kwargs :=
  mkKwargs (one, one, one) (-1000, 400) false (dec 75 100) 1.

Definition spacing_tuple (s : Spacing3D) : pyval :=
  let '(z, y, x) := s in VTuple [VFloat z; VFloat y; VFloat x].

(** The dict literal stored under ["normalize_resample"]. *)
Definition normalize_record (kw : normalize_kwargs) : gmap string pyval :=
  let '(hu_min, hu_max) := hu_window kw in
  <["interpolation_order" := VInt (interpolation_order kw)]>
  (<["target_spacing_mm" := spacing_tuple (target_spacing kw)]>
  (<["denoise_sigma" := VFloat (denoise_sigma kw)]>
  (<["apply_denoising" := VBool (apply_denoising kw)]>
  (<["hu_window" := VTuple [VFloat (of_Z hu_min); VFloat (of_Z hu_max)]]> ∅)))).

(** [dict(metadata) if metadata is not None else {}] *)
Definition copy_metadata (metadata : pyval) : M pyval :=
  match metadata with
  | VNone => l ← alloc (ODict ∅); ret (VRef l)
  | _ => d ← dict_of metadata; l ← alloc (ODict d); ret (VRef l)
  end.

Definition normalize_and_resample (volume : loc) (spacing : Spacing3D)
    (metadata : pyval) (kw : normalize_kwargs) : M CTVolume :=
  let '(hu_min, hu_max) := hu_window kw in
  (* 1. Clamp HU *)
  v ← clamp_hu volume hu_min hu_max;
  (* 2. Optional denoising *)
  v ← maybe_denoise v (apply_denoising kw) (denoise_sigma kw);
  (* 3. Resample to target spacing *)
  v ← resample_to_spacing v spacing (target_spacing kw) (interpolation_order kw);
  (* 4. Metadata update *)
  meta ← copy_metadata metadata;
  setitem meta "spacing_mm" (spacing_tuple (target_spacing kw));;
  empty ← alloc (ODict ∅);
  preprocessing_info ← dict_get meta "preprocessing" (VRef empty);
  record ← alloc (ODict (normalize_record kw));
  setitem preprocessing_info "normalize_resample" (VRef record);;
  setitem meta "preprocessing" preprocessing_info;;
  data ← astype_float32 v;
  ret (mkCTVolume data (target_spacing kw) meta).

(** *** Caching helpers *)

Definition cache_suffix : string := "_normalized_resampled.npz".

Definition _cache_path_for_key (cache_dir : Path) (cache_key : string) : M Path :=
  path_mkdir_parents cache_dir;;
  let safe_key := str_replace_char slash "_" cache_key in
  mret (path_join cache_dir (safe_key +:+ cache_suffix)).

(** [np.savez_compressed(file, ...)]: the name gets [.npz] appended unless
    it already ends with it; the directory must exist. *)
Fixpoint ends_with (suffix s : string) : bool :=
  String.eqb suffix s
  || match s with
     | EmptyString => false
     | String _ s' => ends_with suffix s'
     end.

Definition npz_file_name (p : Path) : string :=
  if ends_with ".npz" (path_str p) then path_str p else path_str p +:+ ".npz".

Definition dir_exists (p : Path) (w : world) : bool :=
  bool_decide (path_parts p = []) || bool_decide (path_str p ∈ dirs w).

Definition savez_compressed (p : Path) (a : npz) : M unit :=
  λ w,
    if bool_decide (npz_file_name p ∈ dirs w) then
      (Raise (OSError "Is a directory"), w)
    else if negb (dir_exists (path_parent p) w) then
      (Raise (FileNotFoundError "No such file or directory"), w)
    else (Ok tt, set_files (<[npz_file_name p := FNpz a]> (files w)) w).

(** [np.load(path, allow_pickle=False)] followed by the three lookups. *)
Definition np_load (p : Path) : M npz :=
  λ w,
    match files w !! path_str p with
    | Some (FNpz a) => (Ok a, w)
    | Some FOther => (Raise (ValueError "Cannot load file"), w)
    | None =>
        if bool_decide (path_str p ∈ dirs w) then (Raise (OSError "Is a directory"), w)
        else (Raise (FileNotFoundError "No such file or directory"), w)
    end.

Definition spacing_float32 (s : Spacing3D) : Spacing3D :=
  let '(z, y, x) := s in (f32 z, f32 y, f32 x).

Definition save_cached_volume (ct_volume : CTVolume) (cache_path : Path) : M unit :=
  keep ← truthy (ct_metadata ct_volume);
  metadata ← (if keep : bool then ret (ct_metadata ct_volume)
              else l ← alloc (ODict ∅); ret (VRef l));
  w ← get_world;
  metadata_json ← lift_result (json_dumps (heap w) metadata);
  data ← astype_float32 (ct_data ct_volume);
  a ← get_array data;
  savez_compressed cache_path
    (Npz a (spacing_float32 (ct_spacing ct_volume)) metadata_json).

Definition load_cached_volume (cache_path : Path) : M CTVolume :=
  found ← path_exists cache_path;
  if negb found then
    raise (FileNotFoundError ("No cached volume at " +:+ path_str cache_path))
  else
    npz ← np_load cache_path;
    loaded ← alloc (OArray (npz_data npz));
    data ← astype_float32 loaded;
    let spacing_arr := spacing_float32 (npz_spacing npz) in
    metadata ← json_loads (npz_metadata_json npz);
    mret (mkCTVolume data spacing_arr metadata).

(** The raw loader is any computation; each invocation is counted. *)
Definition RawLoader : Type := M (loc * Spacing3D * pyval).

Definition call_loader (load_raw_fn : RawLoader) : M (loc * Spacing3D * pyval) :=
  λ w, let '(r, w') := load_raw_fn w in
       (r, set_raw_loads (S (raw_loads w)) w').

Definition normalize_and_resample_with_cache (cache_key : string)
    (load_raw_fn : RawLoader) (cache_dir : Path) (force_recompute : bool)
    (kw : normalize_kwargs) : M (CTVolume * Path) :=
  cache_path ← _cache_path_for_key cache_dir cache_key;
  found ← path_exists cache_path;
  if found && negb force_recompute then
    ct ← load_cached_volume cache_path;
    mret (ct, cache_path)
  else
    raw ← call_loader load_raw_fn;
    let '(volume, spacing, metadata) := raw in
    ct ← normalize_and_resample volume spacing metadata kw;
    save_cached_volume ct cache_path;;
    mret (ct, cache_path).

End WithLibraries.
End NormalizeResample.

(** * [scipy.ndimage] on flat boolean volumes

    A volume of shape (Z, Y, X) is the list of its voxels in C order;
    [Y] and [X] are enough to find the neighbours of a voxel. *)

Module Ndimage.

Definition coords (Y X i : nat) : nat * nat * nat :=
  (i / (Y * X), (i / X) mod Y, i mod X)%nat.

Definition dist (a b : nat) : nat := ((a - b) + (b - a))%nat.

(** Face adjacency: the structuring element of connectivity 1. *)
Definition adjacent (Y X i j : nat) : bool :=
  let '(zi, yi, xi) := coords Y X i in
  let '(zj, yj, xj) := coords Y X j in
  (dist zi zj + dist yi yj + dist xi xj =? 1)%nat.

Definition has_neighbour (Y X : nat) (P : nat → bool) (n i : nat) : bool :=
  existsb (λ k, adjacent Y X i k && P k) (seq 0 n).

(** [label]: components are numbered from 1 in the order in which a scan
    of the voxels meets them; each is filled from its first voxel. *)
Definition sweep (Y X : nat) (thresh : list bool) (cur : nat) (labels : list nat)
  : list nat :=
  imap (λ j lj,
          if (lj =? 0)%nat && nth j thresh false
             && has_neighbour Y X (λ k, (nth k labels 0 =? cur)%nat) (length labels) j
          then cur else lj) labels.

Definition flood (Y X : nat) (thresh : list bool) (cur : nat) (labels : list nat)
  : list nat :=
  Nat.iter (length labels) (sweep Y X thresh cur) labels.

Definition label (Y X : nat) (thresh : list bool) : list nat * nat :=
  foldl (λ (st : list nat * nat) i,
           let '(labels, next) := st in
           if nth i thresh false && (nth i labels 0 =? 0)%nat
           then (flood Y X thresh (S next) (<[i := S next]> labels), S next)
           else (labels, next))
    (replicate (length thresh) 0, 0)%nat (seq 0 (length thresh)).

(** One step of dilation and of erosion with the face structuring
    element; outside the volume counts as false. *)
Definition dilate (Y X : nat) (m : list bool) : list bool :=
  imap (λ i b, b || has_neighbour Y X (λ k, nth k m false) (length m) i) m.

Definition erode (Y X : nat) (m : list bool) : list bool :=
  imap (λ i b,
          b && (length (List.filter (λ k, adjacent Y X i k && nth k m false)
                          (seq 0 (length m))) =? 6)%nat) m.

(** [binary_closing(m, structure, iterations)], [iterations] ≥ 1. *)
Definition binary_closing (Y X : nat) (iterations : nat) (m : list bool) : list bool :=
  Nat.iter iterations (erode Y X) (Nat.iter iterations (dilate Y X) m).

(** [binary_fill_holes] on one slice of shape (Y, X): the background that
    is connected to the border stays false, the rest becomes true. *)
Definition on_border (Y X i : nat) : bool :=
  let '(_, y, x) := coords Y X i in
  (y =? 0)%nat || (S y =? Y)%nat || (x =? 0)%nat || (S x =? X)%nat.

Definition spread (Y X : nat) (m reached : list bool) : list bool :=
  imap (λ i r,
          r || (negb (nth i m true)
                && has_neighbour Y X (λ k, nth k reached false) (length reached) i))
    reached.

Definition binary_fill_holes (Y X : nat) (m : list bool) : list bool :=
  negb <$> Nat.iter (length m) (spread Y X m)
             (imap (λ i b, negb b && on_border Y X i) m).

End Ndimage.

(** * [src/preprocess/segment_lung.py] *)

Module SegmentLung.

Record LungSegmentationConfig := mkConfig {
  hu_threshold : float;
  min_component_size : Z;
  num_components_to_keep : Z;
  closing_iterations : Z;
  fill_holes : bool;
}.

Definition default_config : LungSegmentationConfig :=
  mkConfig (of_Z (-320)) 10000 2 2 true.

(** A boolean mask with its shape. *)
Record mask := Mask {
  mask_shape : list nat;
  mask_data : list bool;
}.

(** [repr] of a tuple of ints. *)
Fixpoint join_comma (l : list string) : string :=
  match l with
  | [] => ""
  | [s] => s
  | s :: r => s +:+ ", " +:+ join_comma r
  end.

Definition repr_shape (shape : list nat) : string :=
  match shape with
  | [n] => "(" +:+ pretty n +:+ ",)"
  | _ => "(" +:+ join_comma (pretty <$> shape) +:+ ")"
  end.

(** [np.zeros_like(thresh, dtype=bool)] *)
Definition zeros_like (shape : list nat) (thresh : list bool) : mask :=
  Mask shape (replicate (length thresh) false).

(** [volume_hu < hu_threshold]: a float32 volume is compared in float32. *)
Definition below (dt : dtype) (threshold x : float) : bool :=
  match dt with
  | Float32 => ltb x (f32 threshold)
  | _ => ltb x threshold
  end.

(** [np.bincount(labeled.ravel())] *)
Definition bincount (l : list nat) : list nat :=
  (λ i, length (List.filter (Nat.eqb i) l)) <$> seq 0 (S (max_list l)).

Definition isin (x : nat) (l : list nat) : bool := existsb (Nat.eqb x) l.

(** [np.argsort(sizes)]: the indices by ascending size, equal sizes in
    index order. *)
Fixpoint insert_by (sizes : list nat) (i : nat) (l : list nat) : list nat :=
  match l with
  | [] => [i]
  | j :: r =>
      if (nth i sizes 0 <=? nth j sizes 0)%nat then i :: j :: r
      else j :: insert_by sizes i r
  end.

Definition argsort (sizes : list nat) : list nat :=
  foldr (insert_by sizes) [] (seq 0 (length sizes)).

(** [l[start:]] for a Python int [start]. *)
Definition slice_from {A} (start : Z) (l : list A) : list A :=
  let n := Z.of_nat (length l) in
  drop (Z.to_nat (if start <? 0 then Z.max 0 (n + start) else Z.min start n)) l.

(** Size filtering and top-N selection on the labelled volume: the mask
    before morphology, or [None] where the code returns the all-false
    mask because no component is left. *)
Definition select_components (config : LungSegmentationConfig)
    (labeled : list nat) : option (list bool) :=
  let component_sizes := <[0%nat := 0%nat]> (bincount labeled) in
  let too_small :=
    if 0 <? min_component_size config then
      List.filter (λ i, Z.of_nat (nth i component_sizes 0%nat) <? min_component_size config)
        (seq 0 (length component_sizes))
    else [] in
  let labeled := (λ l, if isin l too_small then 0%nat else l) <$> labeled in
  let component_sizes :=
    imap (λ i s, if isin i too_small then 0%nat else s) component_sizes in
  if forallb (Nat.eqb 0) component_sizes then None
  else
    let keep_labels :=
      slice_from (- num_components_to_keep config) (argsort component_sizes) in
    Some ((λ l, isin l keep_labels) <$> labeled).

(** Morphological closing, then hole filling slice by slice. *)
Definition postprocess (config : LungSegmentationConfig) (Z Y X : nat)
    (lung_mask : list bool) : list bool :=
  let lung_mask :=
    if 0 <? closing_iterations config then
      Ndimage.binary_closing Y X (Z.to_nat (closing_iterations config)) lung_mask
    else lung_mask in
  if fill_holes config then
    flat_map (λ z, Ndimage.binary_fill_holes Y X
                     (take (Y * X) (drop (z * (Y * X)) lung_mask)))
      (seq 0 Z)
  else lung_mask.

Definition segment_lung (volume_hu : ndarray) (spacing_mm : option (list float))
    (config : option LungSegmentationConfig) : result mask :=
  let config := default default_config config in
  match arr_shape volume_hu with
  | [Z; Y; X] =>
      let thresh :=
        below (arr_dtype volume_hu) (hu_threshold config) <$> arr_data volume_hu in
      if negb (existsb id thresh) then Ok (zeros_like [Z; Y; X] thresh)
      else
        let '(labeled, num_features) := Ndimage.label Y X thresh in
        if (num_features =? 0)%nat then Ok (zeros_like [Z; Y; X] thresh)
        else
          match select_components config labeled with
          | None => Ok (zeros_like [Z; Y; X] thresh)
          | Some lung_mask => Ok (Mask [Z; Y; X] (postprocess config Z Y X lung_mask))
          end
  | shape =>
      Raise (ValueError ("Expected 3D volume, got shape " +:+ repr_shape shape))
  end.

(** [np.save(file, arr)]: the name gets [.npy] appended unless it already
    ends with it, and the directory must exist.  The world records that
    the file is there, not what the mask in it holds. *)
Definition npy_file_name (p : Path) : string :=
  if NormalizeResample.ends_with ".npy" (path_str p) then path_str p
  else path_str p +:+ ".npy".

Definition np_save (p : Path) : M unit :=
  λ w,
    if bool_decide (npy_file_name p ∈ dirs w) then
      (Raise (OSError "Is a directory"), w)
    else if negb (NormalizeResample.dir_exists (path_parent p) w) then
      (Raise (FileNotFoundError "No such file or directory"), w)
    else (Ok tt, set_files (<[npy_file_name p := FOther]> (files w)) w).

Definition segment_lung_and_save (volume_hu : ndarray)
    (spacing_mm : option (list float)) (cache_path : option Path)
    (config : option LungSegmentationConfig) : M mask :=
  lung_mask ← lift_result (segment_lung volume_hu spacing_mm config);
  match cache_path with
  | Some cache_path =>
      path_mkdir_parents (path_parent cache_path);;
      np_save cache_path;;
      mret lung_mask
  | None => mret lung_mask
  end.

End SegmentLung.

(** * [src/preprocess/run.py]: where a series is cached *)

Module Run.

Definition COL_DATASET_NAME : string := "dataset_name".

Definition _build_cache_key (dataset_name series_uid : string) : string :=
  dataset_name +:+ "__" +:+ series_uid.

(** A metadata row, its values already converted with [str]; a missing
    key is what [row.get] reports as [None].  The raw path is returned
    without [expanduser().resolve()]. *)
Definition _build_paths_for_series (data_root output_root : Path)
    (row : gmap string string) (input_path_field series_uid_field : string)
  : result (Path * Path * Path * string * string) :=
  let dataset_name := default "UNKNOWN" (row !! COL_DATASET_NAME) in
  series_uid ← match row !! series_uid_field with
               | Some s => Ok s
               | None => Raise (KeyError series_uid_field)
               end;
  match row !! input_path_field with
  | None =>
      Raise (ValueError ("Row for series_uid='" +:+ series_uid +:+ "' has no '"
                         +:+ input_path_field +:+ "' field"))
  | Some raw_rel =>
      let raw_path := path_join data_root raw_rel in
      let dataset_root := path_join output_root dataset_name in
      let vol_cache_dir := path_join dataset_root "volumes" in
      let mask_cache_dir := path_join dataset_root "lung_masks" in
      let cache_key := _build_cache_key dataset_name series_uid in
      Ok (raw_path, vol_cache_dir, mask_cache_dir, dataset_name, cache_key)
  end.

(** The keys that [extract_normalization_kwargs] forwards, in the order
    of its loop. *)
Definition normalization_keys : list string :=
  ["target_spacing"; "hu_window"; "apply_denoising"; "denoise_sigma";
   "interpolation_order"].

Definition extract_normalization_kwargs (norm_cfg : option (gmap string pyval))
  : gmap string pyval :=
  match norm_cfg with
  | None => ∅
  | Some cfg =>
      if bool_decide (cfg = ∅) then ∅
      else
        foldl (λ out key,
                 match cfg !! key with
                 | Some v => <[key := v]> out
                 | None => out
                 end) ∅ normalization_keys
  end.

(** [target.setdefault(key, value)], its result dropped. *)
Definition setdefault (target : pyval) (key : string) (value : pyval) : M unit :=
  d ← dict_of target;
  match d !! key with
  | Some _ => mret tt
  | None => setitem target key value
  end.

(** [masked_volume[~lung_mask] = -1024.0]: the mask must have the shape
    of the volume. *)
Definition mask_outside_lung (a : ndarray) (lung_mask : SegmentLung.mask)
  : result ndarray :=
  if decide (SegmentLung.mask_shape lung_mask = arr_shape a) then
    Ok (NdArray (arr_dtype a) (arr_shape a)
          (zip_with (λ x (b : bool), if b then x else of_Z (-1024))
             (arr_data a) (SegmentLung.mask_data lung_mask)))
  else Raise (IndexError "boolean index did not match indexed array").

(** The loader that [preprocess_single_series] hands to the cache: a
    closure over the paths, the key, the segmentation configuration and
    the metadata row.  [load_ct_series] comes from the viewer module and
    yields the loaded volume with its spacing. *)
Section Loader.
Context (load_ct_series : Path → M (loc * NormalizeResample.Spacing3D)).

Definition load_raw_fn (raw_path mask_cache_dir : Path) (cache_key : string)
    (seg_config : SegmentLung.LungSegmentationConfig) (row : pyval)
    (dataset_name : string) : NormalizeResample.RawLoader :=
  (* 1) Load raw CT series *)
  ct ← load_ct_series raw_path;
  let '(volume, spacing) := ct in
  let '(sz, sy, sx) := spacing in
  (* 2) Segment lungs and save mask *)
  let mask_cache_path := path_join mask_cache_dir (cache_key +:+ "_lungmask.npy") in
  a ← get_array volume;
  lung_mask ← SegmentLung.segment_lung_and_save a (Some [sz; sy; sx])
                 (Some mask_cache_path) (Some seg_config);
  (* 3) Apply mask *)
  masked_volume ← alloc (OArray a);
  masked ← lift_result (mask_outside_lung a lung_mask);
  set_obj masked_volume (OArray masked);;
  (* 4) Build metadata *)
  d ← dict_of row;
  metadata ← alloc (ODict d);
  setdefault (VRef metadata) "source_path" (VStr (path_str raw_path));;
  setdefault (VRef metadata) "dataset_name" (VStr dataset_name);;
  mret (masked_volume, spacing, VRef metadata).

End Loader.

End Run.

(** ** Which computations leave an array alone

    [keeps_array l a m]: when [l] holds the array [a] before [m] runs, it
    still holds [a] afterwards, whether [m] returns or raises. *)

Definition keeps_array {A} (l : loc) (a : ndarray) (m : M A) : Prop :=
  ∀ w r w', m w = (r, w') →
    heap w !! l = Some (OArray a) → heap w' !! l = Some (OArray a).

(** ** Concrete inputs for running the model *)

(** A stand-in for the library routines: floats print as [?], smoothing
    and interpolation hand back their input. *)
Definition plain_libs : External := {|
  repr_float := λ _, "?";
  gaussian_filter := λ a _, Ok a;
  zoom := λ a _ _, Ok a;
|}.

Definition world0 (h : list pyobj) : world := World h ∅ ∅ 0.

(** ** Vocabulary of the statements *)

(** Some component of a spacing triple is zero or negative. *)
Definition has_nonpositive (s : NormalizeResample.Spacing3D) : bool :=
  let '(z, y, x) := s in leb z zero || leb y zero || leb x zero.

(** What the caller's array holds once the HU clamp has run. *)
Definition after_clamp (lo hi : Z) (a : ndarray) : ndarray :=
  if decide (arr_dtype a = Float32) then NormalizeResample.clip_array lo hi a else a.

(** Step 4 of [normalize_and_resample] on its own: the statements from
    [meta = dict(metadata)] to the [return], for the resampled array [v]. *)
Definition metadata_stage (v : loc) (metadata : pyval)
    (kw : NormalizeResample.normalize_kwargs) : M NormalizeResample.CTVolume :=
  meta ← NormalizeResample.copy_metadata metadata;
  setitem meta "spacing_mm"
    (NormalizeResample.spacing_tuple (NormalizeResample.target_spacing kw));;
  empty ← alloc (ODict ∅);
  preprocessing_info ← dict_get meta "preprocessing" (VRef empty);
  record ← alloc (ODict (NormalizeResample.normalize_record kw));
  setitem preprocessing_info "normalize_resample" (VRef record);;
  setitem meta "preprocessing" preprocessing_info;;
  data ← NormalizeResample.astype_float32 v;
  mret (NormalizeResample.mkCTVolume data (NormalizeResample.target_spacing kw) meta).

(** [m] only allocates: the heap grows at its end, files are untouched. *)
Definition only_allocates {A} (m : M A) : Prop :=
  ∀ w r w', m w = (r, w') →
    ∃ new, heap w' = heap w ++ new ∧ files w' = files w ∧ dirs w' = dirs w.

(** A two-voxel float32 volume and a metadata dict that already has
    ["spacing_mm"] and a ["preprocessing"] sub-mapping:

      heap[0] = array([[[-2000., 900.]]], dtype=float32)
      heap[1] = {"series_uid": "abc", "spacing_mm": "legacy",
                 "preprocessing": heap[2]}
      heap[2] = {"normalize_resample": "old", "segmentation": "done"}  *)
Definition sample_volume : ndarray :=
  NdArray Float32 [1; 1; 2]%nat [of_Z (-2000); of_Z 900].

Definition sample_preprocessing : gmap string pyval :=
  <["normalize_resample" := VStr "old"]> (<["segmentation" := VStr "done"]> ∅).

Definition sample_metadata : gmap string pyval :=
  <["series_uid" := VStr "abc"]>
  (<["spacing_mm" := VStr "legacy"]>
  (<["preprocessing" := VRef 2%nat]> ∅)).

Definition sample_world : world :=
  world0 [OArray sample_volume; ODict sample_metadata; ODict sample_preprocessing].

Definition sample_spacing : NormalizeResample.Spacing3D :=
  (of_Z 2, NormalizeResample.one, NormalizeResample.one).

(** [normalize_and_resample(volume, spacing, metadata)] on the sample, with
    the default keyword arguments. *)
Definition sample_run : result NormalizeResample.CTVolume * world :=
  NormalizeResample.normalize_and_resample (H := plain_libs)
    0%nat sample_spacing (VRef 1%nat) NormalizeResample.default_kwargs sample_world.

Definition unit_spacing_tuple : pyval :=
  VTuple [VFloat (of_Z 1); VFloat (of_Z 1); VFloat (of_Z 1)].

(** The string has a ["/"] in it. *)
Fixpoint has_slash (s : string) : bool :=
  match s with
  | EmptyString => false
  | String a s' => Ascii.eqb a slash || has_slash s'
  end.

(** The metadata row of series [series_uid] of [dataset], stored at
    [raw_rel]. *)
Definition series_row (dataset series_uid raw_rel : string) : gmap string string :=
  <["dataset_name" := dataset]>
  (<["series_uid" := series_uid]>
  (<["raw_image_path" := raw_rel]> ∅)).

(** The cache file of a key and the world once the cache directory has
    been made. *)
Definition cache_path (cache_dir : Path) (cache_key : string) : Path :=
  path_join cache_dir
    (str_replace_char slash "_" cache_key +:+ NormalizeResample.cache_suffix).

Definition after_mkdir (cache_dir : Path) (w : world) : world :=
  set_dirs (list_to_set (path_str <$> path_and_ancestors cache_dir) ∪ dirs w) w.

(** No file stands where the directory or one of its ancestors should be,
    so that [mkdir(parents=True, exist_ok=True)] goes through. *)
Definition mkdir_possible (cache_dir : Path) (w : world) : Prop :=
  Forall (λ q, files w !! path_str q = None) (path_and_ancestors cache_dir).

(** [Path.exists()] as a test on the world. *)
Definition exists_in (p : Path) (w : world) : bool :=
  bool_decide (is_Some (files w !! path_str p))
  || bool_decide (path_str p ∈ dirs w).

(** [m] never changes the count of raw-loader invocations. *)
Definition keeps_count {A} (m : M A) : Prop :=
  ∀ w r w', m w = (r, w') → raw_loads w' = raw_loads w.

(** The two branches of [normalize_and_resample_with_cache], once the
    cache path is known. *)
Definition hit_branch (p : Path) : M (NormalizeResample.CTVolume * Path) :=
  ct ← NormalizeResample.load_cached_volume p;
  mret (ct, p).

Definition miss_branch `{External} (load_raw_fn : NormalizeResample.RawLoader)
    (kw : NormalizeResample.normalize_kwargs) (p : Path)
  : M (NormalizeResample.CTVolume * Path) :=
  raw ← NormalizeResample.call_loader load_raw_fn;
  let '(volume, spacing, metadata) := raw in
  ct ← NormalizeResample.normalize_and_resample volume spacing metadata kw;
  NormalizeResample.save_cached_volume ct p;;
  mret (ct, p).

(** A raw loader that hands out the sample volume and metadata, and the
    first cached call on the sample world. *)
Definition sample_loader : NormalizeResample.RawLoader :=
  mret (0%nat, sample_spacing, VRef 1%nat).

Definition sample_cache_dir : Path := path_of_string "out/nlst/volumes".

Definition sample_cached_call (force : bool) (w : world)
  : result (NormalizeResample.CTVolume * Path) * world :=
  NormalizeResample.normalize_and_resample_with_cache (H := plain_libs)
    "nlst__1.2.3" sample_loader sample_cache_dir force
    NormalizeResample.default_kwargs w.

Definition sample_world_cached : world := snd (sample_cached_call false sample_world).

(** The number of containers of a JSON document: what [json.loads]
    allocates for it. *)
Fixpoint json_allocs (j : json) : nat :=
  match j with
  | JArr js => S (sum_list_with json_allocs js)
  | JObj kvs => S (sum_list_with (λ kv, json_allocs kv.2) kvs)
  | _ => 0%nat
  end.

(** [j] survives [loads] then [dumps]: loading it on any heap allocates
    [json_allocs j] objects at the end and yields a value that serialises
    to [j] again, also after further allocations. *)
Definition reloads (j : json) : Prop :=
  ∀ h, ∃ v new,
    loads j h = (v, h ++ new)
    ∧ length new = json_allocs j
    ∧ ∀ n ext, (json_allocs j ≤ n)%nat → dumps_fuel n (h ++ new ++ ext) v = Ok j.

Definition reloads_items (js : list json) : Prop :=
  ∀ h, ∃ vs new,
    loads_items loads js h = (vs, h ++ new)
    ∧ length new = sum_list_with json_allocs js
    ∧ ∀ n ext, (sum_list_with json_allocs js ≤ n)%nat →
        result_mapM (dumps_fuel n (h ++ new ++ ext)) vs = Ok js.

Definition reloads_pairs (kvs : list (string * json)) : Prop :=
  ∀ h, ∃ pairs new,
    loads_pairs loads kvs h = (pairs, h ++ new)
    ∧ length new = sum_list_with (λ kv, json_allocs kv.2) kvs
    ∧ pairs.*1 = kvs.*1
    ∧ ∀ n ext, (sum_list_with (λ kv, json_allocs kv.2) kvs ≤ n)%nat →
        result_mapM (λ kv : string * pyval,
                       j ← dumps_fuel n (h ++ new ++ ext) kv.2; Ok (kv.1, j)) pairs
        = Ok kvs.

(** [json.dumps(metadata or {})], evaluated in [w]. *)
Definition json_of_metadata (w : world) (metadata : pyval) : result json :=
  match truthy metadata w with
  | (Ok true, _) => json_dumps (heap w) metadata
  | (Ok false, _) => Ok (JObj [])
  | (Raise e, _) => Raise e
  end.

(** The contents of [a.astype(np.float32, copy=False)]. *)
Definition as_float32 (a : ndarray) : ndarray :=
  if decide (arr_dtype a = Float32) then a else NormalizeResample.cast_float32 a.

(** A volume with spacing (2.5, 0.8, 0.8) mm over the sample array and
    metadata, and its save to [ct_volume.npz] followed by the load. *)
Definition sample_ct : NormalizeResample.CTVolume :=
  NormalizeResample.mkCTVolume 0%nat (dec 25 10, dec 8 10, dec 8 10) (VRef 1%nat).

Definition sample_npz_path : Path := path_of_string "ct_volume.npz".

Definition sample_saved : result unit * world :=
  NormalizeResample.save_cached_volume sample_ct sample_npz_path sample_world.

Definition sample_reloaded : result NormalizeResample.CTVolume * world :=
  NormalizeResample.load_cached_volume sample_npz_path (snd sample_saved).

(** ** Vocabulary for the segmentation properties *)

(** The voxels below the threshold, as [segment_lung] computes them. *)
Definition threshold_mask (volume_hu : ndarray)
    (config : SegmentLung.LungSegmentationConfig) : list bool :=
  SegmentLung.below (arr_dtype volume_hu) (SegmentLung.hu_threshold config)
    <$> arr_data volume_hu.

(** The number of voxels that carry the label [l]. *)
Definition voxel_count (l : nat) (labeled : list nat) : nat :=
  length (List.filter (Nat.eqb l) labeled).

(** Size filtering is on and no component reaches the minimum size. *)
Definition all_too_small (config : SegmentLung.LungSegmentationConfig)
    (labeled : list nat) : Prop :=
  0 < SegmentLung.min_component_size config
  ∧ ∀ l, (0 < l)%nat →
      Z.of_nat (voxel_count l labeled) < SegmentLung.min_component_size config.

(** The mask of a volume in which no voxel is lung. *)
Definition empty_mask (volume_hu : ndarray) : SegmentLung.mask :=
  SegmentLung.Mask (arr_shape volume_hu)
    (replicate (length (arr_data volume_hu)) false).

(** The mask that covers the whole volume. *)
Definition full_mask (volume_hu : ndarray) : SegmentLung.mask :=
  SegmentLung.Mask (arr_shape volume_hu)
    (replicate (length (arr_data volume_hu)) true).

(** One voxel of air next to two voxels of soft tissue, and a
    configuration without morphology that asks for two components. *)
Definition sample_scan : ndarray :=
  NdArray Float32 [1; 1; 3]%nat [of_Z (-800); of_Z 40; of_Z 40].

Definition sample_config : SegmentLung.LungSegmentationConfig :=
  SegmentLung.mkConfig (of_Z (-320)) 1 2 0 false.

(** A 2-D image, and a scan of soft tissue only. *)
Definition sample_image : ndarray :=
  NdArray Float32 [2; 3]%nat (replicate 6 (of_Z 40)).

Definition sample_tissue : ndarray :=
  NdArray Float32 [1; 2; 2]%nat (replicate 4 (of_Z 100)).

(** ** Vocabulary for the cache files *)

(** [m] writes no file other than [name], makes no directory, and leaves
    the heap objects that exist as they are. *)
Definition writes_only {A} (name : string) (m : M A) : Prop :=
  ∀ w r w', m w = (r, w') →
    (∃ new, heap w' = heap w ++ new)
    ∧ dirs w' = dirs w
    ∧ ∀ q, q ≠ name → files w' !! q = files w !! q.

(** ** Vocabulary for the orchestrator *)

(** [d.setdefault(key, value)] as a function on the mapping. *)
Definition with_default (key : string) (value : pyval) (d : gmap string pyval)
  : gmap string pyval :=
  match d !! key with
  | Some _ => d
  | None => <[key := value]> d
  end.

(** A series loader that hands out the sample volume, and the raw loader
    that [preprocess_single_series] would build over it for the row at
    heap location 1. *)
Definition sample_series_loader : Path → M (loc * NormalizeResample.Spacing3D) :=
  λ _, mret (0%nat, sample_spacing).

Definition sample_raw_loader : NormalizeResample.RawLoader :=
  Run.load_raw_fn sample_series_loader (path_of_string "/data/scans/a.nii")
    (path_of_string "out/nlst/lung_masks") "nlst__1.2.3"
    (SegmentLung.mkConfig (of_Z (-320)) 1 1 0 false) (VRef 1%nat) "nlst".

(** The JSON document of the metadata that [normalize_and_resample]
    stamps when the caller gives none; tuples are written as arrays, and
    the keys come in the order in which the model enumerates a dict. *)
Definition spacing_json (s : NormalizeResample.Spacing3D) : json :=
  let '(z, y, x) := s in JArr [JFloat z; JFloat y; JFloat x].

Definition stamp_json (kw : NormalizeResample.normalize_kwargs) : json :=
  JObj
    [("spacing_mm", spacing_json (NormalizeResample.target_spacing kw));
     ("preprocessing",
      JObj
        [("normalize_resample",
          JObj
            [("interpolation_order", JInt (NormalizeResample.interpolation_order kw));
             ("apply_denoising", JBool (NormalizeResample.apply_denoising kw));
             ("target_spacing_mm", spacing_json (NormalizeResample.target_spacing kw));
             ("denoise_sigma", JFloat (NormalizeResample.denoise_sigma kw));
             ("hu_window",
              JArr [JFloat (of_Z (NormalizeResample.hu_window kw).1);
                    JFloat (of_Z (NormalizeResample.hu_window kw).2)])])])].

(** * Properties *)

(** ** Rounding to float32 *)

Section Rounding.
Variables prec emax : Z.
Hypothesis prec_pos : 0 < prec.

Lemma shr_1_digits r :
  0 ≤ shr_m r →
  0 ≤ shr_m (shr_1 r)
  ∧ Zdigits2 (shr_m (shr_1 r)) = Z.max 0 (Zdigits2 (shr_m r) - 1).
Proof.
  destruct r as [m rr s]. destruct m as [|[p|p|]|p]; simpl; intros Hm;
    try lia; rewrite ?Pos2Z.inj_succ; lia.
Qed.

Lemma iter_pos_shr_digits p r :
  0 ≤ shr_m r →
  0 ≤ shr_m (SpecFloat.iter_pos shr_1 p r)
  ∧ Zdigits2 (shr_m (SpecFloat.iter_pos shr_1 p r)) = Z.max 0 (Zdigits2 (shr_m r) - Z.pos p).
Proof.
  revert r. induction p as [p IH|p IH|]; intros r Hr; simpl.
  - destruct (shr_1_digits r Hr) as [H1 E1].
    destruct (IH _ H1) as [H2 E2]. destruct (IH _ H2) as [H3 E3].
    split; [done|]. rewrite E3, E2, E1. lia.
  - destruct (IH _ Hr) as [H2 E2]. destruct (IH _ H2) as [H3 E3].
    split; [done|]. rewrite E3, E2. lia.
  - apply shr_1_digits, Hr.
Qed.

Lemma digits2_pos_succ p :
  Z.pos (digits2_pos p) ≤ Z.pos (digits2_pos (Pos.succ p)) ≤ Z.pos (digits2_pos p) + 1.
Proof.
  induction p as [p IH|p IH|]; simpl; rewrite ?Pos2Z.inj_succ; lia.
Qed.

Lemma Zdigits2_succ m :
  0 ≤ m → Zdigits2 m ≤ Zdigits2 (m + 1) ≤ Zdigits2 m + 1.
Proof.
  destruct m as [|p|p]; simpl; [lia| |lia]. intros _.
  rewrite Pos.add_1_r. apply digits2_pos_succ.
Qed.

Lemma round_nearest_even_digits m l :
  0 ≤ m →
  0 ≤ round_nearest_even m l
  ∧ Zdigits2 m ≤ Zdigits2 (round_nearest_even m l) ≤ Zdigits2 m + 1.
Proof.
  intros Hm. pose proof (Zdigits2_succ m Hm).
  destruct l as [|[]]; simpl; try (split; lia).
  destruct (Z.even m); split; lia.
Qed.

Lemma digits2_pos_shift m d :
  Z.pos (digits2_pos (Pos.iter xO m d)) = Z.pos (digits2_pos m) + Z.pos d.
Proof.
  induction d as [|d IH] using Pos.peano_ind.
  - simpl. rewrite Pos2Z.inj_succ. lia.
  - rewrite Pos.iter_succ. simpl. rewrite Pos2Z.inj_succ, IH. lia.
Qed.

(** A finite result of [binary_round] is in canonical form and within
    the exponent range. *)
Lemma binary_round_canonical sx mx ex s m e :
  binary_round prec emax sx mx ex = S754_finite s m e →
  s = sx ∧ fexp prec emax (Z.pos (digits2_pos m) + e) = e ∧ e ≤ emax - prec.
Proof.
  unfold binary_round.
  assert (Halign : ∃ mz ez,
    shl_align mx ex (fexp prec emax (Z.pos (digits2_pos mx) + ex)) = (mz, ez)
    ∧ ez ≤ fexp prec emax (Z.pos (digits2_pos mz) + ez)).
  { unfold shl_align.
    destruct (fexp prec emax (Z.pos (digits2_pos mx) + ex) - ex) as [|d|d] eqn:Hd.
    - eexists _, _. split; [done|]. lia.
    - eexists _, _. split; [done|]. lia.
    - eexists _, _. split; [done|].
      rewrite digits2_pos_shift. unfold fexp in *. lia. }
  destruct Halign as (mz & ez & -> & Hez).
  unfold binary_round_aux, shr_fexp.
  set (E := fexp prec emax (Zdigits2 (Z.pos mz) + ez)).
  assert (HE : ez ≤ E) by exact Hez.
  assert (Hfirst : ∃ m1 l1 e1,
    shr (shr_record_of_loc (Z.pos mz) loc_Exact) ez (E - ez) = (m1, e1)
    ∧ l1 = loc_of_shr_record m1
    ∧ 0 ≤ shr_m m1 ∧ e1 = E
    ∧ Zdigits2 (shr_m m1) = Z.max 0 (Z.pos (digits2_pos mz) + ez - E)
    ∧ (E = ez → l1 = loc_Exact)).
  { unfold shr. destruct (E - ez) as [|p|p] eqn:Hp; [| |lia].
    - eexists _, _, _. split; [done|]. split; [done|]. simpl.
      repeat split; lia.
    - destruct (iter_pos_shr_digits p (shr_record_of_loc (Z.pos mz) loc_Exact))
        as [H1 E1]; [simpl; lia|].
      eexists _, _, _. split; [done|]. split; [done|]. split; [done|].
      split; [lia|]. split; [rewrite E1; simpl; lia|lia]. }
  destruct Hfirst as (m1 & l1 & e1 & -> & -> & Hm1 & -> & Hd1 & Hexact).
  destruct (round_nearest_even_digits (shr_m m1) (loc_of_shr_record m1) Hm1)
    as [Hm2 Hd2].
  set (m2 := round_nearest_even (shr_m m1) (loc_of_shr_record m1)) in *.
  set (E2 := fexp prec emax (Zdigits2 m2 + E)).
  unfold shr.
  assert (HEdef : E = Z.max (Z.pos (digits2_pos mz) + ez - prec) (emin prec emax))
    by done.
  assert (HE2def : E2 = Z.max (Zdigits2 m2 + E - prec) (emin prec emax)) by done.
  destruct (E2 - E) as [|q|q] eqn:Hq.
  - simpl shr_m. destruct m2 as [|p2|p2] eqn:Hm2eq; [done| |done].
    destruct (Z.leb_spec E (emax - prec)); [|done].
    intros [= <- <- <-]. split; [done|]. split; [|done].
    unfold fexp. cbn [Zdigits2 shr_m shr_record_of_loc] in *. lia.
  - destruct (iter_pos_shr_digits q (shr_record_of_loc m2 loc_Exact)) as [H3 E3];
      [simpl; lia|].
    destruct (shr_m (SpecFloat.iter_pos shr_1 q (shr_record_of_loc m2 loc_Exact)))
      as [|p3|p3] eqn:Hm3; [done| |done].
    destruct (Z.leb_spec (E + Z.pos q) (emax - prec)); [|done].
    intros [= <- <- <-]. split; [done|]. split; [|done].
    unfold fexp. cbn [Zdigits2 shr_m shr_record_of_loc] in *. lia.
  - simpl shr_m. destruct m2 as [|p2|p2] eqn:Hm2eq; [done| |done].
    destruct (Z.leb_spec E (emax - prec)); [|done].
    intros [= <- <- <-]. split; [done|]. split; [|done].
    unfold fexp. cbn [Zdigits2 shr_m shr_record_of_loc] in *. lia.
Qed.


Lemma binary_round_not_nan sx mx ex : binary_round prec emax sx mx ex ≠ S754_nan.
Proof.
  unfold binary_round. destruct (shl_align _ _ _) as [mz ez].
  unfold binary_round_aux, shr_fexp.
  assert (Hshr : ∀ r e n, 0 ≤ shr_m r → 0 ≤ shr_m (shr r e n).1).
  { intros r e n Hr. unfold shr. destruct n as [|p|p]; [done| |done].
    by apply iter_pos_shr_digits. }
  destruct (shr (shr_record_of_loc (Z.pos mz) loc_Exact) ez _) as [m1 e1] eqn:H1.
  assert (Hm1 : 0 ≤ shr_m m1).
  { change m1 with (m1, e1).1. rewrite <- H1. by apply Hshr. }
  destruct (round_nearest_even_digits (shr_m m1) (loc_of_shr_record m1) Hm1) as [Hm2 _].
  destruct (shr (shr_record_of_loc _ loc_Exact) e1 _) as [m3 e3] eqn:H3.
  assert (Hm3 : 0 ≤ shr_m m3).
  { change m3 with (m3, e3).1. rewrite <- H3. by apply Hshr. }
  destruct (shr_m m3) as [|p|p]; [done| |lia]. by destruct (_ <=? _).
Qed.

Lemma iter_pos_shr_shift d : ∀ m,
  SpecFloat.iter_pos shr_1 d (Build_shr_record (Z.pos (Pos.iter xO m d)) false false)
  = Build_shr_record (Z.pos m) false false.
Proof.
  induction d as [d IH|d IH|]; intros m; simpl.
  - by rewrite !IH.
  - by rewrite !IH.
  - done.
Qed.

(** Rounding a number whose exponent is above the canonical one only
    shifts the mantissa. *)
Lemma binary_round_shift s m e d :
  e - fexp prec emax (Z.pos (digits2_pos m) + e) = Z.pos d →
  fexp prec emax (Z.pos (digits2_pos m) + e) ≤ emax - prec →
  binary_round prec emax s m e
  = S754_finite s (Pos.iter xO m d) (fexp prec emax (Z.pos (digits2_pos m) + e)).
Proof.
  intros Hd Hmax. unfold binary_round, shl_align.
  set (E := fexp prec emax (Z.pos (digits2_pos m) + e)) in *.
  replace (E - e) with (Z.neg d) by lia.
  unfold binary_round_aux, shr_fexp. cbn [Zdigits2].
  rewrite digits2_pos_shift.
  replace (Z.pos (digits2_pos m) + Z.pos d + E) with (Z.pos (digits2_pos m) + e) by lia.
  fold E. rewrite Z.sub_diag. cbn [shr shr_record_of_loc shr_m loc_of_shr_record
                                    round_nearest_even Zdigits2].
  rewrite digits2_pos_shift.
  replace (Z.pos (digits2_pos m) + Z.pos d + E) with (Z.pos (digits2_pos m) + e) by lia.
  fold E. rewrite Z.sub_diag. cbn [shr shr_m].
  by rewrite (proj2 (Z.leb_le _ _) Hmax).
Qed.

(** Rounding the shifted form of a canonical number gives the number
    back. *)
Lemma binary_round_unshift s m e d :
  fexp prec emax (Z.pos (digits2_pos m) + e) = e →
  e ≤ emax - prec →
  binary_round prec emax s (Pos.iter xO m d) (e - Z.pos d) = S754_finite s m e.
Proof.
  intros Hcan Hmax. unfold binary_round, shl_align.
  rewrite digits2_pos_shift.
  replace (Z.pos (digits2_pos m) + Z.pos d + (e - Z.pos d))
    with (Z.pos (digits2_pos m) + e) by lia.
  rewrite Hcan. replace (e - (e - Z.pos d)) with (Z.pos d) by lia.
  unfold binary_round_aux, shr_fexp. cbn [Zdigits2].
  rewrite digits2_pos_shift.
  replace (Z.pos (digits2_pos m) + Z.pos d + (e - Z.pos d))
    with (Z.pos (digits2_pos m) + e) by lia.
  rewrite Hcan. replace (e - (e - Z.pos d)) with (Z.pos d) by lia.
  cbn [shr shr_record_of_loc]. rewrite iter_pos_shr_shift.
  replace (e - Z.pos d + Z.pos d) with e by lia.
  cbn [shr_m loc_of_shr_record round_nearest_even Zdigits2].
  rewrite Hcan, Z.sub_diag. cbn [shr shr_record_of_loc shr_m].
  by rewrite (proj2 (Z.leb_le _ _) Hmax).
Qed.

End Rounding.

Lemma b32_b64_round_trip (x : float) : b32 (b64 (b32 x)) = b32 x.
Proof.
  destruct (b32 x) as [s|s| |s m e] eqn:Hx; try done.
  destruct x as [s0|s0| |s0 m0 e0]; try done.
  assert (Hround : binary_round 24 128 s0 m0 e0 = S754_finite s m e).
  { revert Hx. unfold b32, binary_normalize. by destruct s0. }
  apply binary_round_canonical in Hround as (-> & Hcan & Hmax); [|done].
  assert (Hb64 : ∃ d, b64 (S754_finite s0 m e)
                      = S754_finite s0 (Pos.iter xO m d) (e - Z.pos d)).
  { destruct (e - fexp 53 1024 (Z.pos (digits2_pos m) + e)) as [|d|d] eqn:Hd;
      [unfold fexp, emin in *; lia| |unfold fexp, emin in *; lia].
    exists d.
    replace (e - Z.pos d) with (fexp 53 1024 (Z.pos (digits2_pos m) + e)) by lia.
    assert (b64 (S754_finite s0 m e) = binary_round 53 1024 s0 m e) as ->
      by (unfold b64, binary_normalize; by destruct s0).
    apply binary_round_shift; [done|]. unfold fexp, emin in *. lia. }
  destruct Hb64 as [d ->].
  assert (b32 (S754_finite s0 (Pos.iter xO m d) (e - Z.pos d))
          = binary_round 24 128 s0 (Pos.iter xO m d) (e - Z.pos d)) as ->
    by (unfold b32, binary_normalize; by destruct s0).
  by apply binary_round_unshift.
Qed.

(** Rounding to float32 a second time changes nothing. *)
Lemma f32_idempotent (x : float) : f32 (f32 x) = f32 x.
Proof. unfold f32. by rewrite b32_b64_round_trip. Qed.

Lemma spacing_float32_idempotent s :
  NormalizeResample.spacing_float32 (NormalizeResample.spacing_float32 s)
  = NormalizeResample.spacing_float32 s.
Proof. destruct s as [[z y] x]. simpl. by rewrite !f32_idempotent. Qed.

(** The cast to float32 yields NaN for NaN only. *)
Lemma f32_is_nan (x : float) :
  NormalizeResample.is_nan (f32 x) = NormalizeResample.is_nan x.
Proof.
  destruct x as [s|s| |s m e]; try done. simpl NormalizeResample.is_nan at 2.
  unfold f32.
  assert (Hb32 : b32 (S754_finite s m e) ≠ S754_nan).
  { unfold b32, binary_normalize. destruct s; apply binary_round_not_nan. }
  destruct (b32 (S754_finite s m e)) as [s1|s1| |s1 m1 e1]; try done.
  assert (Hb64 : b64 (S754_finite s1 m1 e1) ≠ S754_nan).
  { unfold b64, binary_normalize. destruct s1; apply binary_round_not_nan. }
  by destruct (b64 (S754_finite s1 m1 e1)).
Qed.

(** ** Running the monad *)

Lemma bind_run {A B} (m : M A) (k : A → M B) w :
  (m ≫= k) w = match m w with
               | (Ok a, w') => k a w'
               | (Raise e, w') => (Raise e, w')
               end.
Proof. reflexivity. Qed.

Lemma bind_ok {A B} (m : M A) (k : A → M B) w b w' :
  (m ≫= k) w = (Ok b, w') →
  ∃ a w1, m w = (Ok a, w1) ∧ k a w1 = (Ok b, w').
Proof.
  rewrite bind_run. destruct (m w) as [[a|e] w1]; [eauto | discriminate].
Qed.

Lemma bind_raise {A B} (m : M A) (k : A → M B) w e w' :
  m w = (Raise e, w') → (m ≫= k) w = (Raise e, w').
Proof. intros Hm. by rewrite bind_run, Hm. Qed.

Lemma bind_step {A B} (m : M A) (k : A → M B) w a w1 :
  m w = (Ok a, w1) → (m ≫= k) w = k a w1.
Proof. intros Hm. by rewrite bind_run, Hm. Qed.

Lemma get_obj_run l o w :
  heap w !! l = Some o → get_obj l w = (Ok o, w).
Proof. intros Hl. unfold get_obj. by rewrite Hl. Qed.

Lemma get_array_run l a w :
  heap w !! l = Some (OArray a) → get_array l w = (Ok a, w).
Proof.
  intros Hl. unfold get_array. by rewrite (bind_step _ _ _ _ _ (get_obj_run _ _ _ Hl)).
Qed.

Lemma set_obj_run l o w :
  is_Some (heap w !! l) →
  set_obj l o w = (Ok tt, set_heap (<[l:=o]> (heap w)) w).
Proof. intros [o' Hl]. unfold set_obj. by rewrite Hl. Qed.

Lemma get_array_ok l a w w' :
  get_array l w = (Ok a, w') → w' = w ∧ heap w !! l = Some (OArray a).
Proof.
  unfold get_array, get_obj. rewrite bind_run.
  destruct (heap w !! l) as [[d|vs|b]|]; try discriminate.
  intros [= -> ->]. done.
Qed.

Create HintDb frame discriminated.

Lemma keeps_array_ret {A} l a (x : A) : keeps_array l a (mret x).
Proof. intros w r w' [= <- <-]. done. Qed.

Lemma keeps_array_raise {A} l a e : keeps_array l a (@raise A e).
Proof. intros w r w' [= <- <-]. done. Qed.

Lemma keeps_array_lift {A} l a (x : result A) : keeps_array l a (lift_result x).
Proof. intros w r w' [= <- <-]. done. Qed.

Lemma keeps_array_bind {A B} l a (m : M A) (k : A → M B) :
  keeps_array l a m → (∀ x, keeps_array l a (k x)) →
  keeps_array l a (m ≫= k).
Proof.
  intros Hm Hk w r w'. rewrite bind_run.
  destruct (m w) as [[x|e] w1] eqn:Em.
  - intros Hrun Hl. eapply Hk; [exact Hrun|]. eapply Hm; eauto.
  - intros [= <- <-] Hl. eapply Hm; eauto.
Qed.

Lemma keeps_array_alloc l a o : keeps_array l a (alloc o).
Proof.
  intros w r w' [= <- <-] Hl. simpl.
  by rewrite lookup_app_l by (by eapply lookup_lt_Some).
Qed.

Lemma keeps_array_get_obj l a l' : keeps_array l a (get_obj l').
Proof.
  intros w r w'. unfold get_obj.
  destruct (heap w !! l'); intros [= <- <-]; done.
Qed.

Lemma keeps_array_set_obj l a l' o :
  l ≠ l' → keeps_array l a (set_obj l' o).
Proof.
  intros Hne w r w'. unfold set_obj.
  destruct (heap w !! l'); intros [= <- <-] Hl; [|done].
  simpl. by rewrite list_lookup_insert_ne.
Qed.

#[export] Hint Resolve keeps_array_ret keeps_array_raise keeps_array_lift
  keeps_array_alloc keeps_array_get_obj : frame.

Ltac frame_step :=
  first [ apply keeps_array_bind; [| intros ?]
        | match goal with |- keeps_array _ _ (match ?x with _ => _ end) => destruct x end
        | match goal with |- keeps_array _ _ (if ?x then _ else _) => destruct x end
        | solve [eauto with frame] ].

Lemma keeps_array_get_array l a l' : keeps_array l a (get_array l').
Proof. unfold get_array. repeat frame_step. Qed.

Lemma keeps_array_dict_of l a v : keeps_array l a (dict_of v).
Proof. unfold dict_of. repeat frame_step. Qed.

#[export] Hint Resolve keeps_array_get_array keeps_array_dict_of : frame.

(** Item assignment only ever rewrites a dict. *)
Lemma keeps_array_setitem l a target key value :
  keeps_array l a (setitem target key value).
Proof.
  destruct target as [| | | | | |l']; simpl; try solve [eauto with frame].
  intros w r w'. unfold get_obj, set_obj. rewrite bind_run.
  destruct (heap w !! l') as [[d|vs|b]|] eqn:El'; simpl.
  - rewrite El'. intros [= <- <-] Hl. simpl.
    rewrite list_lookup_insert_ne; [done|]. congruence.
  - intros [= <- <-]. done.
  - intros [= <- <-]. done.
  - intros [= <- <-]. done.
Qed.

Lemma keeps_array_dict_get l a d key default :
  keeps_array l a (dict_get d key default).
Proof. unfold dict_get. repeat frame_step. Qed.

#[export] Hint Resolve keeps_array_setitem keeps_array_dict_get : frame.

Module NormalizeResampleFacts.
Import NormalizeResample.

Lemma keeps_array_astype_float32 l a l' : keeps_array l a (astype_float32 l').
Proof. unfold astype_float32. repeat frame_step. Qed.

#[export] Hint Resolve keeps_array_astype_float32 : frame.

Section WithLibraries.
Context `{External}.

Lemma keeps_array_maybe_denoise l a v enabled sigma :
  keeps_array l a (maybe_denoise v enabled sigma).
Proof. unfold maybe_denoise. repeat frame_step. Qed.

Lemma keeps_array_resample_to_spacing l a v cur tgt order :
  keeps_array l a (resample_to_spacing v cur tgt order).
Proof. unfold resample_to_spacing. repeat frame_step. Qed.

Lemma keeps_array_copy_metadata l a metadata :
  keeps_array l a (copy_metadata metadata).
Proof. unfold copy_metadata. repeat frame_step. Qed.

End WithLibraries.
End NormalizeResampleFacts.

(** ** Zoom factors and spacing validation *)

Section ZoomFactors.
Context `{External}.
Import NormalizeResample.

Lemma positive_not_leb_zero (t : float) : ltb zero t = true → leb t zero = false.
Proof. by destruct t as [[]|[]| |[] m e]. Qed.

(** C9: the zoom factors are the per-axis quotients current / target, and
    spacing (2.5, 0.8, 0.8) against target (1, 1, 1) gives exactly
    (2.5, 0.8, 0.8). *)
Theorem compute_zoom_factors_quotient (sz sy sx tz ty tx : float) :
  ltb zero tz = true → ltb zero ty = true → ltb zero tx = true →
  compute_zoom_factors (sz, sy, sx) (tz, ty, tx)
    = Ok (div sz tz, div sy ty, div sx tx)
  ∧ compute_zoom_factors (dec 25 10, dec 8 10, dec 8 10) (one, one, one)
    = Ok (dec 25 10, dec 8 10, dec 8 10).
Proof.
  intros Hz Hy Hx. split.
  - unfold compute_zoom_factors.
    by rewrite !positive_not_leb_zero.
  - by vm_compute.
Qed.

End ZoomFactors.

Lemma compute_zoom_factors_quotient_witness :
  NormalizeResample.compute_zoom_factors (H := plain_libs)
      (dec 25 10, dec 8 10, dec 8 10) (of_Z 1, of_Z 2, of_Z 4)
    = Ok (div (dec 25 10) (of_Z 1), div (dec 8 10) (of_Z 2), div (dec 8 10) (of_Z 4))
  ∧ NormalizeResample.compute_zoom_factors (H := plain_libs)
      (dec 25 10, dec 8 10, dec 8 10)
      (NormalizeResample.one, NormalizeResample.one, NormalizeResample.one)
    = Ok (dec 25 10, dec 8 10, dec 8 10).
Proof.
  apply (compute_zoom_factors_quotient (H := plain_libs)); reflexivity.
Defined.

Lemma bind_never_ok {A B} (m : M A) (k : A → M B) w :
  (∀ a w1, is_ok (fst (k a w1)) = false) → is_ok (fst ((m ≫= k) w)) = false.
Proof.
  intros Hk. rewrite bind_run. destruct (m w) as [[a|e] w1]; [apply Hk | done].
Qed.

Section SpacingValidation.
Context `{External}.
Import NormalizeResample.

Lemma compute_zoom_factors_rejects cur tgt :
  has_nonpositive tgt = true →
  compute_zoom_factors cur tgt
  = Raise (ValueError ("Target spacing must be positive, got " +:+ repr_spacing tgt)).
Proof.
  destruct cur as [[sz sy] sx], tgt as [[tz ty] tx]. simpl. intros ->. done.
Qed.

(** The current spacing is never looked at: with a positive target the
    outcome of [compute_zoom_factors] is the quotient whatever the sign of
    the current components. *)
Lemma compute_zoom_factors_accepts cur tgt :
  has_nonpositive tgt = false →
  compute_zoom_factors cur tgt
  = Ok (div cur.1.1 tgt.1.1, div cur.1.2 tgt.1.2, div cur.2 tgt.2).
Proof.
  destruct cur as [[sz sy] sx], tgt as [[tz ty] tx]. simpl. intros ->. done.
Qed.

(** C7 (amended): a zero or negative component of the target spacing makes
    [compute_zoom_factors] raise [ValueError], and with it
    [resample_to_spacing] and the whole of [normalize_and_resample]. *)
Theorem nonpositive_target_spacing_rejected (cur tgt : Spacing3D) :
  has_nonpositive tgt = true →
  (∃ msg,
      compute_zoom_factors cur tgt = Raise (ValueError msg)
      ∧ ∀ v order w,
          resample_to_spacing v cur tgt order w = (Raise (ValueError msg), w))
  ∧ ∀ volume metadata kw w,
      target_spacing kw = tgt →
      is_ok (fst (normalize_and_resample volume cur metadata kw w)) = false.
Proof.
  intros Hneg. pose proof (compute_zoom_factors_rejects cur tgt Hneg) as Hz.
  split.
  - eexists. split; [exact Hz|].
    intros v order w. unfold resample_to_spacing. by rewrite bind_run, Hz.
  - intros volume metadata kw w <-. unfold normalize_and_resample.
    destruct (hu_window kw) as [lo hi].
    apply bind_never_ok. intros v1 w1.
    apply bind_never_ok. intros v2 w2.
    rewrite bind_run. unfold resample_to_spacing at 1.
    by rewrite bind_run, Hz.
Qed.

End SpacingValidation.

Lemma nonpositive_target_spacing_rejected_witness :
  (∃ msg,
      NormalizeResample.compute_zoom_factors (H := plain_libs)
          (of_Z 1, of_Z 1, of_Z 1) (zero, of_Z 1, of_Z (-1))
        = Raise (ValueError msg)
      ∧ ∀ v order w,
          NormalizeResample.resample_to_spacing (H := plain_libs) v
            (of_Z 1, of_Z 1, of_Z 1) (zero, of_Z 1, of_Z (-1)) order w
          = (Raise (ValueError msg), w))
  ∧ ∀ volume metadata kw w,
      NormalizeResample.target_spacing kw = (zero, of_Z 1, of_Z (-1)) →
      is_ok (fst (NormalizeResample.normalize_and_resample (H := plain_libs)
                    volume (of_Z 1, of_Z 1, of_Z 1) metadata kw w)) = false.
Proof.
  apply (nonpositive_target_spacing_rejected (H := plain_libs)
           (of_Z 1, of_Z 1, of_Z 1) (zero, of_Z 1, of_Z (-1))).
  reflexivity.
Defined.

(** C7, as stated, fails: a current spacing with a zero component goes
    through [compute_zoom_factors] without an error and produces a zero
    zoom factor. *)
Lemma zero_current_spacing_accepted :
  has_nonpositive (zero, NormalizeResample.one, NormalizeResample.one) = true
  ∧ NormalizeResample.compute_zoom_factors (H := plain_libs)
      (zero, NormalizeResample.one, NormalizeResample.one)
      (NormalizeResample.one, NormalizeResample.one, NormalizeResample.one)
    = Ok (zero, NormalizeResample.one, NormalizeResample.one).
Proof. by vm_compute. Qed.

(** ** The HU clamp writes into the caller's array *)

Section ClampInPlace.
Context `{External}.
Import NormalizeResample NormalizeResampleFacts.

Lemma clamp_hu_float32 w volume a lo hi :
  heap w !! volume = Some (OArray a) →
  arr_dtype a = Float32 →
  clamp_hu volume lo hi w
  = (Ok volume, set_heap (<[volume := OArray (clip_array lo hi a)]> (heap w)) w).
Proof.
  intros Hl Hdt. unfold clamp_hu, astype_float32.
  rewrite bind_run, bind_run, (get_array_run _ _ _ Hl).
  rewrite decide_True by done. simpl.
  unfold clip_out. rewrite bind_run, (get_array_run _ _ _ Hl).
  rewrite bind_run, set_obj_run by eauto. done.
Qed.

Lemma clamp_hu_other_dtype w volume a lo hi :
  heap w !! volume = Some (OArray a) →
  arr_dtype a ≠ Float32 →
  clamp_hu volume lo hi w
  = (Ok (length (heap w)),
     set_heap (heap w ++ [OArray (clip_array lo hi (cast_float32 a))]) w).
Proof.
  intros Hl Hdt. unfold clamp_hu, astype_float32.
  rewrite bind_run, bind_run, (get_array_run _ _ _ Hl).
  rewrite decide_False by done. simpl.
  unfold clip_out. rewrite bind_run.
  erewrite get_array_run; last first.
  { simpl. rewrite lookup_app_r by done. by rewrite Nat.sub_diag. }
  rewrite bind_run. erewrite set_obj_run; last first.
  { simpl. rewrite lookup_app_r by done. rewrite Nat.sub_diag. eauto. }
  simpl. f_equal. unfold set_heap. simpl. f_equal.
  by rewrite insert_app_r_alt, Nat.sub_diag by done.
Qed.

Lemma clamp_hu_caller_array w volume a lo hi r w' :
  heap w !! volume = Some (OArray a) →
  clamp_hu volume lo hi w = (r, w') →
  heap w' !! volume = Some (OArray (after_clamp lo hi a)).
Proof.
  intros Hl. unfold after_clamp. case_decide as Hdt.
  - rewrite (clamp_hu_float32 _ _ _ _ _ Hl Hdt). intros [= <- <-]. simpl.
    apply list_lookup_insert_eq. by eapply lookup_lt_Some.
  - rewrite (clamp_hu_other_dtype _ _ _ _ _ Hl Hdt). intros [= <- <-]. simpl.
    rewrite lookup_app_l; [done | by eapply lookup_lt_Some].
Qed.

(** C10: a float32 input array is clamped in place, by [clamp_hu] and by
    [normalize_and_resample] (whether it then returns or raises): every
    voxel of the caller's array is replaced by its clamped value.  An
    input of any other dtype is left as it was. *)
Theorem clamp_overwrites_float32_input w volume a :
  heap w !! volume = Some (OArray a) →
  (∀ lo hi r w',
      clamp_hu volume lo hi w = (r, w') →
      heap w' !! volume = Some (OArray (after_clamp lo hi a)))
  ∧ (∀ spacing metadata kw r w',
      normalize_and_resample volume spacing metadata kw w = (r, w') →
      heap w' !! volume
      = Some (OArray (after_clamp (hu_window kw).1 (hu_window kw).2 a)))
  ∧ (∀ lo hi,
      arr_dtype a = Float32 →
      arr_data (after_clamp lo hi a)
      = clip1 (f32 (of_Z lo)) (f32 (of_Z hi)) <$> arr_data a)
  ∧ (∀ lo hi, arr_dtype a ≠ Float32 → after_clamp lo hi a = a).
Proof.
  intros Hl. repeat split.
  - intros lo hi r w'. by apply clamp_hu_caller_array.
  - intros spacing metadata kw r w'. unfold normalize_and_resample.
    destruct (hu_window kw) as [lo hi]. simpl. rewrite bind_run.
    destruct (clamp_hu volume lo hi w) as [[v|e] w1] eqn:Ec.
    + pose proof (clamp_hu_caller_array _ _ _ _ _ _ _ Hl Ec) as Hl1.
      intros Hrun. revert Hl1. eapply (keeps_array_bind _ _ _ _ _ _ w1 r w' Hrun).
      Unshelve.
      * apply keeps_array_maybe_denoise.
      * intros v2. apply keeps_array_bind; [apply keeps_array_resample_to_spacing|].
        intros v3. repeat frame_step.
        apply keeps_array_copy_metadata.
    + intros [= <- <-]. by eapply clamp_hu_caller_array.
  - intros lo hi Hdt. unfold after_clamp. by rewrite decide_True.
  - intros lo hi Hdt. unfold after_clamp. by rewrite decide_False.
Qed.

End ClampInPlace.

Lemma clamp_overwrites_float32_input_witness :
  (∀ lo hi r w',
      NormalizeResample.clamp_hu 0%nat lo hi
        (world0 [OArray (NdArray Float32 [1; 1; 2]%nat [of_Z (-2000); of_Z 900])])
      = (r, w') →
      heap w' !! 0%nat
      = Some (OArray (after_clamp lo hi
                        (NdArray Float32 [1; 1; 2]%nat [of_Z (-2000); of_Z 900]))))
  ∧ (∀ spacing metadata kw r w',
      NormalizeResample.normalize_and_resample (H := plain_libs)
        0%nat spacing metadata kw
        (world0 [OArray (NdArray Float32 [1; 1; 2]%nat [of_Z (-2000); of_Z 900])])
      = (r, w') →
      heap w' !! 0%nat
      = Some (OArray (after_clamp (NormalizeResample.hu_window kw).1
                        (NormalizeResample.hu_window kw).2
                        (NdArray Float32 [1; 1; 2]%nat [of_Z (-2000); of_Z 900]))))
  ∧ (∀ lo hi,
      Float32 = Float32 →
      arr_data (after_clamp lo hi
                  (NdArray Float32 [1; 1; 2]%nat [of_Z (-2000); of_Z 900]))
      = NormalizeResample.clip1 (f32 (of_Z lo)) (f32 (of_Z hi))
          <$> [of_Z (-2000); of_Z 900])
  ∧ (∀ lo hi, Float32 ≠ Float32 →
      after_clamp lo hi (NdArray Float32 [1; 1; 2]%nat [of_Z (-2000); of_Z 900])
      = NdArray Float32 [1; 1; 2]%nat [of_Z (-2000); of_Z 900]).
Proof.
  apply (clamp_overwrites_float32_input (H := plain_libs)
           (world0 [OArray (NdArray Float32 [1; 1; 2]%nat [of_Z (-2000); of_Z 900])])
           0%nat (NdArray Float32 [1; 1; 2]%nat [of_Z (-2000); of_Z 900])).
  reflexivity.
Defined.

(** The clamp on a concrete float32 array: −2000 and 900 become −1000 and
    400 in the very array the caller passed. *)
Example clamp_hu_example :
  NormalizeResample.clamp_hu 0%nat (-1000) 400
    (world0 [OArray (NdArray Float32 [1; 1; 2]%nat [of_Z (-2000); of_Z 900])])
  = (Ok 0%nat,
     world0 [OArray (NdArray Float32 [1; 1; 2]%nat [of_Z (-1000); of_Z 400])]).
Proof. by vm_compute. Qed.

(** ** What each primitive does when it returns *)

Lemma alloc_ok o w l w' :
  alloc o w = (Ok l, w') →
  l = length (heap w) ∧ w' = set_heap (heap w ++ [o]) w.
Proof. by intros [= <- <-]. Qed.

Lemma get_obj_ok l o w w' :
  get_obj l w = (Ok o, w') → w' = w ∧ heap w !! l = Some o.
Proof.
  unfold get_obj. destruct (heap w !! l); [|discriminate]. by intros [= -> ->].
Qed.

Lemma dict_of_ok v d w w' :
  dict_of v w = (Ok d, w') →
  w' = w ∧ ∃ l, v = VRef l ∧ heap w !! l = Some (ODict d).
Proof.
  destruct v as [| | | | | |l]; try discriminate. simpl.
  intros (o & w1 & Hget & Hk)%bind_ok.
  apply get_obj_ok in Hget as [-> Hl].
  destruct o as [d'| |]; try discriminate.
  injection Hk as <- <-. eauto.
Qed.

Lemma setitem_ok target key value w u w' :
  setitem target key value w = (Ok u, w') →
  ∃ l d, target = VRef l ∧ heap w !! l = Some (ODict d)
         ∧ w' = set_heap (<[l := ODict (<[key := value]> d)]> (heap w)) w.
Proof.
  destruct target as [| | | | | |l]; try discriminate. simpl.
  intros (o & w1 & Hget & Hk)%bind_ok.
  apply get_obj_ok in Hget as [-> Hl].
  destruct o as [d| |]; try discriminate.
  rewrite set_obj_run in Hk by eauto.
  injection Hk as <-. eauto.
Qed.

Lemma dict_get_ok d key default v w w' :
  dict_get d key default w = (Ok v, w') →
  w' = w ∧ ∃ l m, d = VRef l ∧ heap w !! l = Some (ODict m)
                  ∧ v = match m !! key with Some x => x | None => default end.
Proof.
  unfold dict_get. intros (m & w1 & Hd & Hk)%bind_ok.
  apply dict_of_ok in Hd as [-> (l & -> & Hl)].
  injection Hk as <- <-. split; [done|]. by exists l, m.
Qed.

Lemma astype_float32_ok l l' w w' :
  NormalizeResample.astype_float32 l w = (Ok l', w') →
  ∃ a, heap w !! l = Some (OArray a)
       ∧ ((arr_dtype a = Float32 ∧ l' = l ∧ w' = w)
          ∨ (arr_dtype a ≠ Float32 ∧ l' = length (heap w)
             ∧ w' = set_heap (heap w ++ [OArray (NormalizeResample.cast_float32 a)]) w)).
Proof.
  unfold NormalizeResample.astype_float32.
  intros (a & w1 & Hget & Hk)%bind_ok.
  apply get_array_ok in Hget as [-> Hl]. exists a. split; [done|].
  case_decide.
  - injection Hk as <- <-. by left.
  - apply alloc_ok in Hk as [-> ->]. by right.
Qed.

Lemma copy_metadata_ok `{External} metadata meta w w' :
  NormalizeResample.copy_metadata metadata w = (Ok meta, w') →
  ∃ d, (metadata = VNone ∧ d = ∅
        ∨ ∃ m, metadata = VRef m ∧ heap w !! m = Some (ODict d))
       ∧ meta = VRef (length (heap w))
       ∧ w' = set_heap (heap w ++ [ODict d]) w.
Proof.
  unfold NormalizeResample.copy_metadata.
  destruct metadata as [| | | | | |m].
  - intros (l & w1 & Ha & Hk)%bind_ok. apply alloc_ok in Ha as [-> ->].
    injection Hk as <- <-. exists ∅. split; [by left | done].
  - intros (d & w1 & Hd & _)%bind_ok. by apply dict_of_ok in Hd as [_ (? & ? & _)].
  - intros (d & w1 & Hd & _)%bind_ok. by apply dict_of_ok in Hd as [_ (? & ? & _)].
  - intros (d & w1 & Hd & _)%bind_ok. by apply dict_of_ok in Hd as [_ (? & ? & _)].
  - intros (d & w1 & Hd & _)%bind_ok. by apply dict_of_ok in Hd as [_ (? & ? & _)].
  - intros (d & w1 & Hd & _)%bind_ok. by apply dict_of_ok in Hd as [_ (? & ? & _)].
  - intros (d & w1 & Hd & Hk)%bind_ok.
    apply dict_of_ok in Hd as [-> (l & [= <-] & Hl)].
    apply bind_ok in Hk as (l' & w2 & Ha & Hk). apply alloc_ok in Ha as [-> ->].
    injection Hk as <- <-. exists d. split; [right; eexists; split; [reflexivity | eassumption] | done].
Qed.

(** ** Computations that only allocate *)

Lemma only_allocates_ret {A} (x : A) : only_allocates (mret x).
Proof. intros w r w' [= <- <-]. exists []. by rewrite app_nil_r. Qed.

Lemma only_allocates_raise {A} e : only_allocates (@raise A e).
Proof. intros w r w' [= <- <-]. exists []. by rewrite app_nil_r. Qed.

Lemma only_allocates_lift {A} (x : result A) : only_allocates (lift_result x).
Proof. intros w r w' [= <- <-]. exists []. by rewrite app_nil_r. Qed.

Lemma only_allocates_alloc o : only_allocates (alloc o).
Proof. intros w r w' [= <- <-]. by exists [o]. Qed.

Lemma only_allocates_get_obj l : only_allocates (get_obj l).
Proof.
  intros w r w'. unfold get_obj.
  destruct (heap w !! l); intros [= <- <-]; exists []; by rewrite app_nil_r.
Qed.

Lemma only_allocates_bind {A B} (m : M A) (k : A → M B) :
  only_allocates m → (∀ x, only_allocates (k x)) → only_allocates (m ≫= k).
Proof.
  intros Hm Hk w r w'. rewrite bind_run.
  destruct (m w) as [[x|e] w1] eqn:Em.
  - intros Hrun. destruct (Hm _ _ _ Em) as (n1 & E1 & F1 & D1).
    destruct (Hk _ _ _ _ Hrun) as (n2 & E2 & F2 & D2).
    exists (n1 ++ n2). rewrite E2, E1, F2, F1, D2, D1. by rewrite app_assoc.
  - intros [= <- <-]. eauto.
Qed.

#[export] Hint Resolve only_allocates_ret only_allocates_raise only_allocates_lift
  only_allocates_alloc only_allocates_get_obj : frame.

Ltac alloc_step :=
  first [ apply only_allocates_bind; [| intros ?]
        | match goal with |- only_allocates (match ?x with _ => _ end) => destruct x end
        | match goal with |- only_allocates (if ?x then _ else _) => destruct x end
        | solve [eauto with frame] ].

Lemma only_allocates_get_array l : only_allocates (get_array l).
Proof. unfold get_array. repeat alloc_step. Qed.

#[export] Hint Resolve only_allocates_get_array : frame.

Lemma only_allocates_astype_float32 l :
  only_allocates (NormalizeResample.astype_float32 l).
Proof. unfold NormalizeResample.astype_float32. repeat alloc_step. Qed.

#[export] Hint Resolve only_allocates_astype_float32 : frame.

Lemma only_allocates_maybe_denoise `{External} v enabled sigma :
  only_allocates (NormalizeResample.maybe_denoise v enabled sigma).
Proof. unfold NormalizeResample.maybe_denoise. repeat alloc_step. Qed.

Lemma only_allocates_resample_to_spacing `{External} v cur tgt order :
  only_allocates (NormalizeResample.resample_to_spacing v cur tgt order).
Proof. unfold NormalizeResample.resample_to_spacing. repeat alloc_step. Qed.

(** ** The metadata stage *)

Lemma insert_snoc {A} (h : list A) (x y : A) :
  <[length h := x]> (h ++ [y]) = h ++ [x].
Proof. by rewrite insert_app_r_alt, Nat.sub_diag by done. Qed.

Lemma lookup_snoc {A} (h : list A) (x : A) : (h ++ [x]) !! length h = Some x.
Proof. by rewrite lookup_app_r, Nat.sub_diag by done. Qed.

Lemma lookup_past {A} (h t : list A) (i : nat) :
  (h ++ t) !! (length h + i)%nat = t !! i.
Proof. rewrite lookup_app_r by lia. f_equal. lia. Qed.

Section MetadataStage.
Context `{External}.
Import NormalizeResample.

Lemma normalize_and_resample_stages volume spacing metadata kw :
  normalize_and_resample volume spacing metadata kw
  = (v ← clamp_hu volume (hu_window kw).1 (hu_window kw).2;
     v ← maybe_denoise v (apply_denoising kw) (denoise_sigma kw);
     v ← resample_to_spacing v spacing (target_spacing kw) (interpolation_order kw);
     metadata_stage v metadata kw).
Proof. unfold normalize_and_resample. by destruct (hu_window kw). Qed.

Lemma metadata_stage_ok v metadata kw w ct w' :
  (∀ m d p, metadata = VRef m → heap w !! m = Some (ODict d) →
            d !! "preprocessing" = Some (VRef p) → (p < length (heap w))%nat) →
  metadata_stage v metadata kw w = (Ok ct, w') →
  ∃ d p dp,
    (metadata = VNone ∧ d = ∅
     ∨ ∃ m, metadata = VRef m ∧ heap w !! m = Some (ODict d))
    ∧ (d !! "preprocessing" = None ∧ p = S (length (heap w)) ∧ dp = ∅
       ∨ d !! "preprocessing" = Some (VRef p) ∧ heap w !! p = Some (ODict dp))
    ∧ ct_metadata ct = VRef (length (heap w))
    ∧ ct_spacing ct = target_spacing kw
    ∧ heap w' !! length (heap w)
      = Some (ODict (<["preprocessing" := VRef p]>
                       (<["spacing_mm" := spacing_tuple (target_spacing kw)]> d)))
    ∧ heap w' !! p
      = Some (ODict (<["normalize_resample" := VRef (S (S (length (heap w))))]> dp))
    ∧ heap w' !! S (S (length (heap w))) = Some (ODict (normalize_record kw))
    ∧ (∀ l o, heap w !! l = Some o → l ≠ p → heap w' !! l = Some o)
    ∧ files w' = files w.
Proof.
  intros Hclosed. unfold metadata_stage.
  destruct w as [h fs ds nl]. cbn [heap] in *.
  intros (meta & w1 & Hcopy & Hk)%bind_ok.
  apply copy_metadata_ok in Hcopy as (d & Hmeta & -> & ->).
  cbn [heap set_heap files dirs] in *.
  apply bind_ok in Hk as ([] & w2 & Hset & Hk).
  apply setitem_ok in Hset as (l & d1 & [= <-] & Hl & ->).
  cbn [heap set_heap files dirs] in *.
  rewrite lookup_snoc in Hl. injection Hl as <-.
  rewrite insert_snoc in Hk.
  apply bind_ok in Hk as (empty & w3 & Ha & Hk).
  apply alloc_ok in Ha as [-> ->].
  cbn [heap set_heap files dirs] in *.
  apply bind_ok in Hk as (pinfo & w4 & Hget & Hk).
  apply dict_get_ok in Hget as [-> (l & dm & [= <-] & Hl & ->)].
  cbn [heap set_heap files dirs] in *.
  rewrite <- app_assoc in Hl, Hk. rewrite lookup_app_r, Nat.sub_diag in Hl by done.
  injection Hl as <-.
  rewrite length_app in Hk. cbn [length] in Hk.
  rewrite lookup_insert_ne in Hk by done.
  apply bind_ok in Hk as (record & w5 & Ha & Hk).
  apply alloc_ok in Ha as [-> ->].
  cbn [heap set_heap files dirs] in *.
  rewrite <- app_assoc in Hk. cbn [app] in Hk.
  unfold set_heap in Hk. cbn [heap files dirs] in Hk.
  rewrite length_app in Hk. cbn [length] in Hk.
  set (n := length h) in *.
  set (d1 := <["spacing_mm":=spacing_tuple (target_spacing kw)]> d) in *.
  apply bind_ok in Hk as ([] & w6 & Hset & Hk).
  apply setitem_ok in Hset as (p & dp & Hp & Hlp & ->).
  rewrite Hp in Hk.
  unfold set_heap in Hk. cbn [heap files dirs] in Hk, Hlp.
  apply bind_ok in Hk as ([] & w7 & Hset & Hk).
  apply setitem_ok in Hset as (l & dm' & [= <-] & Hl' & ->).
  unfold set_heap in Hk. cbn [heap files dirs] in Hk, Hl'.
  apply bind_ok in Hk as (data & w8 & Hty & Hk).
  injection Hk as <- <-.
  destruct (only_allocates_astype_float32 _ _ _ _ Hty) as (new & Hh & Hf & _).
  cbn [heap files dirs] in Hh, Hf.
  assert (Hpn : (p < n ∨ p = S n)%nat
                ∧ (d !! "preprocessing" = None ∧ p = S n ∧ dp = ∅
                   ∨ d !! "preprocessing" = Some (VRef p) ∧ h !! p = Some (ODict dp))).
  { destruct (d !! "preprocessing") as [x|] eqn:Ed.
    - subst x. destruct Hmeta as [[_ ->]|(m & -> & Hm)]; [by rewrite lookup_empty in Ed|].
      pose proof (Hclosed m d p eq_refl Hm Ed) as Hlt.
      rewrite lookup_app_l in Hlp by exact Hlt. split; [lia|]. right. done.
    - injection Hp as <-. split; [lia|]. left.
      replace (n + 1)%nat with (length h + 1)%nat in Hlp by done.
      rewrite lookup_past in Hlp. injection Hlp as <-. repeat split; lia. }
  destruct Hpn as [Hpn Hcase].
  assert (Hlen : length (h ++ [ODict d1; ODict ∅; ODict (normalize_record kw)])
                 = (n + 3)%nat) by (rewrite length_app; done).
  rewrite list_lookup_insert_ne in Hl' by lia.
  rewrite lookup_app_r, Nat.sub_diag in Hl' by done. injection Hl' as <-.
  exists d, p, dp. rewrite Hh, Hf.
  split; [done|]. split; [done|]. split; [done|]. split; [done|].
  split.
  { rewrite lookup_app_l by (rewrite !length_insert; lia).
    rewrite list_lookup_insert_eq; [done|]. rewrite length_insert. lia. }
  split.
  { rewrite lookup_app_l by (rewrite !length_insert; lia).
    rewrite list_lookup_insert_ne by lia.
    replace (S (S n)) with (n + 2)%nat by lia.
    rewrite list_lookup_insert_eq; [done|]. lia. }
  split.
  { rewrite lookup_app_l by (rewrite !length_insert; lia).
    rewrite !list_lookup_insert_ne by lia.
    replace (S (S n)) with (length h + 2)%nat by (unfold n; lia).
    by rewrite lookup_past. }
  split; [|done].
  intros l o Hlo Hne. pose proof (lookup_lt_Some _ _ _ Hlo) as Hlt.
  rewrite lookup_app_l by (rewrite !length_insert; lia).
  rewrite !list_lookup_insert_ne by (unfold n; lia).
  by rewrite lookup_app_l.
Qed.

End MetadataStage.

(** ** From the call to the metadata stage *)

Section ArrayStage.
Context `{External}.
Import NormalizeResample.

Lemma clamp_hu_ok volume lo hi w v w1 :
  clamp_hu volume lo hi w = (Ok v, w1) →
  ∃ a, heap w !! volume = Some (OArray a)
       ∧ (length (heap w) ≤ length (heap w1))%nat
       ∧ (∀ l o, heap w !! l = Some o → l ≠ volume → heap w1 !! l = Some o)
       ∧ files w1 = files w.
Proof.
  intros Hrun. pose proof Hrun as Hrun'.
  unfold clamp_hu in Hrun'. apply bind_ok in Hrun' as (v0 & w0 & Hty & _).
  apply astype_float32_ok in Hty as (a & Hl & _).
  exists a. split; [done|].
  destruct (decide (arr_dtype a = Float32)) as [Hdt|Hdt].
  - rewrite (clamp_hu_float32 _ _ _ _ _ Hl Hdt) in Hrun. injection Hrun as <- <-.
    cbn [heap set_heap files]. rewrite length_insert.
    split; [done|]. split; [|done].
    intros l o Hlo Hne. by rewrite list_lookup_insert_ne.
  - rewrite (clamp_hu_other_dtype _ _ _ _ _ Hl Hdt) in Hrun. injection Hrun as <- <-.
    cbn [heap set_heap files]. rewrite length_app.
    split; [lia|]. split; [|done].
    intros l o Hlo Hne. rewrite lookup_app_l; [done|]. by eapply lookup_lt_Some.
Qed.

(** A call that returns went through the metadata stage, started in a
    world that differs from the caller's only in the input array and in
    freshly allocated arrays. *)
Lemma normalize_and_resample_ok volume spacing metadata kw w ct w' :
  normalize_and_resample volume spacing metadata kw w = (Ok ct, w') →
  ∃ v w3 a,
    metadata_stage v metadata kw w3 = (Ok ct, w')
    ∧ (length (heap w) ≤ length (heap w3))%nat
    ∧ (∀ l o, heap w !! l = Some o → l ≠ volume → heap w3 !! l = Some o)
    ∧ heap w !! volume = Some (OArray a)
    ∧ heap w3 !! volume
      = Some (OArray (after_clamp (hu_window kw).1 (hu_window kw).2 a))
    ∧ files w3 = files w.
Proof.
  rewrite normalize_and_resample_stages.
  intros (v1 & w1 & Hclamp & Hk)%bind_ok.
  apply bind_ok in Hk as (v2 & w2 & Hden & Hk).
  apply bind_ok in Hk as (v3 & w3 & Hres & Hk).
  pose proof Hclamp as Hclamp'.
  apply clamp_hu_ok in Hclamp as (a & Hvol & Hlen1 & Hfr1 & Hf1).
  pose proof (clamp_hu_caller_array _ _ _ _ _ _ _ Hvol Hclamp') as Hvol1.
  destruct (only_allocates_maybe_denoise _ _ _ _ _ _ Hden) as (n2 & Hh2 & Hf2 & _).
  destruct (only_allocates_resample_to_spacing _ _ _ _ _ _ _ Hres) as (n3 & Hh3 & Hf3 & _).
  exists v3, w3, a. split; [done|].
  rewrite Hh3, Hh2, Hf3, Hf2, Hf1, !length_app.
  split; [lia|]. split; [|split; [done|split; [|done]]].
  - intros l o Hlo Hne. apply Hfr1 in Hlo as Hlo1; [|done].
    rewrite <- app_assoc. rewrite lookup_app_l; [done|]. by eapply lookup_lt_Some.
  - rewrite <- app_assoc. rewrite lookup_app_l; [done|]. by eapply lookup_lt_Some.
Qed.

End ArrayStage.

(** ** What the call does to the metadata *)

Section Metadata.
Context `{External}.
Import NormalizeResample.

(** What the metadata stage of [normalize_and_resample] leaves in the
    heap: the new top-level dict, the sub-mapping that receives the
    record, and the objects that are not touched. *)
Lemma normalize_and_resample_metadata w volume spacing m d kw ct w' :
  heap w !! m = Some (ODict d) →
  (∀ p, d !! "preprocessing" = Some (VRef p) → (p < length (heap w))%nat) →
  normalize_and_resample volume spacing (VRef m) kw w = (Ok ct, w') →
  ∃ m' p dp record,
    ct_metadata ct = VRef m'
    ∧ (length (heap w) ≤ m')%nat
    ∧ heap w' !! m'
      = Some (ODict (<["preprocessing" := VRef p]>
                       (<["spacing_mm" := spacing_tuple (target_spacing kw)]> d)))
    ∧ heap w' !! p = Some (ODict (<["normalize_resample" := VRef record]> dp))
    ∧ (length (heap w) ≤ record)%nat
    ∧ heap w' !! record = Some (ODict (normalize_record kw))
    ∧ (d !! "preprocessing" = None ∧ dp = ∅ ∧ (length (heap w) ≤ p)%nat
       ∨ d !! "preprocessing" = Some (VRef p) ∧ heap w !! p = Some (ODict dp))
    ∧ (∀ l o, heap w !! l = Some o → l ≠ p → l ≠ volume → heap w' !! l = Some o).
Proof.
  intros Hm Hclosed Hrun.
  apply normalize_and_resample_ok in Hrun
    as (v & w3 & a & Hstage & Hlen & Hfr & Hvol & Hvol3 & Hf).
  assert (m ≠ volume) as Hmv.
  { intros ->. pose proof (eq_trans (eq_sym Hm) Hvol) as Habs. discriminate Habs. }
  pose proof (Hfr _ _ Hm Hmv) as Hm3.
  apply metadata_stage_ok in Hstage as
    (d0 & p & dp & Hd0 & Hcase & Hmeta & Hsp & Hnew & Hp & Hrec & Hfr' & Hf'); last first.
  { intros m0 d1 p0 [= <-] Hm0 Hpre.
    rewrite Hm3 in Hm0. injection Hm0 as <-.
    eapply Nat.lt_le_trans; [by apply Hclosed | done]. }
  destruct Hd0 as [[? _]|(m0 & [= <-] & Hm0)]; [done|].
  rewrite Hm3 in Hm0. injection Hm0 as <-.
  assert (Hcase' : d !! "preprocessing" = None ∧ dp = ∅ ∧ (length (heap w) ≤ p)%nat
                   ∨ d !! "preprocessing" = Some (VRef p) ∧ heap w !! p = Some (ODict dp)).
  { destruct Hcase as [(Hn & -> & ->)|[Hs Hp3]].
    - left. repeat split; [done|lia].
    - right. split; [done|].
      pose proof (Hclosed _ Hs) as Hlt.
      destruct (lookup_lt_is_Some_2 _ _ Hlt) as [o Ho].
      destruct (decide (p = volume)) as [->|Hpv].
      { exfalso. pose proof (eq_trans (eq_sym Hp3) Hvol3) as Habs. discriminate Habs. }
      pose proof (Hfr _ _ Ho Hpv) as Ho3.
      pose proof (eq_trans (eq_sym Ho3) Hp3) as [= ->]. exact Ho. }
  exists (length (heap w3)), p, dp, (S (S (length (heap w3)))).
  split; [done|]. split; [done|]. split; [done|].
  split; [done|]. split; [lia|]. split; [done|]. split; [done|].
  intros l o Hlo Hlp Hlv. apply Hfr'; [|done]. by apply Hfr.
Qed.

(** C4 (amended): the returned metadata is a new dict.  Every key of the
    caller's dict other than ["spacing_mm"] and ["preprocessing"] keeps
    its value, no key is removed, and the only keys that can be new are
    these two.  ["spacing_mm"] is set to the target spacing, whatever it
    was before.  ["preprocessing"] is bound to a mapping in which
    ["normalize_resample"] is the new record, whatever it was before; its
    other entries are those the caller's ["preprocessing"] mapping had
    before the call, and it has none when the caller had no such
    mapping. *)
Theorem metadata_entries_kept_except_stamped w volume spacing m d kw ct w' :
  heap w !! m = Some (ODict d) →
  (∀ p, d !! "preprocessing" = Some (VRef p) → (p < length (heap w))%nat) →
  normalize_and_resample volume spacing (VRef m) kw w = (Ok ct, w') →
  ∃ m' d' p' dp' record,
    ct_metadata ct = VRef m'
    ∧ (length (heap w) ≤ m')%nat
    ∧ heap w' !! m' = Some (ODict d')
    ∧ (∀ k v, d !! k = Some v → k ≠ "spacing_mm" → k ≠ "preprocessing" →
              d' !! k = Some v)
    ∧ (∀ k, is_Some (d !! k) → is_Some (d' !! k))
    ∧ (∀ k, is_Some (d' !! k) →
            is_Some (d !! k) ∨ k = "spacing_mm" ∨ k = "preprocessing")
    ∧ d' !! "spacing_mm" = Some (spacing_tuple (target_spacing kw))
    ∧ d' !! "preprocessing" = Some (VRef p')
    ∧ heap w' !! p' = Some (ODict dp')
    ∧ dp' !! "normalize_resample" = Some (VRef record)
    ∧ (length (heap w) ≤ record)%nat
    ∧ heap w' !! record = Some (ODict (normalize_record kw))
    ∧ (∀ q dq, d !! "preprocessing" = Some (VRef q) → heap w !! q = Some (ODict dq) →
         (∀ k v, dq !! k = Some v → k ≠ "normalize_resample" → dp' !! k = Some v)
         ∧ (∀ k, is_Some (dp' !! k) → is_Some (dq !! k) ∨ k = "normalize_resample"))
    ∧ (d !! "preprocessing" = None →
       ∀ k, is_Some (dp' !! k) → k = "normalize_resample").
Proof.
  intros Hm Hclosed Hrun.
  destruct (normalize_and_resample_metadata w volume spacing m d kw ct w' Hm Hclosed Hrun)
    as (m' & p & dp & record & Hmeta & Hfresh & Hm' & Hp & Hnew & Hrec & Hcase & _).
  set (d' := <["preprocessing" := VRef p]>
               (<["spacing_mm" := spacing_tuple (target_spacing kw)]> d)) in *.
  exists m', d', p, (<["normalize_resample" := VRef record]> dp), record.
  split; [done|]. split; [done|]. split; [done|].
  split.
  { intros k x Hk Hks Hkp. unfold d'. by rewrite !lookup_insert_ne. }
  split.
  { intros k Hk. unfold d'. rewrite !lookup_insert_is_Some.
    destruct (decide ("preprocessing" = k)); [by left|]. right. split; [done|].
    destruct (decide ("spacing_mm" = k)); [by left|]. by right. }
  split.
  { intros k. unfold d'. rewrite !lookup_insert_is_Some.
    intros [<-|[_ [<-|[_ Hk]]]]; auto. }
  split.
  { unfold d'. rewrite lookup_insert_ne by done. by rewrite lookup_insert_eq. }
  split; [apply lookup_insert_eq|]. split; [done|].
  split; [apply lookup_insert_eq|]. split; [done|]. split; [done|].
  split.
  - intros q dq Hq Hdq.
    destruct Hcase as [(Hnone & _)|[Hsome Hdp]].
    { rewrite Hnone in Hq. discriminate Hq. }
    pose proof (eq_trans (eq_sym Hq) Hsome) as [= ->].
    pose proof (eq_trans (eq_sym Hdq) Hdp) as [= ->].
    split.
    + intros k x Hk Hne. by rewrite lookup_insert_ne.
    + intros k. rewrite lookup_insert_is_Some. intros [<-|[_ Hk]]; auto.
  - intros Hnone k.
    destruct Hcase as [(_ & -> & _)|[Hsome _]].
    + rewrite lookup_insert_is_Some, lookup_empty.
      intros [<-|[_ Hk]]; [done|by destruct Hk].
    + rewrite Hnone in Hsome. discriminate Hsome.
Qed.

End Metadata.

(** ** The sample call *)

Lemma sample_run_value :
  sample_run
  = (Ok (NormalizeResample.mkCTVolume 3%nat
           (NormalizeResample.one, NormalizeResample.one, NormalizeResample.one)
           (VRef 4%nat)),
     world0
       [OArray (NdArray Float32 [1; 1; 2]%nat [of_Z (-1000); of_Z 400]);
        ODict sample_metadata;
        ODict (<["normalize_resample" := VRef 6%nat]> sample_preprocessing);
        OArray (NdArray Float32 [1; 1; 2]%nat [of_Z (-1000); of_Z 400]);
        ODict (<["preprocessing" := VRef 2%nat]>
                 (<["spacing_mm" := unit_spacing_tuple]> sample_metadata));
        ODict ∅;
        ODict (NormalizeResample.normalize_record NormalizeResample.default_kwargs)]).
Proof. by vm_compute. Qed.

Lemma metadata_entries_kept_except_stamped_witness :
  ∃ m' d' p' dp' record,
    NormalizeResample.ct_metadata
      (NormalizeResample.mkCTVolume 3%nat
         (NormalizeResample.one, NormalizeResample.one, NormalizeResample.one)
         (VRef 4%nat)) = VRef m'
    ∧ (length (heap sample_world) ≤ m')%nat
    ∧ heap (snd sample_run) !! m' = Some (ODict d')
    ∧ (∀ k v, sample_metadata !! k = Some v → k ≠ "spacing_mm" → k ≠ "preprocessing" →
              d' !! k = Some v)
    ∧ (∀ k, is_Some (sample_metadata !! k) → is_Some (d' !! k))
    ∧ (∀ k, is_Some (d' !! k) →
            is_Some (sample_metadata !! k) ∨ k = "spacing_mm" ∨ k = "preprocessing")
    ∧ d' !! "spacing_mm"
      = Some (NormalizeResample.spacing_tuple
                (NormalizeResample.target_spacing NormalizeResample.default_kwargs))
    ∧ d' !! "preprocessing" = Some (VRef p')
    ∧ heap (snd sample_run) !! p' = Some (ODict dp')
    ∧ dp' !! "normalize_resample" = Some (VRef record)
    ∧ (length (heap sample_world) ≤ record)%nat
    ∧ heap (snd sample_run) !! record
      = Some (ODict (NormalizeResample.normalize_record NormalizeResample.default_kwargs))
    ∧ (∀ q dq, sample_metadata !! "preprocessing" = Some (VRef q) →
         heap sample_world !! q = Some (ODict dq) →
         (∀ k v, dq !! k = Some v → k ≠ "normalize_resample" → dp' !! k = Some v)
         ∧ (∀ k, is_Some (dp' !! k) → is_Some (dq !! k) ∨ k = "normalize_resample"))
    ∧ (sample_metadata !! "preprocessing" = None →
       ∀ k, is_Some (dp' !! k) → k = "normalize_resample").
Proof.
  apply (metadata_entries_kept_except_stamped (H := plain_libs)
           sample_world 0%nat sample_spacing 1%nat sample_metadata
           NormalizeResample.default_kwargs).
  - reflexivity.
  - intros p Hp. vm_compute in Hp. injection Hp as <-. vm_compute. lia.
  - vm_compute. reflexivity.
Defined.

(** C4, as stated, fails on the sample: the caller's metadata has
    ["spacing_mm"] bound to ['legacy'] and, in its ["preprocessing"]
    mapping, ["normalize_resample"] bound to ['old']; in the returned
    metadata the former is the target spacing and the latter a record. *)
Lemma preexisting_spacing_mm_overwritten :
  ∃ ct w' m' d' p' dp' record q,
    sample_run = (Ok ct, w')
    ∧ NormalizeResample.ct_metadata ct = VRef m'
    ∧ heap w' !! m' = Some (ODict d')
    ∧ sample_metadata !! "spacing_mm" = Some (VStr "legacy")
    ∧ d' !! "spacing_mm" = Some unit_spacing_tuple
    ∧ unit_spacing_tuple ≠ VStr "legacy"
    ∧ sample_metadata !! "preprocessing" = Some (VRef q)
    ∧ heap sample_world !! q = Some (ODict sample_preprocessing)
    ∧ sample_preprocessing !! "normalize_resample" = Some (VStr "old")
    ∧ d' !! "preprocessing" = Some (VRef p')
    ∧ heap w' !! p' = Some (ODict dp')
    ∧ dp' !! "normalize_resample" = Some (VRef record).
Proof.
  rewrite sample_run_value. do 8 eexists.
  split; [reflexivity|]. split; [reflexivity|]. split; [reflexivity|].
  split; [by vm_compute|]. split; [by vm_compute|]. split; [done|].
  split; [by vm_compute|]. split; [reflexivity|]. split; [by vm_compute|].
  split; [by vm_compute|]. split; [reflexivity|]. by vm_compute.
Qed.

(** ** The caller's nested mapping is written to *)

Section SharedSubmapping.
Context `{External}.
Import NormalizeResample.

(** C5 fails on the code: [dict(metadata)] copies one level only, so the
    ["preprocessing"] sub-mapping of the returned metadata is the caller's
    own object, and storing ["normalize_resample"] in it changes what the
    caller's metadata holds.  The caller's top-level dict itself is left
    as it was. *)
Theorem caller_preprocessing_mapping_mutated w volume spacing m d p dp kw ct w' :
  heap w !! m = Some (ODict d) →
  d !! "preprocessing" = Some (VRef p) →
  heap w !! p = Some (ODict dp) →
  (∀ r, dp !! "normalize_resample" = Some (VRef r) → (r < length (heap w))%nat) →
  normalize_and_resample volume spacing (VRef m) kw w = (Ok ct, w') →
  ∃ record,
    heap w' !! p = Some (ODict (<["normalize_resample" := VRef record]> dp))
    ∧ heap w' !! record = Some (ODict (normalize_record kw))
    ∧ heap w' !! p ≠ heap w !! p
    ∧ (m ≠ p → heap w' !! m = Some (ODict d)).
Proof.
  intros Hm Hpre Hp Hfresh Hrun.
  pose proof (lookup_lt_Some _ _ _ Hp) as Hlt.
  destruct (normalize_and_resample_metadata w volume spacing m d kw ct w' Hm)
    as (m' & p' & dp' & record & _ & _ & _
        & Hp' & Hrec & Hrecord & Hcase & Hframe); [|done|].
  { intros p0 Hp0. rewrite Hpre in Hp0. by injection Hp0 as <-. }
  destruct Hcase as [(Hnone & _)|[Hsome Hp0]]; [congruence|].
  rewrite Hpre in Hsome. injection Hsome as <-.
  pose proof (eq_trans (eq_sym Hp) Hp0) as [= <-].
  exists record. split; [done|]. split; [done|]. split.
  - intros Heq. pose proof (eq_trans (eq_sym Hp') (eq_trans Heq Hp)) as [= Hd].
    assert (dp !! "normalize_resample" = Some (VRef record)) as Hr
      by (rewrite <- Hd; apply lookup_insert_eq).
    apply Hfresh in Hr. lia.
  - intros Hne. apply Hframe; [done|done|].
    intros ->. apply normalize_and_resample_ok in Hrun
      as (? & ? & a & _ & _ & _ & Hvol & _).
    pose proof (eq_trans (eq_sym Hm) Hvol) as Habs. discriminate Habs.
Qed.

End SharedSubmapping.

Lemma caller_preprocessing_mapping_mutated_witness :
  ∃ record,
    heap (snd sample_run) !! 2%nat
    = Some (ODict (<["normalize_resample" := VRef record]> sample_preprocessing))
    ∧ heap (snd sample_run) !! record
      = Some (ODict (NormalizeResample.normalize_record NormalizeResample.default_kwargs))
    ∧ heap (snd sample_run) !! 2%nat ≠ heap sample_world !! 2%nat
    ∧ (1%nat ≠ 2%nat → heap (snd sample_run) !! 1%nat = Some (ODict sample_metadata)).
Proof.
  apply (caller_preprocessing_mapping_mutated (H := plain_libs)
           sample_world 0%nat sample_spacing 1%nat sample_metadata 2%nat
           sample_preprocessing NormalizeResample.default_kwargs
           (NormalizeResample.mkCTVolume 3%nat
              (NormalizeResample.one, NormalizeResample.one, NormalizeResample.one)
              (VRef 4%nat))).
  - reflexivity.
  - reflexivity.
  - reflexivity.
  - intros r Hr. vm_compute in Hr. discriminate Hr.
  - rewrite sample_run_value. reflexivity.
Defined.

(** ** Where the cached volume is stored *)

Lemma has_slash_app s1 s2 :
  has_slash (s1 +:+ s2) = has_slash s1 || has_slash s2.
Proof.
  induction s1 as [|a s1 IH]; simpl; [done|]. by rewrite IH, orb_assoc.
Qed.

Lemma has_slash_replace s : has_slash (str_replace_char slash "_" s) = false.
Proof.
  induction s as [|a s IH]; simpl; [done|]. rewrite IH, orb_false_r.
  destruct (Ascii.eqb a slash) eqn:E; [done | exact E].
Qed.

Lemma split_slash_no_slash s : has_slash s = false → split_slash s = [s].
Proof.
  induction s as [|a s IH]; simpl; [done|].
  intros [Ha Hs]%orb_false_iff. by rewrite (IH Hs), Ha.
Qed.

Lemma app_String_r s1 a s2 : ∃ b s, s1 +:+ String a s2 = String b s.
Proof. destruct s1; simpl; eauto. Qed.

Lemma string_app_length s1 s2 :
  String.length (s1 +:+ s2) = (String.length s1 + String.length s2)%nat.
Proof. induction s1 as [|a s1 IH]; simpl; [done|]. by rewrite IH. Qed.

Lemma cache_file_name_parses key :
  path_of_string (str_replace_char slash "_" key +:+ NormalizeResample.cache_suffix)
  = mkPath false [str_replace_char slash "_" key +:+ NormalizeResample.cache_suffix].
Proof.
  set (safe := str_replace_char slash "_" key).
  assert (has_slash (safe +:+ NormalizeResample.cache_suffix) = false) as Hns.
  { rewrite has_slash_app. unfold safe. by rewrite has_slash_replace. }
  unfold path_of_string. rewrite (split_slash_no_slash _ Hns). f_equal.
  - destruct safe as [|a safe']; [done|]. simpl in *.
    by apply orb_false_iff in Hns as [-> _].
  - assert (25 ≤ String.length (safe +:+ NormalizeResample.cache_suffix))%nat as Hlen.
    { rewrite string_app_length. simpl. lia. }
    simpl. unfold is_component.
    destruct (safe +:+ NormalizeResample.cache_suffix) as [|a [|b s]] eqn:E;
      simpl in Hlen; try lia.
    rewrite filter_cons_True; [done|].
    simpl. destruct (Ascii.eqb a "."); done.
Qed.

Lemma path_join_file dir name :
  path_of_string name = mkPath false [name] →
  path_join dir name = mkPath (path_absolute dir) (path_parts dir ++ [name]).
Proof. intros Hn. unfold path_join. by rewrite Hn. Qed.

Lemma path_name_snoc a parts name : path_name (mkPath a (parts ++ [name])) = name.
Proof. unfold path_name. simpl. apply last_last. Qed.

Lemma path_parent_snoc dir name :
  path_parent (mkPath (path_absolute dir) (path_parts dir ++ [name])) = dir.
Proof. unfold path_parent. simpl. rewrite removelast_last. by destruct dir. Qed.

Section CacheLocation.
Import NormalizeResample Run.

Lemma cache_path_for_key_ok cache_dir cache_key w p w' :
  _cache_path_for_key cache_dir cache_key w = (Ok p, w') →
  p = path_join cache_dir (str_replace_char slash "_" cache_key +:+ cache_suffix)
  ∧ heap w' = heap w ∧ files w' = files w ∧ raw_loads w' = raw_loads w.
Proof.
  unfold _cache_path_for_key. intros ([] & w1 & Hmk & Hk)%bind_ok.
  injection Hk as <- <-. split; [done|].
  unfold path_mkdir_parents in Hmk. case_bool_decide; [discriminate|].
  by injection Hmk as <-.
Qed.

Lemma cache_path_for_key_run cache_dir cache_key w :
  Forall (λ q, files w !! path_str q = None) (path_and_ancestors cache_dir) →
  _cache_path_for_key cache_dir cache_key w
  = (Ok (path_join cache_dir (str_replace_char slash "_" cache_key +:+ cache_suffix)),
     set_dirs (list_to_set (path_str <$> path_and_ancestors cache_dir) ∪ dirs w) w).
Proof.
  intros Hfree. unfold _cache_path_for_key. rewrite bind_run.
  unfold path_mkdir_parents. rewrite bool_decide_eq_false_2; [done|].
  rewrite Exists_exists. intros (q & Hq & [x Hx]).
  rewrite Forall_forall in Hfree.
  rewrite (Hfree q Hq) in Hx. discriminate.
Qed.

(** C6 (amended): the orchestrator's cache directory is
    [<output_root>/<dataset>/volumes] and its key [<dataset>__<series_id>];
    the cache file in that directory is named after the key with every
    ["/"] replaced by ["_"], followed by ["_normalized_resampled.npz"]. *)
Theorem volume_cache_file_location data_root output_root dataset series_uid raw_rel w :
  Forall (λ q, files w !! path_str q = None)
    (path_and_ancestors (path_join (path_join output_root dataset) "volumes")) →
  ∃ raw mask p w',
    _build_paths_for_series data_root output_root
      (series_row dataset series_uid raw_rel) "raw_image_path" "series_uid"
    = Ok (raw, path_join (path_join output_root dataset) "volumes", mask,
          dataset, dataset +:+ "__" +:+ series_uid)
    ∧ _cache_path_for_key (path_join (path_join output_root dataset) "volumes")
        (dataset +:+ "__" +:+ series_uid) w = (Ok p, w')
    ∧ path_parent p = path_join (path_join output_root dataset) "volumes"
    ∧ path_name p
      = str_replace_char slash "_" (dataset +:+ "__" +:+ series_uid)
        +:+ "_normalized_resampled.npz"
    ∧ files w' = files w.
Proof.
  intros Hfree. do 4 eexists. split; [reflexivity|].
  rewrite (cache_path_for_key_run _ _ _ Hfree). split; [reflexivity|].
  rewrite (path_join_file _ _ (cache_file_name_parses _)).
  by rewrite path_name_snoc, path_parent_snoc.
Qed.

End CacheLocation.

Lemma volume_cache_file_location_witness :
  ∃ raw mask p w',
    Run._build_paths_for_series (path_of_string "data") (path_of_string "out")
      (series_row "nlst" "1.2.3" "scans/a.nii") "raw_image_path" "series_uid"
    = Ok (raw, path_join (path_join (path_of_string "out") "nlst") "volumes", mask,
          "nlst", "nlst" +:+ "__" +:+ "1.2.3")
    ∧ NormalizeResample._cache_path_for_key
        (path_join (path_join (path_of_string "out") "nlst") "volumes")
        ("nlst" +:+ "__" +:+ "1.2.3") sample_world = (Ok p, w')
    ∧ path_parent p = path_join (path_join (path_of_string "out") "nlst") "volumes"
    ∧ path_name p
      = str_replace_char slash "_" ("nlst" +:+ "__" +:+ "1.2.3")
        +:+ "_normalized_resampled.npz"
    ∧ files w' = files sample_world.
Proof.
  apply (volume_cache_file_location (path_of_string "data") (path_of_string "out")
           "nlst" "1.2.3" "scans/a.nii" sample_world).
  vm_compute. repeat constructor.
Defined.

(** C6, as stated, fails: the file of series [1.2.3] of dataset [nlst] is
    not [nlst__1.2.3.npz]. *)
Lemma cache_file_is_not_key_dot_npz :
  ∃ p w',
    NormalizeResample._cache_path_for_key
      (path_join (path_join (path_of_string "out") "nlst") "volumes")
      (Run._build_cache_key "nlst" "1.2.3") sample_world = (Ok p, w')
    ∧ path_str p = "out/nlst/volumes/nlst__1.2.3_normalized_resampled.npz"
    ∧ path_name p = "nlst__1.2.3_normalized_resampled.npz"
    ∧ path_name p ≠ Run._build_cache_key "nlst" "1.2.3" +:+ ".npz"
    ∧ path_str p ≠ "out/nlst/volumes/nlst__1.2.3.npz".
Proof.
  do 2 eexists. split; [by vm_compute|]. by vm_compute.
Qed.

(** ** Counting raw-loader invocations *)

Lemma keeps_count_ret {A} (x : A) : keeps_count (mret x).
Proof. by intros w r w' [= <- <-]. Qed.

Lemma keeps_count_raise {A} e : keeps_count (@raise A e).
Proof. by intros w r w' [= <- <-]. Qed.

Lemma keeps_count_lift {A} (x : result A) : keeps_count (lift_result x).
Proof. by intros w r w' [= <- <-]. Qed.

Lemma keeps_count_get_world : keeps_count get_world.
Proof. by intros w r w' [= <- <-]. Qed.

Lemma keeps_count_alloc o : keeps_count (alloc o).
Proof. by intros w r w' [= <- <-]. Qed.

Lemma keeps_count_get_obj l : keeps_count (get_obj l).
Proof. intros w r w'. unfold get_obj. by destruct (heap w !! l); intros [= <- <-]. Qed.

Lemma keeps_count_set_obj l o : keeps_count (set_obj l o).
Proof. intros w r w'. unfold set_obj. by destruct (heap w !! l); intros [= <- <-]. Qed.

Lemma keeps_count_bind {A B} (m : M A) (k : A → M B) :
  keeps_count m → (∀ x, keeps_count (k x)) → keeps_count (m ≫= k).
Proof.
  intros Hm Hk w r w'. rewrite bind_run.
  destruct (m w) as [[x|e] w1] eqn:Em.
  - intros Hrun. rewrite (Hk _ _ _ _ Hrun). eauto.
  - intros [= <- <-]. eauto.
Qed.

Lemma keeps_count_json_loads j : keeps_count (json_loads j).
Proof.
  intros w r w'. unfold json_loads. destruct (loads j (heap w)). by intros [= <- <-].
Qed.

Lemma keeps_count_path_exists p : keeps_count (path_exists p).
Proof. by intros w r w' [= <- <-]. Qed.

Lemma keeps_count_path_mkdir_parents p : keeps_count (path_mkdir_parents p).
Proof.
  intros w r w'. unfold path_mkdir_parents. by case_bool_decide; intros [= <- <-].
Qed.

#[export] Hint Resolve keeps_count_ret keeps_count_raise keeps_count_lift
  keeps_count_get_world keeps_count_alloc keeps_count_get_obj keeps_count_set_obj
  keeps_count_json_loads keeps_count_path_exists keeps_count_path_mkdir_parents
  : frame.

Ltac count_step :=
  first [ apply keeps_count_bind; [| intros ?]
        | match goal with |- keeps_count (match ?x with _ => _ end) => destruct x end
        | match goal with |- keeps_count (if ?x then _ else _) => destruct x end
        | solve [eauto with frame] ].

Lemma keeps_count_get_array l : keeps_count (get_array l).
Proof. unfold get_array. repeat count_step. Qed.

Lemma keeps_count_dict_of v : keeps_count (dict_of v).
Proof. unfold dict_of. repeat count_step. Qed.

Lemma keeps_count_setitem t k v : keeps_count (setitem t k v).
Proof. unfold setitem. repeat count_step. Qed.

#[export] Hint Resolve keeps_count_get_array keeps_count_dict_of
  keeps_count_setitem : frame.

Lemma keeps_count_dict_get d k v : keeps_count (dict_get d k v).
Proof. unfold dict_get. repeat count_step. Qed.

Lemma keeps_count_truthy v : keeps_count (truthy v).
Proof. unfold truthy. repeat count_step. Qed.

Lemma keeps_count_astype_float32 l : keeps_count (NormalizeResample.astype_float32 l).
Proof. unfold NormalizeResample.astype_float32. repeat count_step. Qed.

#[export] Hint Resolve keeps_count_dict_get keeps_count_truthy
  keeps_count_astype_float32 : frame.

Section CountPipeline.
Context `{External}.
Import NormalizeResample.

Lemma keeps_count_normalize_and_resample volume spacing metadata kw :
  keeps_count (normalize_and_resample volume spacing metadata kw).
Proof.
  unfold normalize_and_resample, clamp_hu, clip_out, maybe_denoise,
    resample_to_spacing, copy_metadata.
  repeat count_step.
Qed.

Lemma keeps_count_savez_compressed p a : keeps_count (savez_compressed p a).
Proof.
  intros w r w'. unfold savez_compressed.
  case_bool_decide; [by intros [= <- <-]|].
  by destruct (negb _); intros [= <- <-].
Qed.

Lemma keeps_count_np_load p : keeps_count (np_load p).
Proof.
  intros w r w'. unfold np_load.
  destruct (files w !! path_str p) as [[]|]; try by intros [= <- <-].
  by case_bool_decide; intros [= <- <-].
Qed.

#[local] Hint Resolve keeps_count_savez_compressed keeps_count_np_load : frame.

Lemma keeps_count_save_cached_volume ct p : keeps_count (save_cached_volume ct p).
Proof. unfold save_cached_volume. repeat count_step. Qed.

Lemma keeps_count_load_cached_volume p : keeps_count (load_cached_volume p).
Proof. unfold load_cached_volume. repeat count_step. Qed.

End CountPipeline.

(** ** The cache file name ends in [.npz] *)

Lemma ends_with_app_r suffix pre s :
  NormalizeResample.ends_with suffix s = true →
  NormalizeResample.ends_with suffix (pre +:+ s) = true.
Proof.
  intros Hs. induction pre as [|a pre IH]; simpl; [done|].
  rewrite IH. apply orb_true_r.
Qed.

Lemma string_app_assoc (s1 s2 s3 : string) : (s1 +:+ s2) +:+ s3 = s1 +:+ (s2 +:+ s3).
Proof.
  induction s1 as [|a s1 IH]; [done|]. exact (f_equal (String a) IH).
Qed.

Lemma join_with_slash_cons c l :
  l ≠ [] → join_with_slash (c :: l) = c +:+ "/" +:+ join_with_slash l.
Proof. by destruct l. Qed.

Lemma join_with_slash_snoc l x : ∃ pre, join_with_slash (l ++ [x]) = pre +:+ x.
Proof.
  induction l as [|c l [pre IH]].
  - by exists "".
  - exists (c +:+ "/" +:+ pre). rewrite <- app_comm_cons.
    rewrite join_with_slash_cons by (by destruct l).
    by rewrite IH, !string_app_assoc.
Qed.

Lemma cache_path_parts cache_dir cache_key :
  cache_path cache_dir cache_key
  = mkPath (path_absolute cache_dir)
      (path_parts cache_dir
       ++ [str_replace_char slash "_" cache_key +:+ NormalizeResample.cache_suffix]).
Proof. unfold cache_path. apply path_join_file, cache_file_name_parses. Qed.

Lemma cache_path_npz_name cache_dir cache_key :
  NormalizeResample.npz_file_name (cache_path cache_dir cache_key)
  = path_str (cache_path cache_dir cache_key).
Proof.
  unfold NormalizeResample.npz_file_name.
  assert (NormalizeResample.ends_with ".npz"
            (path_str (cache_path cache_dir cache_key)) = true) as ->; [|done].
  rewrite cache_path_parts. unfold path_str. simpl.
  destruct (join_with_slash_snoc (path_parts cache_dir)
              (str_replace_char slash "_" cache_key +:+ NormalizeResample.cache_suffix))
    as [pre Hpre].
  assert (∀ pre', NormalizeResample.ends_with ".npz"
            (pre' +:+ (str_replace_char slash "_" cache_key
                       +:+ NormalizeResample.cache_suffix)) = true) as Hends.
  { intros pre'. rewrite <- string_app_assoc. by apply ends_with_app_r. }
  destruct (path_absolute cache_dir).
  - rewrite Hpre. apply (Hends (String "/" pre)).
  - destruct (path_parts cache_dir ++ _) eqn:E; [by destruct (path_parts cache_dir)|].
    rewrite Hpre. apply Hends.
Qed.

(** ** Cache hits and misses *)

Section CacheHit.
Context `{External}.
Import NormalizeResample.

Lemma keeps_count_cache_path_for_key cache_dir cache_key :
  keeps_count (_cache_path_for_key cache_dir cache_key).
Proof. unfold _cache_path_for_key. repeat count_step. Qed.

Lemma with_cache_run cache_key load_raw_fn cache_dir force kw w :
  mkdir_possible cache_dir w →
  normalize_and_resample_with_cache cache_key load_raw_fn cache_dir force kw w
  = if exists_in (cache_path cache_dir cache_key) (after_mkdir cache_dir w) && negb force
    then hit_branch (cache_path cache_dir cache_key) (after_mkdir cache_dir w)
    else miss_branch load_raw_fn kw (cache_path cache_dir cache_key)
           (after_mkdir cache_dir w).
Proof.
  intros Hmk. unfold normalize_and_resample_with_cache.
  rewrite bind_run, (cache_path_for_key_run _ _ _ Hmk).
  fold (cache_path cache_dir cache_key). fold (after_mkdir cache_dir w).
  rewrite bind_run. unfold path_exists at 1.
  fold (exists_in (cache_path cache_dir cache_key) (after_mkdir cache_dir w)).
  by destruct (exists_in _ _ && negb force).
Qed.

Lemma hit_branch_count p : keeps_count (hit_branch p).
Proof.
  unfold hit_branch. apply keeps_count_bind; [apply keeps_count_load_cached_volume|].
  intros ct. apply keeps_count_ret.
Qed.

Lemma miss_branch_count load_raw_fn kw p w r w' :
  miss_branch load_raw_fn kw p w = (r, w') → raw_loads w' = S (raw_loads w).
Proof.
  unfold miss_branch. rewrite bind_run. unfold call_loader at 1.
  destruct (load_raw_fn w) as [[[[volume spacing] metadata]|e] w1] eqn:El.
  - intros Hrun.
    assert (keeps_count
              (ct ← normalize_and_resample volume spacing metadata kw;
               save_cached_volume ct p;; mret (ct, p))) as Hkeep.
    { apply keeps_count_bind; [apply keeps_count_normalize_and_resample|].
      intros ct. apply keeps_count_bind; [apply keeps_count_save_cached_volume|].
      intros []. apply keeps_count_ret. }
    by rewrite (Hkeep _ _ _ Hrun).
  - by intros [= <- <-].
Qed.

Lemma savez_compressed_ok p a w w' :
  savez_compressed p a w = (Ok (), w') →
  files w' !! npz_file_name p = Some (FNpz a).
Proof.
  unfold savez_compressed. case_bool_decide; [discriminate|].
  destruct (negb _); [discriminate|]. intros [= <-]. apply lookup_insert_eq.
Qed.

Lemma save_cached_volume_ok ct p w w' :
  save_cached_volume ct p w = (Ok (), w') →
  is_Some (files w' !! npz_file_name p).
Proof.
  unfold save_cached_volume.
  intros (keep & w1 & _ & Hk)%bind_ok.
  apply bind_ok in Hk as (metadata & w2 & _ & Hk).
  apply bind_ok in Hk as (w3 & w3' & _ & Hk).
  apply bind_ok in Hk as (j & w4 & _ & Hk).
  apply bind_ok in Hk as (data & w5 & _ & Hk).
  apply bind_ok in Hk as (a & w6 & _ & Hk).
  apply savez_compressed_ok in Hk. eauto.
Qed.

Lemma miss_branch_ok load_raw_fn kw p w x w' :
  miss_branch load_raw_fn kw p w = (Ok x, w') →
  is_Some (files w' !! npz_file_name p).
Proof.
  unfold miss_branch. intros ([[volume spacing] metadata] & w1 & _ & Hk)%bind_ok.
  apply bind_ok in Hk as (ct & w2 & _ & Hk).
  apply bind_ok in Hk as ([] & w3 & Hsave & Hk).
  injection Hk as _ <-. by eapply save_cached_volume_ok.
Qed.

(** With the cache file in place and no forced recomputation, the raw
    loader is not invoked, whatever else happens. *)
Lemma cached_call_count cache_key load_raw_fn cache_dir kw w r w' :
  is_Some (files w !! path_str (cache_path cache_dir cache_key)) →
  normalize_and_resample_with_cache cache_key load_raw_fn cache_dir false kw w = (r, w') →
  raw_loads w' = raw_loads w.
Proof.
  intros Hfile. unfold normalize_and_resample_with_cache. rewrite bind_run.
  destruct (_cache_path_for_key cache_dir cache_key w) as [[p|e] w0] eqn:Ep.
  - pose proof (keeps_count_cache_path_for_key _ _ _ _ _ Ep) as Hc.
    apply cache_path_for_key_ok in Ep as (-> & _ & Hf & _).
    fold (cache_path cache_dir cache_key).
    rewrite bind_run. unfold path_exists at 1.
    rewrite Hf, bool_decide_eq_true_2 by done. simpl.
    intros Hrun. fold (hit_branch (cache_path cache_dir cache_key)) in Hrun.
    by rewrite (hit_branch_count _ _ _ _ Hrun).
  - intros [= <- <-]. by eapply keeps_count_cache_path_for_key.
Qed.

(** C3: with the cache file present and [force_recompute] false the call
    is the load of that file and the raw loader is not invoked; from a cold
    cache, a first call that returns has invoked the loader once, a second
    call leaves the count at one, and a second call with
    [force_recompute] true brings it to two. *)
Theorem cache_hit_skips_raw_loader cache_key load_raw_fn cache_dir kw w :
  mkdir_possible cache_dir w →
  (is_Some (files w !! path_str (cache_path cache_dir cache_key)) →
     normalize_and_resample_with_cache cache_key load_raw_fn cache_dir false kw w
     = hit_branch (cache_path cache_dir cache_key) (after_mkdir cache_dir w)
     ∧ (∀ other_loader,
          normalize_and_resample_with_cache cache_key other_loader cache_dir false kw w
          = normalize_and_resample_with_cache cache_key load_raw_fn cache_dir false kw w)
     ∧ raw_loads (snd (normalize_and_resample_with_cache
                         cache_key load_raw_fn cache_dir false kw w))
       = raw_loads w)
  ∧ (exists_in (cache_path cache_dir cache_key) (after_mkdir cache_dir w) = false →
     ∀ r1 w1,
       normalize_and_resample_with_cache cache_key load_raw_fn cache_dir false kw w
       = (Ok r1, w1) →
       raw_loads w1 = S (raw_loads w)
       ∧ raw_loads (snd (normalize_and_resample_with_cache
                           cache_key load_raw_fn cache_dir false kw w1))
         = S (raw_loads w)
       ∧ (mkdir_possible cache_dir w1 →
          raw_loads (snd (normalize_and_resample_with_cache
                            cache_key load_raw_fn cache_dir true kw w1))
          = S (S (raw_loads w)))).
Proof.
  intros Hmk. split.
  - intros Hfile.
    assert (∀ f, normalize_and_resample_with_cache cache_key f cache_dir false kw w
                 = hit_branch (cache_path cache_dir cache_key) (after_mkdir cache_dir w))
      as Hhit.
    { intros f. rewrite (with_cache_run _ _ _ _ _ _ Hmk).
      unfold exists_in. simpl. by rewrite bool_decide_eq_true_2. }
    split; [apply Hhit|]. split; [intros f; by rewrite !Hhit|].
    eapply cached_call_count; [done|]. apply surjective_pairing.
  - intros Hcold r1 w1 Hrun1.
    rewrite (with_cache_run _ _ _ _ _ _ Hmk), Hcold in Hrun1. simpl in Hrun1.
    pose proof (miss_branch_count _ _ _ _ _ _ Hrun1) as Hc1.
    pose proof (miss_branch_ok _ _ _ _ _ _ Hrun1) as Hfile1.
    rewrite cache_path_npz_name in Hfile1.
    simpl in Hc1. split; [done|]. split.
    + rewrite <- Hc1. eapply cached_call_count; [done|]. apply surjective_pairing.
    + intros Hmk1. rewrite (with_cache_run _ _ _ _ _ _ Hmk1).
      rewrite andb_false_r.
      erewrite miss_branch_count; [|apply surjective_pairing].
      simpl. by rewrite Hc1.
Qed.

End CacheHit.

Lemma cache_hit_skips_raw_loader_witness :
  (raw_loads sample_world_cached = 1%nat
   ∧ raw_loads (snd (sample_cached_call false sample_world_cached)) = 1%nat
   ∧ raw_loads (snd (sample_cached_call true sample_world_cached)) = 2%nat)
  ∧ (sample_cached_call false sample_world_cached
     = hit_branch (cache_path sample_cache_dir "nlst__1.2.3")
         (after_mkdir sample_cache_dir sample_world_cached)
     ∧ raw_loads (snd (sample_cached_call false sample_world_cached))
       = raw_loads sample_world_cached).
Proof.
  assert (mkdir_possible sample_cache_dir sample_world) as Hmk
    by (vm_compute; repeat constructor).
  assert (mkdir_possible sample_cache_dir sample_world_cached) as Hmk1
    by (vm_compute; repeat constructor).
  split.
  - destruct (cache_hit_skips_raw_loader (H := plain_libs) "nlst__1.2.3" sample_loader
                sample_cache_dir NormalizeResample.default_kwargs sample_world Hmk)
      as [_ Hcold].
    assert (is_ok (fst (sample_cached_call false sample_world)) = true) as Hok
      by (vm_compute; reflexivity).
    destruct (sample_cached_call false sample_world) as [[r1|e] w1] eqn:Erun;
      [|discriminate Hok].
    destruct (Hcold eq_refl r1 w1 Erun) as (H1 & H2 & H3).
    unfold sample_world_cached. rewrite Erun. simpl.
    replace w1 with sample_world_cached in *
      by (unfold sample_world_cached; by rewrite Erun).
    split; [exact H1|]. split; [exact H2|]. exact (H3 Hmk1).
  - destruct (cache_hit_skips_raw_loader (H := plain_libs) "nlst__1.2.3" sample_loader
                sample_cache_dir NormalizeResample.default_kwargs sample_world_cached Hmk1)
      as [Hhit _].
    assert (is_Some (files sample_world_cached
                       !! path_str (cache_path sample_cache_dir "nlst__1.2.3"))) as Hfile
      by (vm_compute; eauto).
    destruct (Hhit Hfile) as (H1 & _ & H3). split; [exact H1 | exact H3].
Defined.

(** ** JSON round trip *)

Lemma pyval_nested_ind (P : pyval → Prop) :
  P VNone → (∀ b, P (VBool b)) → (∀ z, P (VInt z)) → (∀ f, P (VFloat f)) →
  (∀ s, P (VStr s)) → (∀ vs, Forall P vs → P (VTuple vs)) → (∀ l, P (VRef l)) →
  ∀ v, P v.
Proof.
  intros Hnone Hbool Hint Hfloat Hstr Htuple Href.
  fix IH 1.
  intros [| b | z | f | s | vs | l];
    [exact Hnone | apply Hbool | apply Hint | apply Hfloat | apply Hstr
    | | apply Href].
  apply Htuple. induction vs as [|v vs IHvs]; constructor; [apply IH | exact IHvs].
Qed.

Lemma result_bind_ok {A B} (r : result A) (k : A → result B) b :
  r ≫= k = Ok b → ∃ a, r = Ok a ∧ k a = Ok b.
Proof. destruct r as [a|e]; [eauto | discriminate]. Qed.

Lemma result_mapM_ok_cons {A B} (f : A → result B) x xs ys :
  result_mapM f (x :: xs) = Ok ys →
  ∃ y ys', f x = Ok y ∧ result_mapM f xs = Ok ys' ∧ ys = y :: ys'.
Proof.
  simpl. intros (y & Hy & Hk)%result_bind_ok.
  apply result_bind_ok in Hk as (ys' & Hys & [= <-]). eauto.
Qed.

Lemma dumps_fuel_unfold n h v :
  dumps_fuel n h v
  = match v with
    | VNone => Ok JNull
    | VBool b => Ok (JBool b)
    | VInt z => Ok (JInt z)
    | VFloat f => Ok (JFloat f)
    | VStr s => Ok (JStr s)
    | VTuple vs => js ← result_mapM (dumps_fuel n h) vs; Ok (JArr js)
    | VRef l =>
        match n with
        | O => Raise (ValueError "Circular reference detected")
        | S n' =>
            match h !! l with
            | Some (ODict d) =>
                kvs ← result_mapM
                        (λ kv : string * pyval,
                           j ← dumps_fuel n' h kv.2; Ok (kv.1, j))
                        (map_to_list d);
                Ok (JObj kvs)
            | Some (OList vs) =>
                js ← result_mapM (dumps_fuel n' h) vs; Ok (JArr js)
            | Some (OArray _) =>
                Raise (TypeError "Object of type ndarray is not JSON serializable")
            | None => Raise BadReference
            end
        end
    end.
Proof. destruct n, v; reflexivity. Qed.

Lemma reloads_items_of_Forall js : Forall reloads js → reloads_items js.
Proof.
  induction 1 as [|j js Hj _ IH]; intros h.
  - exists [], []. rewrite app_nil_r. done.
  - destruct (Hj h) as (v & new1 & Hload & Hlen1 & Hdump).
    destruct (IH (h ++ new1)) as (vs & new2 & Hloads & Hlen2 & Hdumps).
    exists (v :: vs), (new1 ++ new2). simpl. rewrite Hload, Hloads.
    split; [by rewrite app_assoc|]. split; [by rewrite length_app, Hlen1, Hlen2|].
    intros n ext Hn. simpl.
    rewrite <- (app_assoc new1 new2 ext).
    rewrite (Hdump n (new2 ++ ext)) by lia. simpl.
    rewrite (app_assoc h new1 (new2 ++ ext)).
    rewrite (Hdumps n ext) by lia. done.
Qed.

Lemma reloads_pairs_of_Forall kvs :
  Forall (λ kv, reloads kv.2) kvs → reloads_pairs kvs.
Proof.
  induction 1 as [|[k j] kvs Hj _ IH]; intros h.
  - exists [], []. rewrite app_nil_r. done.
  - simpl in Hj. destruct (Hj h) as (v & new1 & Hload & Hlen1 & Hdump).
    destruct (IH (h ++ new1)) as (pairs & new2 & Hloads & Hlen2 & Hkeys & Hdumps).
    exists ((k, v) :: pairs), (new1 ++ new2). simpl. rewrite Hload, Hloads.
    split; [by rewrite app_assoc|]. split; [by rewrite length_app, Hlen1, Hlen2|].
    split; [exact (f_equal (cons k) Hkeys)|].
    intros n ext Hn. simpl.
    rewrite <- (app_assoc new1 new2 ext).
    rewrite (Hdump n (new2 ++ ext)) by lia. simpl.
    rewrite (app_assoc h new1 (new2 ++ ext)).
    rewrite (Hdumps n ext) by lia. done.
Qed.

Lemma reloads_array js : reloads_items js → reloads (JArr js).
Proof.
  intros Hjs h. destruct (Hjs h) as (vs & new & Hloads & Hlen & Hdumps).
  exists (VRef (length (h ++ new))), (new ++ [OList vs]).
  simpl. rewrite Hloads. split; [by rewrite app_assoc|].
  split; [rewrite length_app, Hlen; simpl; lia|].
  intros [|n] ext Hn; [lia|].
  rewrite dumps_fuel_unfold.
  rewrite <- (app_assoc new), (app_assoc h new).
  rewrite lookup_app_r, Nat.sub_diag by done. simpl.
  rewrite <- (app_assoc h new).
  rewrite (Hdumps n (OList vs :: ext)) by lia. done.
Qed.

(** *** Key order of a dict rebuilt from its own items *)

Lemma dict_of_pairs_union (l : list (string * pyval)) (acc : gmap string pyval) :
  NoDup l.*1 →
  foldl (λ m kv, <[kv.1 := kv.2]> m) acc l = list_to_map l ∪ acc.
Proof.
  revert acc. induction l as [|[k v] l IH]; intros acc Hnd.
  - simpl. by rewrite (left_id_L ∅ (∪)).
  - rewrite fmap_cons in Hnd. apply NoDup_cons in Hnd as [Hk Hnd].
    simpl. rewrite IH by done.
    rewrite <- insert_union_l. symmetry. apply insert_union_r.
    by apply not_elem_of_list_to_map_1.
Qed.

Lemma dict_of_pairs_list_to_map (l : list (string * pyval)) :
  NoDup l.*1 → dict_of_pairs l = list_to_map l.
Proof.
  intros Hnd. unfold dict_of_pairs. rewrite dict_of_pairs_union by done.
  by rewrite (right_id_L ∅ (∪)).
Qed.

Lemma map_to_list_list_to_map_ordered {X Y} (m0 : gmap string X)
    (l : list (string * Y)) :
  l.*1 = (map_to_list m0).*1 →
  map_to_list (list_to_map l : gmap string Y) = l.
Proof.
  revert l. induction m0 as [|i x m Hi Hfirst IH] using map_first_key_ind; intros l Hl.
  - rewrite map_to_list_empty in Hl. destruct l; [|done].
    simpl. apply map_to_list_empty.
  - rewrite (map_to_list_insert_first_key _ _ _ Hi Hfirst) in Hl.
    destruct l as [|[k y] l]; [done|].
    rewrite !fmap_cons in Hl. cbn [fst] in Hl. injection Hl as -> Hl.
    assert (∀ j, is_Some ((list_to_map l : gmap string Y) !! j) ↔ is_Some (m !! j))
      as Hdom.
    { intros j.
      rewrite <- (elem_of_dom (list_to_map l)), dom_list_to_map_L,
        elem_of_list_to_set, Hl.
      split.
      - intros Hj. apply list_elem_of_fmap in Hj as ([j' x'] & -> & Hj).
        apply elem_of_map_to_list in Hj. simpl. eauto.
      - intros [x' Hj]. apply list_elem_of_fmap. exists (j, x'). split; [done|].
        by apply elem_of_map_to_list. }
    assert ((list_to_map l : gmap string Y) !! i = None) as Hnone.
    { apply eq_None_not_Some. rewrite Hdom, Hi. by intros [? ?]. }
    simpl. rewrite map_to_list_insert_first_key; [by rewrite (IH l Hl)|done|].
    apply (map_first_key_dom' (<[i:=y]> (list_to_map l)) (<[i:=x]> m)); [|done].
    intros j. rewrite !lookup_insert_is_Some. by rewrite Hdom.
Qed.

Lemma map_to_list_dict_of_pairs {X} (m0 : gmap string X) (l : list (string * pyval)) :
  l.*1 = (map_to_list m0).*1 → map_to_list (dict_of_pairs l) = l.
Proof.
  intros Hl. rewrite dict_of_pairs_list_to_map.
  - by eapply map_to_list_list_to_map_ordered.
  - rewrite Hl. apply NoDup_fst_map_to_list.
Qed.

Lemma reloads_object {X} (m0 : gmap string X) kvs :
  kvs.*1 = (map_to_list m0).*1 → reloads_pairs kvs → reloads (JObj kvs).
Proof.
  intros Hkeys Hkvs h.
  destruct (Hkvs h) as (pairs & new & Hloads & Hlen & Hpk & Hdumps).
  exists (VRef (length (h ++ new))), (new ++ [ODict (dict_of_pairs pairs)]).
  simpl. rewrite Hloads. split; [by rewrite app_assoc|].
  split; [rewrite length_app, Hlen; simpl; lia|].
  intros [|n] ext Hn; [lia|].
  rewrite dumps_fuel_unfold.
  rewrite <- (app_assoc new), (app_assoc h new).
  rewrite lookup_app_r, Nat.sub_diag by done. simpl.
  rewrite (map_to_list_dict_of_pairs m0) by (by rewrite Hpk).
  rewrite <- (app_assoc h new).
  rewrite (Hdumps n (ODict (dict_of_pairs pairs) :: ext)) by lia. done.
Qed.

Lemma reloads_leaf v j :
  (∀ h, loads j h = (v, h)) → json_allocs j = 0%nat →
  (∀ n h, dumps_fuel n h v = Ok j) → reloads j.
Proof.
  intros Hload Hallocs Hdump h. exists v, [].
  rewrite app_nil_r, Hload, Hallocs. eauto.
Qed.

Lemma result_mapM_Forall {A B} (Q : B → Prop) (f : A → result B) l ys :
  Forall (λ x, ∀ y, f x = Ok y → Q y) l →
  result_mapM f l = Ok ys → Forall Q ys.
Proof.
  intros Hl. revert ys. induction Hl as [|x l Hx _ IH]; intros ys.
  - intros [= <-]. constructor.
  - intros (y & ys' & Hy & Hys & ->)%result_mapM_ok_cons.
    constructor; [by apply Hx | by apply IH].
Qed.

Lemma result_mapM_keys {A B} (g : A → result B) (l : list (string * A)) kvs :
  result_mapM (λ kv : string * A, j ← g kv.2; Ok (kv.1, j)) l = Ok kvs →
  kvs.*1 = l.*1.
Proof.
  revert kvs. induction l as [|[k a] l IH]; intros kvs.
  - by intros [= <-].
  - intros (y & ys' & Hy & Hys & ->)%result_mapM_ok_cons.
    simpl in Hy. apply result_bind_ok in Hy as (j & _ & [= <-]).
    rewrite !fmap_cons. simpl. f_equal. by apply IH.
Qed.

(** Whatever [dumps] produces can be loaded and serialised again. *)
Lemma dumps_reloads n h v j : dumps_fuel n h v = Ok j → reloads j.
Proof.
  revert v j. induction n as [n IHn] using lt_wf_ind.
  intros v. induction v as [| b | z | f | s | vs IHvs | l] using pyval_nested_ind;
    intros j; rewrite dumps_fuel_unfold.
  - intros [= <-]. by apply (reloads_leaf VNone); intros; rewrite ?dumps_fuel_unfold.
  - intros [= <-]. by apply (reloads_leaf (VBool b)); intros; rewrite ?dumps_fuel_unfold.
  - intros [= <-]. by apply (reloads_leaf (VInt z)); intros; rewrite ?dumps_fuel_unfold.
  - intros [= <-]. by apply (reloads_leaf (VFloat f)); intros; rewrite ?dumps_fuel_unfold.
  - intros [= <-]. by apply (reloads_leaf (VStr s)); intros; rewrite ?dumps_fuel_unfold.
  - intros (js & Hjs & [= <-])%result_bind_ok.
    apply reloads_array, reloads_items_of_Forall.
    by eapply result_mapM_Forall.
  - destruct n as [|n']; [discriminate|].
    destruct (h !! l) as [[d|vs|a]|]; try discriminate.
    + intros (kvs & Hkvs & [= <-])%result_bind_ok.
      apply (reloads_object d); [by eapply result_mapM_keys|].
      apply reloads_pairs_of_Forall.
      eapply (result_mapM_Forall (λ kv, reloads kv.2)); [|exact Hkvs].
      apply Forall_forall. intros [k x] _ [k' j'] Hx. simpl in Hx.
      apply result_bind_ok in Hx as (j0 & Hj0 & [= <- <-]). simpl.
      eapply (IHn n'); [lia | exact Hj0].
    + intros (js & Hjs & [= <-])%result_bind_ok.
      apply reloads_array, reloads_items_of_Forall.
      eapply result_mapM_Forall; [|exact Hjs].
      apply Forall_forall. intros x _ y Hy. eapply (IHn n'); [lia | exact Hy].
Qed.

(** ** Saving and loading a cached volume *)

Lemma truthy_ok v b w w' : truthy v w = (Ok b, w') → w' = w.
Proof.
  destruct v as [| | | | | |l]; try by intros [= _ <-].
  simpl. intros (o & w1 & Hget & Hk)%bind_ok.
  apply get_obj_ok in Hget as [-> _].
  destruct o as [d|vs|a]; try by injection Hk as _ <-.
  destruct (arr_data a) as [|x [|y r]]; by injection Hk as _ <-.
Qed.

Lemma json_dumps_empty_dict h :
  json_dumps (h ++ [ODict ∅]) (VRef (length h)) = Ok (JObj []).
Proof.
  unfold json_dumps. rewrite dumps_fuel_unfold, lookup_snoc. simpl.
  by rewrite map_to_list_empty.
Qed.

Section RoundTrip.
Import NormalizeResample.

Lemma save_cached_volume_inv ct p w a w1 :
  heap w !! ct_data ct = Some (OArray a) →
  save_cached_volume ct p w = (Ok (), w1) →
  ∃ j,
    json_of_metadata w (ct_metadata ct) = Ok j
    ∧ files w1 = <[npz_file_name p :=
                    FNpz (Npz (as_float32 a) (spacing_float32 (ct_spacing ct)) j)]>
                   (files w).
Proof.
  intros Ha. unfold save_cached_volume.
  intros (keep & w0 & Htruthy & Hk)%bind_ok.
  pose proof (truthy_ok _ _ _ _ Htruthy) as ->.
  apply bind_ok in Hk as (metadata & w2 & Hmd & Hk).
  apply bind_ok in Hk as (w2' & w3 & [= <- <-] & Hk).
  apply bind_ok in Hk as (j & w4 & Hj & Hk).
  injection Hj as Hj <-.
  apply bind_ok in Hk as (data & w5 & Hty & Hk).
  apply bind_ok in Hk as (a' & w6 & Hget & Hk).
  apply get_array_ok in Hget as [-> Hdata].
  exists j.
  assert (heap w2 !! ct_data ct = Some (OArray a) ∧ files w2 = files w
          ∧ json_of_metadata w (ct_metadata ct) = Ok j) as (Ha2 & Hf2 & Hjson).
  { unfold json_of_metadata. rewrite Htruthy. destruct keep.
    - injection Hmd as <- <-. done.
    - apply bind_ok in Hmd as (l & w7 & Hal & Hmd).
      apply alloc_ok in Hal as [-> ->]. injection Hmd as <- <-.
      cbn [heap set_heap files] in *.
      rewrite json_dumps_empty_dict in Hj. injection Hj as <-.
      split; [|done]. rewrite lookup_app_l; [done|]. by eapply lookup_lt_Some. }
  split; [done|].
  apply astype_float32_ok in Hty as (a0 & Ha0 & Hcase).
  pose proof (eq_trans (eq_sym Ha2) Ha0) as [= <-].
  assert (a' = as_float32 a ∧ files w5 = files w) as [-> Hf5].
  { unfold as_float32. destruct Hcase as [(Hdt & -> & ->)|(Hdt & -> & ->)].
    - rewrite decide_True by done.
      pose proof (eq_trans (eq_sym Ha2) Hdata) as [= <-]. done.
    - rewrite decide_False by done. cbn [heap set_heap files] in *.
      rewrite lookup_snoc in Hdata. by injection Hdata as <-. }
  unfold savez_compressed in Hk. case_bool_decide; [discriminate|].
  destruct (negb _); [discriminate|]. injection Hk as <-.
  cbn [files set_files]. by rewrite Hf5.
Qed.

Lemma as_float32_dtype a : arr_dtype (as_float32 a) = Float32.
Proof. unfold as_float32. by case_decide. Qed.

Lemma load_cached_volume_run p w a sp j :
  files w !! path_str p = Some (FNpz (Npz a sp j)) →
  arr_dtype a = Float32 →
  reloads j →
  ∃ ct' w2,
    load_cached_volume p w = (Ok ct', w2)
    ∧ heap w2 !! ct_data ct' = Some (OArray a)
    ∧ ct_spacing ct' = spacing_float32 sp
    ∧ json_dumps (heap w2) (ct_metadata ct') = Ok j
    ∧ files w2 = files w.
Proof.
  intros Hfile Hdt Hj.
  destruct (Hj (heap w ++ [OArray a])) as (v & new & Hload & Hlen & Hdump).
  exists (mkCTVolume (length (heap w)) (spacing_float32 sp) v),
         (set_heap ((heap w ++ [OArray a]) ++ new) w).
  split.
  - unfold load_cached_volume. rewrite bind_run. unfold path_exists at 1.
    rewrite Hfile, bool_decide_eq_true_2 by eauto. simpl.
    rewrite bind_run. unfold np_load at 1. rewrite Hfile. simpl.
    rewrite bind_run. unfold alloc at 1.
    rewrite bind_run. unfold astype_float32.
    rewrite bind_run, (get_array_run _ a) by (simpl; apply lookup_snoc).
    rewrite decide_True by done. simpl.
    rewrite bind_run. unfold json_loads at 1. cbn [heap set_heap].
    by rewrite Hload.
  - cbn [heap set_heap files ct_data ct_spacing ct_metadata].
    split; [|split; [done|split; [|done]]].
    + rewrite <- app_assoc. by rewrite lookup_app_r, Nat.sub_diag.
    + unfold json_dumps.
      specialize (Hdump (S (length ((heap w ++ [OArray a]) ++ new))) []).
      rewrite app_nil_r in Hdump. apply Hdump.
      rewrite length_app. lia.
Qed.

(** C2 (amended): a file written by [save_cached_volume] under a name
    ending in [.npz] loads back as a volume whose data is the original
    converted to float32 (the original itself when it is float32), whose
    spacing is the original rounded to float32 component by component, and
    whose metadata serialises to the same JSON document as the original
    [metadata or {}]. *)
Theorem cache_round_trip ct p w a w1 :
  heap w !! ct_data ct = Some (OArray a) →
  npz_file_name p = path_str p →
  save_cached_volume ct p w = (Ok (), w1) →
  ∃ ct' w2 j,
    load_cached_volume p w1 = (Ok ct', w2)
    ∧ heap w2 !! ct_data ct' = Some (OArray (as_float32 a))
    ∧ (arr_dtype a = Float32 → heap w2 !! ct_data ct' = Some (OArray a))
    ∧ ct_spacing ct' = spacing_float32 (ct_spacing ct)
    ∧ (spacing_float32 (ct_spacing ct) = ct_spacing ct →
       ct_spacing ct' = ct_spacing ct)
    ∧ json_of_metadata w (ct_metadata ct) = Ok j
    ∧ json_dumps (heap w2) (ct_metadata ct') = Ok j.
Proof.
  intros Ha Hname Hsave.
  destruct (save_cached_volume_inv _ _ _ _ _ Ha Hsave) as (j & Hjson & Hfiles).
  assert (reloads j) as Hj.
  { unfold json_of_metadata in Hjson.
    destruct (truthy (ct_metadata ct) w) as [[[]|e] w0]; [| |discriminate].
    - by eapply dumps_reloads.
    - injection Hjson as <-. apply (reloads_object (∅ : gmap string ())).
      + by rewrite map_to_list_empty.
      + by apply reloads_pairs_of_Forall. }
  destruct (load_cached_volume_run p w1 (as_float32 a)
              (spacing_float32 (ct_spacing ct)) j) as (ct' & w2 & Hload & Hdata & Hsp & Hmd & _).
  { rewrite Hfiles, Hname. apply lookup_insert_eq. }
  { apply as_float32_dtype. }
  { exact Hj. }
  exists ct', w2, j. split; [done|]. split; [done|].
  split. { intros Hdt. rewrite Hdata. unfold as_float32. by rewrite decide_True. }
  rewrite spacing_float32_idempotent in Hsp.
  split; [done|]. split; [by intros <-|]. done.
Qed.

End RoundTrip.

Lemma cache_round_trip_witness :
  ∃ ct' w2 j,
    NormalizeResample.load_cached_volume sample_npz_path (snd sample_saved) = (Ok ct', w2)
    ∧ heap w2 !! NormalizeResample.ct_data ct' = Some (OArray (as_float32 sample_volume))
    ∧ (arr_dtype sample_volume = Float32 →
       heap w2 !! NormalizeResample.ct_data ct' = Some (OArray sample_volume))
    ∧ NormalizeResample.ct_spacing ct'
      = NormalizeResample.spacing_float32 (NormalizeResample.ct_spacing sample_ct)
    ∧ (NormalizeResample.spacing_float32 (NormalizeResample.ct_spacing sample_ct)
       = NormalizeResample.ct_spacing sample_ct →
       NormalizeResample.ct_spacing ct' = NormalizeResample.ct_spacing sample_ct)
    ∧ json_of_metadata sample_world (NormalizeResample.ct_metadata sample_ct) = Ok j
    ∧ json_dumps (heap w2) (NormalizeResample.ct_metadata ct') = Ok j.
Proof.
  apply (cache_round_trip sample_ct sample_npz_path sample_world sample_volume).
  - reflexivity.
  - vm_compute. reflexivity.
  - vm_compute. reflexivity.
Defined.

(** C2, as stated, fails for the spacing: (2.5, 0.8, 0.8) comes back as
    (2.5, 0.800000011920929, 0.800000011920929), since 0.8 is not a
    float32. *)
Lemma spacing_not_preserved_by_cache :
  ∃ w1 ct' w2,
    sample_saved = (Ok (), w1)
    ∧ sample_reloaded = (Ok ct', w2)
    ∧ NormalizeResample.ct_spacing sample_ct = (dec 25 10, dec 8 10, dec 8 10)
    ∧ NormalizeResample.ct_spacing ct'
      = (dec 25 10, f32 (dec 8 10), f32 (dec 8 10))
    ∧ f32 (dec 8 10) ≠ dec 8 10
    ∧ NormalizeResample.ct_spacing ct' ≠ NormalizeResample.ct_spacing sample_ct.
Proof.
  do 3 eexists. split; [by vm_compute|]. split; [by vm_compute|].
  by vm_compute.
Qed.

(** ** [segment_lung] *)

Lemma insert_by_perm sizes i l : SegmentLung.insert_by sizes i l ≡ₚ i :: l.
Proof.
  induction l as [|j r IH]; simpl; [done|].
  destruct (_ <=? _)%nat; [done|].
  rewrite IH. apply Permutation_swap.
Qed.

Lemma argsort_perm sizes :
  SegmentLung.argsort sizes ≡ₚ seq 0 (length sizes).
Proof.
  unfold SegmentLung.argsort. generalize (seq 0 (length sizes)).
  induction l as [|i l IH]; simpl; [done|].
  by rewrite insert_by_perm, IH.
Qed.

Lemma isin_true x l : SegmentLung.isin x l = true ↔ x ∈ l.
Proof.
  unfold SegmentLung.isin. rewrite existsb_exists. split.
  - intros (y & Hy & Heq). apply Nat.eqb_eq in Heq as ->.
    by apply list_elem_of_In.
  - intros Hx. exists x. split; [by apply list_elem_of_In|apply Nat.eqb_refl].
Qed.

Lemma slice_from_all {A} (start : Z) (l : list A) :
  start = 0 ∨ start ≤ - Z.of_nat (length l) →
  SegmentLung.slice_from start l = l.
Proof.
  intros Hs. unfold SegmentLung.slice_from.
  replace (Z.to_nat _) with 0%nat; [done|].
  destruct (Z.ltb_spec start 0); lia.
Qed.

Lemma length_bincount l :
  length (SegmentLung.bincount l) = S (max_list l).
Proof. unfold SegmentLung.bincount. by rewrite length_fmap, length_seq. Qed.

(** A request for at least as many labels as there are, background
    included, or for none at all, selects every voxel. *)
Lemma select_components_all config labeled lung_mask :
  SegmentLung.num_components_to_keep config = 0
  ∨ Z.of_nat (S (max_list labeled)) ≤ SegmentLung.num_components_to_keep config →
  SegmentLung.select_components config labeled = Some lung_mask →
  lung_mask = replicate (length labeled) true.
Proof.
  intros Hn. unfold SegmentLung.select_components.
  set (cs0 := <[0%nat:=0%nat]> (SegmentLung.bincount labeled)).
  set (small := if 0 <? _ then _ else _).
  set (cs1 := imap _ cs0).
  destruct (forallb _ cs1); [done|]. intros [= <-].
  assert (Hlen : length cs1 = S (max_list labeled)).
  { unfold cs1, cs0. by rewrite length_imap, length_insert, length_bincount. }
  rewrite slice_from_all.
  2:{ rewrite (Permutation_length (argsort_perm cs1)), length_seq, Hlen. lia. }
  rewrite <- list_fmap_compose, <- (length_fmap (λ l, if SegmentLung.isin l small then 0%nat else l)).
  rewrite list_fmap_compose.
  apply const_fmap. intros i x Hx.
  apply list_lookup_fmap_Some in Hx as (l & -> & Hl).
  apply isin_true. rewrite argsort_perm, Hlen.
  apply elem_of_seq. split; [lia|].
  apply list_elem_of_lookup_2, max_list_elem_of_le in Hl.
  destruct (SegmentLung.isin l small); lia.
Qed.

Lemma length_sweep Y X thresh cur labels :
  length (Ndimage.sweep Y X thresh cur labels) = length labels.
Proof. apply length_imap. Qed.

Lemma sweep_bound Y X thresh cur labels n :
  (cur ≤ n)%nat → Forall (λ l, (l ≤ n)%nat) labels →
  Forall (λ l, (l ≤ n)%nat) (Ndimage.sweep Y X thresh cur labels).
Proof.
  intros Hcur Hall. apply Forall_forall. intros l Hl.
  apply elem_of_lookup_imap_1 in Hl as (j & lj & -> & Hj).
  apply list_elem_of_lookup_2 in Hj.
  destruct (_ && _); [done|]. by eapply Forall_forall in Hall.
Qed.

Lemma flood_bound Y X thresh cur labels n :
  (cur ≤ n)%nat → Forall (λ l, (l ≤ n)%nat) labels →
  Forall (λ l, (l ≤ n)%nat) (Ndimage.flood Y X thresh cur labels)
  ∧ length (Ndimage.flood Y X thresh cur labels) = length labels.
Proof.
  intros Hcur Hall. unfold Ndimage.flood.
  generalize (length labels) at 1 2. intros k.
  induction k as [|k [IH1 IH2]]; simpl; [done|]. split.
  - by apply sweep_bound.
  - by rewrite length_sweep.
Qed.

(** [label] numbers the components from 1 to [num_features]. *)
Lemma label_bound Y X thresh labeled nf :
  Ndimage.label Y X thresh = (labeled, nf) →
  Forall (λ l, (l ≤ nf)%nat) labeled ∧ length labeled = length thresh.
Proof.
  unfold Ndimage.label.
  set (f := λ (st : list nat * nat) (i : nat), _).
  assert (Hinv : ∀ l st,
    (Forall (λ x, (x ≤ st.2)%nat) st.1 ∧ length st.1 = length thresh) →
    Forall (λ x, (x ≤ (foldl f st l).2)%nat) (foldl f st l).1
    ∧ length (foldl f st l).1 = length thresh).
  { induction l as [|i l IH]; intros [labels next] [Hall Hlen]; simpl in *; [done|].
    apply IH. destruct (_ && _); simpl; [|done].
    destruct (flood_bound Y X thresh (S next) (<[i:=S next]> labels) (S next))
      as [H1 H2]; [lia| |].
    - apply Forall_insert; [|lia].
      eapply Forall_impl; [exact Hall|]. simpl. lia.
    - split; [done|]. by rewrite H2, length_insert. }
  intros Heq.
  specialize (Hinv (seq 0 (length thresh)) (replicate (length thresh) 0%nat, 0%nat)).
  rewrite Heq in Hinv. apply Hinv. simpl. split.
  - by apply Forall_replicate.
  - apply length_replicate.
Qed.

Lemma max_list_bound l n : Forall (λ x, (x ≤ n)%nat) l → (max_list l ≤ n)%nat.
Proof. induction 1; simpl; lia. Qed.

Lemma lookup_bincount labeled i s :
  SegmentLung.bincount labeled !! i = Some s → s = voxel_count i labeled.
Proof.
  unfold SegmentLung.bincount. rewrite list_lookup_fmap.
  destruct (seq 0 _ !! i) as [k|] eqn:Hk; [|done].
  apply lookup_seq in Hk as [-> _]. by intros [= <-].
Qed.

(** With every component below the minimum size all the sizes are
    zeroed, and the code returns the empty mask. *)
Lemma select_components_none config labeled :
  all_too_small config labeled →
  SegmentLung.select_components config labeled = None.
Proof.
  intros [Hmin Hall]. unfold SegmentLung.select_components.
  set (cs0 := <[0%nat:=0%nat]> (SegmentLung.bincount labeled)).
  rewrite (proj2 (Z.ltb_lt 0 _) Hmin).
  set (small := List.filter _ _).
  set (cs1 := imap _ cs0).
  assert (forallb (Nat.eqb 0) cs1 = true) as ->; [|done].
  apply forallb_forall. intros s Hs. apply Nat.eqb_eq.
  apply list_elem_of_In, elem_of_lookup_imap_1 in Hs as (i & s0 & -> & Hi).
  assert (SegmentLung.isin i small = true) as ->; [|done].
  apply isin_true. unfold small. apply list_elem_of_In, filter_In. split.
  - apply in_seq. apply lookup_lt_Some in Hi. lia.
  - apply Z.ltb_lt. rewrite (nth_lookup_Some _ _ _ _ Hi).
    destruct i as [|i].
    + unfold cs0 in Hi. apply list_lookup_insert_Some in Hi as [(_ & <- & _)|[? _]]; [lia|done].
    + unfold cs0 in Hi. rewrite list_lookup_insert_ne in Hi by done.
      apply lookup_bincount in Hi as ->. apply Hall. lia.
Qed.

(** C1, refuted by the code: when [label] finds fewer components than
    [num_components_to_keep] and one of them survives the size filter,
    the last [num_components_to_keep] entries of the ranking are all the
    labels, label 0 included, so the mask before morphology is true at
    every voxel, background and filtered components alike. *)
Theorem background_selected_with_fewer_components_than_requested
    volume_hu spacing_mm config Z Y X labeled num_features lung_mask :
  arr_shape volume_hu = [Z; Y; X] →
  SegmentLung.closing_iterations config ≤ 0 →
  SegmentLung.fill_holes config = false →
  existsb id (threshold_mask volume_hu config) = true →
  Ndimage.label Y X (threshold_mask volume_hu config) = (labeled, num_features) →
  (0 < num_features)%nat →
  Z.of_nat num_features < SegmentLung.num_components_to_keep config →
  SegmentLung.select_components config labeled = Some lung_mask →
  lung_mask = replicate (length (arr_data volume_hu)) true
  ∧ SegmentLung.segment_lung volume_hu spacing_mm (Some config)
    = Ok (full_mask volume_hu).
Proof.
  intros Hshape Hclose Hfill Hany Hlabel Hpos Hfew Hsel.
  destruct (label_bound _ _ _ _ _ Hlabel) as [Hbound Hlen].
  apply max_list_bound in Hbound.
  assert (Hmask : lung_mask = replicate (length labeled) true).
  { eapply select_components_all; [|exact Hsel]. lia. }
  assert (Hdata : length labeled = length (arr_data volume_hu)).
  { rewrite Hlen. unfold threshold_mask. apply length_fmap. }
  rewrite Hdata in Hmask. split; [done|].
  unfold SegmentLung.segment_lung, full_mask. rewrite Hshape. simpl default.
  fold (threshold_mask volume_hu config).
  rewrite Hany. simpl negb. cbv iota. rewrite Hlabel.
  destruct (Nat.eqb_spec num_features 0) as [->|_]; [lia|].
  rewrite Hsel. unfold SegmentLung.postprocess.
  by rewrite (proj2 (Z.ltb_ge 0 _) Hclose), Hfill, Hmask.
Qed.

Lemma background_selected_with_fewer_components_than_requested_witness :
  threshold_mask sample_scan sample_config = [true; false; false]
  ∧ Ndimage.label 1 3 [true; false; false] = ([1; 0; 0]%nat, 1%nat)
  ∧ SegmentLung.select_components sample_config [1; 0; 0]%nat
    = Some [true; true; true]
  ∧ SegmentLung.segment_lung sample_scan None (Some sample_config)
    = Ok (SegmentLung.Mask [1; 1; 3]%nat [true; true; true]).
Proof.
  split; [reflexivity|]. split; [reflexivity|]. split; [reflexivity|].
  apply (background_selected_with_fewer_components_than_requested
           sample_scan None sample_config 1 1 3 [1; 0; 0]%nat 1 [true; true; true]).
  - reflexivity.
  - vm_compute. discriminate.
  - reflexivity.
  - reflexivity.
  - reflexivity.
  - lia.
  - vm_compute. reflexivity.
  - reflexivity.
Defined.

(** The same scan with one component requested: the air voxel alone. *)
Lemma sample_scan_single_component :
  SegmentLung.segment_lung sample_scan None
    (Some (SegmentLung.mkConfig (of_Z (-320)) 1 1 0 false))
  = Ok (SegmentLung.Mask [1; 1; 3]%nat [true; false; false]).
Proof. reflexivity. Qed.

Lemma segment_lung_3d volume_hu spacing_mm config Z Y X :
  arr_shape volume_hu = [Z; Y; X] →
  ∃ m, SegmentLung.segment_lung volume_hu spacing_mm config = Ok m
       ∧ SegmentLung.mask_shape m = arr_shape volume_hu.
Proof.
  intros Hshape. unfold SegmentLung.segment_lung. rewrite Hshape.
  destruct (negb _); [by eexists|].
  destruct (Ndimage.label _ _ _) as [labeled nf].
  destruct (_ =? _)%nat; [by eexists|].
  destruct (SegmentLung.select_components _ _); by eexists.
Qed.

Lemma segment_lung_not_3d volume_hu spacing_mm config :
  length (arr_shape volume_hu) ≠ 3%nat →
  SegmentLung.segment_lung volume_hu spacing_mm config
  = Raise (ValueError ("Expected 3D volume, got shape "
                       +:+ SegmentLung.repr_shape (arr_shape volume_hu))).
Proof.
  intros Hdim. unfold SegmentLung.segment_lung.
  destruct (arr_shape volume_hu) as [|a [|b [|c [|d r]]]]; done.
Qed.

(** C8: [segment_lung] raises exactly when the volume is not 3-D, and
    then a ValueError whose message ends with the shape; on a 3-D volume
    it returns a mask of the volume's shape, and this mask is all false,
    one entry per voxel, when no voxel is below the threshold, when
    [label] finds no component, or when the size filter removes every
    component. *)
Theorem segment_lung_raises_iff_not_3d_and_no_signal_is_empty
    (volume_hu : ndarray) (spacing_mm : option (list float))
    (config : option SegmentLung.LungSegmentationConfig) :
  let cfg := default SegmentLung.default_config config in
  let thresh := threshold_mask volume_hu cfg in
  (length (arr_shape volume_hu) ≠ 3%nat
   ↔ ∃ e, SegmentLung.segment_lung volume_hu spacing_mm config = Raise e)
  ∧ (length (arr_shape volume_hu) ≠ 3%nat →
     SegmentLung.segment_lung volume_hu spacing_mm config
     = Raise (ValueError ("Expected 3D volume, got shape "
                          +:+ SegmentLung.repr_shape (arr_shape volume_hu))))
  ∧ (length (arr_shape volume_hu) = 3%nat →
     ∃ m, SegmentLung.segment_lung volume_hu spacing_mm config = Ok m
          ∧ SegmentLung.mask_shape m = arr_shape volume_hu)
  ∧ (∀ Z Y X labeled num_features,
       arr_shape volume_hu = [Z; Y; X] →
       Ndimage.label Y X thresh = (labeled, num_features) →
       existsb id thresh = false ∨ num_features = 0%nat
       ∨ all_too_small cfg labeled →
       SegmentLung.segment_lung volume_hu spacing_mm config
       = Ok (empty_mask volume_hu)).
Proof.
  intros cfg thresh.
  assert (H3 : length (arr_shape volume_hu) = 3%nat →
               ∃ Z Y X, arr_shape volume_hu = [Z; Y; X]).
  { destruct (arr_shape volume_hu) as [|a [|b [|c [|d r]]]]; try done.
    intros _. by exists a, b, c. }
  split; [|split; [|split]].
  - split.
    + intros Hdim. eexists. by apply segment_lung_not_3d.
    + intros [e He] Hdim. destruct (H3 Hdim) as (Z & Y & X & Hshape).
      destruct (segment_lung_3d volume_hu spacing_mm config Z Y X Hshape)
        as (m & Hm & _).
      rewrite Hm in He. discriminate He.
  - apply segment_lung_not_3d.
  - intros Hdim. destruct (H3 Hdim) as (Z & Y & X & Hshape).
    by eapply segment_lung_3d.
  - intros Z Y X labeled nf Hshape Hlabel Hcase.
    unfold SegmentLung.segment_lung, empty_mask. rewrite Hshape.
    fold cfg. fold (threshold_mask volume_hu cfg). fold thresh.
    assert (Hzeros : SegmentLung.zeros_like [Z; Y; X] thresh
                     = SegmentLung.Mask [Z; Y; X]
                         (replicate (length (arr_data volume_hu)) false)).
    { unfold SegmentLung.zeros_like, thresh, threshold_mask.
      by rewrite length_fmap. }
    destruct (existsb id thresh) eqn:Hany; simpl negb; cbv iota;
      [|by rewrite Hzeros].
    rewrite Hlabel.
    destruct (Nat.eqb_spec nf 0) as [->|Hnf]; [by rewrite Hzeros|].
    destruct Hcase as [Hcase|[Hcase|Hcase]]; [done..|].
    by rewrite (select_components_none _ _ Hcase), Hzeros.
Qed.

Lemma segment_lung_raises_iff_not_3d_and_no_signal_is_empty_witness :
  SegmentLung.segment_lung sample_image None None
  = Raise (ValueError "Expected 3D volume, got shape (2, 3)")
  ∧ SegmentLung.segment_lung sample_tissue None None
    = Ok (SegmentLung.Mask [1; 2; 2]%nat [false; false; false; false])
  ∧ SegmentLung.segment_lung sample_scan None None
    = Ok (SegmentLung.Mask [1; 1; 3]%nat [false; false; false]).
Proof.
  split; [|split].
  - apply (segment_lung_raises_iff_not_3d_and_no_signal_is_empty
             sample_image None None). vm_compute. lia.
  - apply (proj2 (proj2 (proj2
             (segment_lung_raises_iff_not_3d_and_no_signal_is_empty
                sample_tissue None None))) 1 2 2 [0; 0; 0; 0] 0)%nat.
    + reflexivity.
    + reflexivity.
    + left. reflexivity.
  - apply (proj2 (proj2 (proj2
             (segment_lung_raises_iff_not_3d_and_no_signal_is_empty
                sample_scan None None))) 1 1 3 [1; 0; 0] 1)%nat.
    + reflexivity.
    + reflexivity.
    + right. right. split; [reflexivity|].
      intros l Hl. destruct l as [|[|l]]; [lia|vm_compute; reflexivity|].
      vm_compute. reflexivity.
Defined.

(** * Further properties of [normalize_resample.py] *)

Section PipelineResult.
Context `{External}.
Import NormalizeResample NormalizeResampleFacts.

Lemma keeps_array_metadata_stage l a v metadata kw :
  keeps_array l a (metadata_stage v metadata kw).
Proof.
  unfold metadata_stage. pose proof (keeps_array_copy_metadata l a metadata).
  repeat frame_step.
Qed.

Lemma metadata_stage_data v metadata kw w ct w' a :
  heap w !! v = Some (OArray a) →
  arr_dtype a = Float32 →
  metadata_stage v metadata kw w = (Ok ct, w') →
  ct_data ct = v ∧ ct_spacing ct = target_spacing kw
  ∧ heap w' !! v = Some (OArray a).
Proof.
  intros Hv Hty Hrun.
  pose proof (keeps_array_metadata_stage v a v metadata kw w _ _ Hrun Hv) as Hv'.
  split; [|split; [|done]]; revert Hrun; unfold metadata_stage;
    intros (meta & w1 & H1 & Hk)%bind_ok;
    apply bind_ok in Hk as ([] & w2 & H2 & Hk);
    apply bind_ok in Hk as (empty & w3 & H3 & Hk);
    apply bind_ok in Hk as (pinfo & w4 & H4 & Hk);
    apply bind_ok in Hk as (record & w5 & H5 & Hk);
    apply bind_ok in Hk as ([] & w6 & H6 & Hk);
    apply bind_ok in Hk as ([] & w7 & H7 & Hk);
    apply bind_ok in Hk as (data & w8 & H8 & Hk);
    injection Hk as <- <-; [|done].
  cbn [ct_data].
  assert (Hv7 : heap w7 !! v = Some (OArray a)).
  { eapply keeps_array_setitem; [exact H7|].
    eapply keeps_array_setitem; [exact H6|].
    eapply keeps_array_alloc; [exact H5|].
    eapply keeps_array_dict_get; [exact H4|].
    eapply keeps_array_alloc; [exact H3|].
    eapply keeps_array_setitem; [exact H2|].
    eapply keeps_array_copy_metadata; [exact H1|]. exact Hv. }
  apply astype_float32_ok in H8 as (a' & Ha' & [(_ & -> & _)|(Hne & _)]); [done|].
  pose proof (eq_trans (eq_sym Ha') Hv7) as [= ->]. done.
Qed.

Lemma resample_to_spacing_ok v cur tgt order w r w' :
  resample_to_spacing v cur tgt order w = (Ok r, w') →
  ∃ a, heap w' !! r = Some (OArray a) ∧ arr_dtype a = Float32
       ∧ (length (heap w) ≤ r)%nat.
Proof.
  unfold resample_to_spacing.
  intros (zf & w1 & H1 & Hk)%bind_ok. injection H1 as _ <-.
  apply bind_ok in Hk as (v1 & w2 & H2 & Hk).
  destruct (only_allocates_astype_float32 _ _ _ _ H2) as (new & Hnew & _).
  apply bind_ok in Hk as (a1 & w3 & H3 & Hk).
  apply get_array_ok in H3 as [-> _].
  apply bind_ok in Hk as (res & w4 & H4 & Hk). injection H4 as _ <-.
  apply bind_ok in Hk as (l & w5 & H5 & Hk).
  apply alloc_ok in H5 as [-> ->].
  apply astype_float32_ok in Hk as (a & Ha & [(Hty & -> & ->)|(Hne & -> & ->)]).
  - exists a. split; [done|]. split; [done|].
    cbn [heap set_heap]. rewrite Hnew, length_app. lia.
  - exists (cast_float32 a). cbn [heap set_heap] in *.
    split; [apply lookup_snoc|]. split; [done|].
    rewrite !length_app, Hnew, length_app. lia.
Qed.

(** X1: The result of the pipeline carries the target spacing, and its data
    is a float32 array allocated during the call, never the caller's
    input array. *)
Theorem normalize_and_resample_result_is_new_float32
    volume spacing metadata kw w ct w' :
  normalize_and_resample volume spacing metadata kw w = (Ok ct, w') →
  ct_spacing ct = target_spacing kw
  ∧ (length (heap w) ≤ ct_data ct)%nat
  ∧ ct_data ct ≠ volume
  ∧ ∃ a, heap w' !! ct_data ct = Some (OArray a) ∧ arr_dtype a = Float32.
Proof.
  rewrite normalize_and_resample_stages.
  intros (v1 & w1 & H1 & Hk)%bind_ok.
  apply bind_ok in Hk as (v2 & w2 & H2 & Hk).
  apply bind_ok in Hk as (v3 & w3 & H3 & Hk).
  apply clamp_hu_ok in H1 as (a0 & Hvol & Hlen1 & _).
  destruct (only_allocates_maybe_denoise _ _ _ _ _ _ H2) as (new & Hnew & _).
  apply resample_to_spacing_ok in H3 as (a & Ha & Hty & Hlen3).
  destruct (metadata_stage_data _ _ _ _ _ _ _ Ha Hty Hk) as (-> & -> & Ha').
  assert (length (heap w) ≤ v3)%nat.
  { rewrite Hnew, length_app in Hlen3. lia. }
  split; [done|]. split; [done|]. split.
  - apply lookup_lt_Some in Hvol. lia.
  - by exists a.
Qed.

End PipelineResult.

Lemma normalize_and_resample_result_is_new_float32_witness :
  NormalizeResample.ct_spacing
    (NormalizeResample.mkCTVolume 3%nat
       (NormalizeResample.one, NormalizeResample.one, NormalizeResample.one)
       (VRef 4%nat))
  = NormalizeResample.target_spacing NormalizeResample.default_kwargs
  ∧ (length (heap sample_world) ≤ 3)%nat
  ∧ 3%nat ≠ 0%nat
  ∧ ∃ a, heap (snd sample_run) !! 3%nat = Some (OArray a) ∧ arr_dtype a = Float32.
Proof.
  apply (normalize_and_resample_result_is_new_float32 (H := plain_libs)
           0%nat sample_spacing (VRef 1%nat) NormalizeResample.default_kwargs
           sample_world
           (NormalizeResample.mkCTVolume 3%nat
              (NormalizeResample.one, NormalizeResample.one, NormalizeResample.one)
              (VRef 4%nat))
           (snd sample_run)).
  vm_compute. reflexivity.
Defined.

Section PipelineEdges.
Context `{External}.
Import NormalizeResample NormalizeResampleFacts.

(** X2: Without metadata the result carries a new dict with exactly the two
    stamped keys; ["preprocessing"] is a new dict whose only entry is the
    parameter record. *)
Theorem normalize_and_resample_without_metadata volume spacing kw w ct w' :
  normalize_and_resample volume spacing VNone kw w = (Ok ct, w') →
  ∃ m p record,
    ct_metadata ct = VRef m
    ∧ heap w' !! m
      = Some (ODict (<["preprocessing" := VRef p]>
                       (<["spacing_mm" := spacing_tuple (target_spacing kw)]> ∅)))
    ∧ heap w' !! p = Some (ODict (<["normalize_resample" := VRef record]> ∅))
    ∧ heap w' !! record = Some (ODict (normalize_record kw))
    ∧ (length (heap w) ≤ m)%nat ∧ p = S m ∧ record = S p
    ∧ (∀ l o, heap w !! l = Some o → l ≠ volume → heap w' !! l = Some o).
Proof.
  intros Hrun.
  apply normalize_and_resample_ok in Hrun
    as (v & w3 & a & Hstage & Hlen & Hfr & Hvol & Hvol3 & Hf).
  apply metadata_stage_ok in Hstage as
    (d0 & p & dp & Hd0 & Hcase & Hmeta & Hsp & Hnew & Hp & Hrec & Hfr' & Hf');
    [|intros ? ? ? [=]].
  destruct Hd0 as [[_ ->]|(? & [=] & _)].
  destruct Hcase as [(_ & -> & ->)|[Hsome _]]; [|by rewrite lookup_empty in Hsome].
  exists (length (heap w3)), (S (length (heap w3))), (S (S (length (heap w3)))).
  do 4 (split; [done|]). split; [done|]. split; [done|]. split; [done|].
  intros l o Hlo Hne. apply Hfr'.
  - by apply Hfr.
  - apply lookup_lt_Some in Hlo. lia.
Qed.

(** X3: The target spacing is validated only once the clamp has run: with
    a non-positive component (and denoising off) the call raises the
    ValueError of [compute_zoom_factors] from the world that [clamp_hu]
    left, so a float32 input has already been clamped in place, and the
    metadata has not been looked at. *)
Theorem normalize_and_resample_rejects_after_clamping
    volume a cur metadata kw w :
  heap w !! volume = Some (OArray a) →
  arr_dtype a = Float32 →
  has_nonpositive (target_spacing kw) = true →
  apply_denoising kw = false →
  normalize_and_resample volume cur metadata kw w
  = (Raise (ValueError ("Target spacing must be positive, got "
                        +:+ repr_spacing (target_spacing kw))),
     set_heap (<[volume := OArray (clip_array (hu_window kw).1 (hu_window kw).2 a)]>
                 (heap w)) w).
Proof.
  intros Hvol Hty Hbad Hoff.
  rewrite normalize_and_resample_stages.
  rewrite (bind_step _ _ _ _ _ (clamp_hu_float32 _ _ _ _ _ Hvol Hty)).
  rewrite Hoff.
  rewrite (bind_step (maybe_denoise volume false (denoise_sigma kw)) _ _ volume _ eq_refl).
  apply bind_raise. unfold resample_to_spacing. apply bind_raise.
  by rewrite (compute_zoom_factors_rejects cur _ Hbad).
Qed.

End PipelineEdges.

Lemma normalize_and_resample_without_metadata_witness :
  ∃ m p record,
    VRef 2%nat = VRef m
    ∧ heap (snd (NormalizeResample.normalize_and_resample (H := plain_libs)
                   0%nat sample_spacing VNone NormalizeResample.default_kwargs
                   (world0 [OArray sample_volume]))) !! m
      = Some (ODict (<["preprocessing" := VRef p]>
                       (<["spacing_mm" := NormalizeResample.spacing_tuple
                            (NormalizeResample.target_spacing
                               NormalizeResample.default_kwargs)]> ∅)))
    ∧ heap (snd (NormalizeResample.normalize_and_resample (H := plain_libs)
                   0%nat sample_spacing VNone NormalizeResample.default_kwargs
                   (world0 [OArray sample_volume]))) !! p
      = Some (ODict (<["normalize_resample" := VRef record]> ∅))
    ∧ heap (snd (NormalizeResample.normalize_and_resample (H := plain_libs)
                   0%nat sample_spacing VNone NormalizeResample.default_kwargs
                   (world0 [OArray sample_volume]))) !! record
      = Some (ODict (NormalizeResample.normalize_record NormalizeResample.default_kwargs))
    ∧ (length (heap (world0 [OArray sample_volume])) ≤ m)%nat
    ∧ p = S m ∧ record = S p
    ∧ (∀ l o, heap (world0 [OArray sample_volume]) !! l = Some o → l ≠ 0%nat →
              heap (snd (NormalizeResample.normalize_and_resample (H := plain_libs)
                           0%nat sample_spacing VNone NormalizeResample.default_kwargs
                           (world0 [OArray sample_volume]))) !! l = Some o).
Proof.
  apply (normalize_and_resample_without_metadata (H := plain_libs)
           0%nat sample_spacing NormalizeResample.default_kwargs
           (world0 [OArray sample_volume])
           (NormalizeResample.mkCTVolume 1%nat
              (NormalizeResample.one, NormalizeResample.one, NormalizeResample.one)
              (VRef 2%nat))).
  vm_compute. reflexivity.
Defined.

Lemma normalize_and_resample_rejects_after_clamping_witness :
  NormalizeResample.normalize_and_resample (H := plain_libs) 0%nat sample_spacing
    (VStr "not a dict")
    (NormalizeResample.mkKwargs (zero, NormalizeResample.one, NormalizeResample.one)
       (-1000, 400) false (dec 75 100) 1)
    (world0 [OArray sample_volume])
  = (Raise (ValueError "Target spacing must be positive, got (?, ?, ?)"),
     world0 [OArray (NdArray Float32 [1; 1; 2]%nat [of_Z (-1000); of_Z 400])]).
Proof.
  apply (normalize_and_resample_rejects_after_clamping (H := plain_libs)
           0%nat sample_volume sample_spacing (VStr "not a dict")
           (NormalizeResample.mkKwargs
              (zero, NormalizeResample.one, NormalizeResample.one)
              (-1000, 400) false (dec 75 100) 1)
           (world0 [OArray sample_volume])); reflexivity.
Defined.

(** ** Reading and writing cache files *)

Lemma json_nested_ind (P : json → Prop) :
  P JNull → (∀ b, P (JBool b)) → (∀ z, P (JInt z)) → (∀ f, P (JFloat f)) →
  (∀ s, P (JStr s)) → (∀ js, Forall P js → P (JArr js)) →
  (∀ kvs, Forall (λ kv, P kv.2) kvs → P (JObj kvs)) →
  ∀ j, P j.
Proof.
  intros Hnull Hbool Hint Hfloat Hstr Harr Hobj.
  fix IH 1. intros [| | | | |js|kvs];
    [exact Hnull | apply Hbool | apply Hint | apply Hfloat | apply Hstr | | ].
  - apply Harr. induction js as [|j js IHjs]; constructor; [apply IH | exact IHjs].
  - apply Hobj. induction kvs as [|kv kvs IHkvs]; constructor; [apply IH | exact IHkvs].
Qed.

(** [json.loads] only adds objects to the heap. *)
Lemma loads_extends j : ∀ h, ∃ new, (loads j h).2 = h ++ new.
Proof.
  induction j as [| | | | |js IH|kvs IH] using json_nested_ind; intros h;
    try (exists []; by rewrite app_nil_r).
  - assert (Hitems : ∀ h, ∃ new, (loads_items loads js h).2 = h ++ new).
    { induction IH as [|j js Hj _ IHjs]; intros h0; simpl.
      - exists []. by rewrite app_nil_r.
      - destruct (Hj h0) as [n1 H1]. destruct (loads j h0) as [v h1].
        simpl in H1. subst h1.
        destruct (IHjs (h0 ++ n1)) as [n2 H2].
        destruct (loads_items loads js (h0 ++ n1)) as [vs h2]. simpl in *.
        subst h2. exists (n1 ++ n2). by rewrite app_assoc. }
    simpl. destruct (Hitems h) as [n1 H1].
    destruct (loads_items loads js h) as [vs h1]. simpl in *. subst h1.
    eexists. by rewrite <- app_assoc.
  - assert (Hpairs : ∀ h, ∃ new, (loads_pairs loads kvs h).2 = h ++ new).
    { induction IH as [|kv kvs Hkv _ IHkvs]; intros h0; simpl.
      - exists []. by rewrite app_nil_r.
      - destruct (Hkv h0) as [n1 H1]. destruct (loads kv.2 h0) as [v h1].
        simpl in H1. subst h1.
        destruct (IHkvs (h0 ++ n1)) as [n2 H2].
        destruct (loads_pairs loads kvs (h0 ++ n1)) as [ps h2]. simpl in *.
        subst h2. exists (n1 ++ n2). by rewrite app_assoc. }
    simpl. destruct (Hpairs h) as [n1 H1].
    destruct (loads_pairs loads kvs h) as [ps h1]. simpl in *. subst h1.
    eexists. by rewrite <- app_assoc.
Qed.

Lemma only_allocates_json_loads j : only_allocates (json_loads j).
Proof.
  intros w r w'. unfold json_loads.
  destruct (loads_extends j (heap w)) as [new Hnew].
  destruct (loads j (heap w)) as [v h]. simpl in Hnew. subst h.
  intros [= <- <-]. by exists new.
Qed.

Lemma only_allocates_path_exists p : only_allocates (path_exists p).
Proof. intros w r w' [= <- <-]. exists []. by rewrite app_nil_r. Qed.

Lemma only_allocates_np_load p : only_allocates (NormalizeResample.np_load p).
Proof.
  intros w r w'. unfold NormalizeResample.np_load.
  destruct (files w !! path_str p) as [[a|]|]; [| |destruct (bool_decide _)];
    intros [= <- <-]; exists []; by rewrite app_nil_r.
Qed.

Lemma only_allocates_get_world : only_allocates get_world.
Proof. intros w r w' [= <- <-]. exists []. by rewrite app_nil_r. Qed.

Lemma only_allocates_truthy v : only_allocates (truthy v).
Proof.
  destruct v; simpl; try apply only_allocates_ret.
  repeat alloc_step.
Qed.

#[export] Hint Resolve only_allocates_json_loads only_allocates_path_exists
  only_allocates_np_load only_allocates_get_world only_allocates_truthy : frame.

Lemma only_allocates_load_cached_volume p :
  only_allocates (NormalizeResample.load_cached_volume p).
Proof. unfold NormalizeResample.load_cached_volume. repeat alloc_step. Qed.

Section CacheFiles.
Import NormalizeResample.

(** X4: Loading a cached volume is read-only: whether it returns or raises,
    no file or directory changes, the loader count stays, and the heap
    only grows by the loaded objects.  At a path where nothing exists
    it raises FileNotFoundError with the path and changes nothing. *)
Theorem load_cached_volume_only_reads cache_path w :
  (∀ r w', load_cached_volume cache_path w = (r, w') →
     (∃ new, heap w' = heap w ++ new)
     ∧ files w' = files w ∧ dirs w' = dirs w ∧ raw_loads w' = raw_loads w)
  ∧ (exists_in cache_path w = false →
     load_cached_volume cache_path w
     = (Raise (FileNotFoundError ("No cached volume at " +:+ path_str cache_path)), w)).
Proof.
  split.
  - intros r w' Hrun.
    destruct (only_allocates_load_cached_volume _ _ _ _ Hrun) as (new & Hh & Hf & Hd).
    split; [by exists new|]. split; [done|]. split; [done|].
    exact (keeps_count_load_cached_volume _ _ _ _ Hrun).
  - intros Hno. unfold load_cached_volume.
    rewrite (bind_step (path_exists cache_path) _ w false w); [done|].
    unfold path_exists. by rewrite <- Hno.
Qed.

Lemma writes_only_of_only_allocates {A} name (m : M A) :
  only_allocates m → writes_only name m.
Proof.
  intros Hm w r w' Hrun. destruct (Hm _ _ _ Hrun) as (new & Hh & Hf & Hd).
  split; [by exists new|]. split; [done|]. intros q _. by rewrite Hf.
Qed.

Lemma writes_only_bind {A B} name (m : M A) (k : A → M B) :
  only_allocates m → (∀ x, writes_only name (k x)) → writes_only name (m ≫= k).
Proof.
  intros Hm Hk w r w' Hrun. rewrite bind_run in Hrun.
  destruct (m w) as [[x|e] w1] eqn:Em.
  - destruct (Hm _ _ _ Em) as (n1 & Hh1 & Hf1 & Hd1).
    destruct (Hk x _ _ _ Hrun) as ((n2 & Hh2) & Hd2 & Hf2).
    split; [exists (n1 ++ n2); by rewrite Hh2, Hh1, app_assoc|].
    split; [congruence|]. intros q Hq. rewrite (Hf2 q Hq). by rewrite Hf1.
  - injection Hrun as <- <-.
    by apply (writes_only_of_only_allocates name m Hm _ _ _ Em).
Qed.

Lemma writes_only_savez_compressed p a :
  writes_only (npz_file_name p) (savez_compressed p a).
Proof.
  intros w r w'. unfold savez_compressed.
  destruct (bool_decide _); [|destruct (negb _)]; intros [= <- <-];
    (split; [exists []; by rewrite app_nil_r|]); (split; [done|]); intros q Hq;
    [done|done|].
  cbn [files set_files]. by rewrite lookup_insert_ne.
Qed.

Lemma writes_only_save_cached_volume ct p :
  writes_only (npz_file_name p) (save_cached_volume ct p).
Proof.
  unfold save_cached_volume.
  apply writes_only_bind; [eauto with frame|intros keep].
  apply writes_only_bind; [destruct keep; repeat alloc_step|intros md].
  apply writes_only_bind; [eauto with frame|intros w0].
  apply writes_only_bind; [eauto with frame|intros j].
  apply writes_only_bind; [eauto with frame|intros data].
  apply writes_only_bind; [eauto with frame|intros a].
  apply writes_only_savez_compressed.
Qed.

Lemma result_mapM_raises {A B} (f : A → result B) (l : list A) x e :
  x ∈ l → f x = Raise e → ∃ e', result_mapM f l = Raise e'.
Proof.
  intros Hx Hf. induction l as [|y l IH]; [by apply elem_of_nil in Hx|].
  simpl. apply elem_of_cons in Hx as [<-|Hx].
  - rewrite Hf. by eexists.
  - destruct (f y); [|by eexists]. simpl.
    destruct (IH Hx) as [e' ->]. by eexists.
Qed.

(** X5: Saving writes the archive file and nothing else: every other file,
    every directory and every existing heap object is left as it was,
    and when the call raises no file has changed at all.  A returning
    call has written the archive. *)
Theorem save_cached_volume_writes_only_its_file ct cache_path w r w' :
  save_cached_volume ct cache_path w = (r, w') →
  (∃ new, heap w' = heap w ++ new)
  ∧ dirs w' = dirs w
  ∧ (∀ q, q ≠ npz_file_name cache_path → files w' !! q = files w !! q)
  ∧ (∀ e, r = Raise e → files w' = files w)
  ∧ (r = Ok () → is_Some (files w' !! npz_file_name cache_path)).
Proof.
  intros Hrun.
  destruct (writes_only_save_cached_volume ct cache_path _ _ _ Hrun) as (Hh & Hd & Hf).
  split; [done|]. split; [done|]. split; [done|]. split.
  - intros e ->. revert Hrun. unfold save_cached_volume.
    assert (Hpre : ∀ {A B} (m : M A) (k : A → M B) w0 w1,
      only_allocates m →
      (∀ x w2, m w0 = (Ok x, w2) → k x w2 = (Raise e, w1) → files w1 = files w2) →
      (m ≫= k) w0 = (Raise e, w1) → files w1 = files w0).
    { intros A B m k w0 w1 Hm Hk. rewrite bind_run.
      destruct (m w0) as [[x|e0] w2] eqn:Em.
      - intros Hkx. rewrite (Hk x w2 eq_refl Hkx).
        by destruct (Hm _ _ _ Em) as (? & _ & -> & _).
      - intros [= <- <-]. by destruct (Hm _ _ _ Em) as (? & _ & -> & _). }
    intros Hrun. eapply Hpre; [| |exact Hrun]; [eauto with frame|].
    intros keep w1 _ H1. eapply Hpre; [| |exact H1];
      [destruct keep; repeat alloc_step|].
    intros md w2 _ H2. eapply Hpre; [| |exact H2]; [eauto with frame|].
    intros w0 w3 _ H3. eapply Hpre; [| |exact H3]; [eauto with frame|].
    intros j w4 _ H4. eapply Hpre; [| |exact H4]; [eauto with frame|].
    intros data w5 _ H5. eapply Hpre; [| |exact H5]; [eauto with frame|].
    intros a w6 _. unfold savez_compressed.
    destruct (bool_decide _); [|destruct (negb _)]; intros Heq;
      [by injection Heq as _ <- | by injection Heq as _ <- | discriminate Heq].
  - intros ->. by eapply save_cached_volume_ok.
Qed.

(** X6: Metadata that holds a numpy array cannot be cached: [json.dumps]
    fails, so saving raises before anything is written and the world is
    left as it was. *)
Theorem save_cached_volume_rejects_array_in_metadata ct cache_path w m d key l a :
  ct_metadata ct = VRef m →
  heap w !! m = Some (ODict d) →
  d !! key = Some (VRef l) →
  heap w !! l = Some (OArray a) →
  ∃ e, save_cached_volume ct cache_path w = (Raise e, w).
Proof.
  intros Hmeta Hm Hkey Hl. unfold save_cached_volume. rewrite Hmeta.
  assert (Htruthy : truthy (VRef m) w = (Ok true, w)).
  { simpl. rewrite (bind_step _ _ _ _ _ (get_obj_run _ _ _ Hm)).
    rewrite bool_decide_eq_false_2; [done|].
    intros ->. by rewrite lookup_empty in Hkey. }
  rewrite (bind_step _ _ _ _ _ Htruthy).
  rewrite (bind_step (ret (VRef m)) _ w (VRef m) w eq_refl).
  rewrite (bind_step get_world _ w w w eq_refl).
  assert (Hdumps : ∃ e, json_dumps (heap w) (VRef m) = Raise e).
  { unfold json_dumps. rewrite dumps_fuel_unfold, Hm.
    destruct (result_mapM_raises
                (λ kv : string * pyval,
                   j ← dumps_fuel (length (heap w)) (heap w) kv.2; Ok (kv.1, j))
                (map_to_list d) (key, VRef l)
                (TypeError "Object of type ndarray is not JSON serializable"))
      as [e He].
    - by apply elem_of_map_to_list.
    - simpl. rewrite dumps_fuel_unfold.
      destruct (length (heap w)) as [|n] eqn:En.
      + apply lookup_lt_Some in Hl. lia.
      + by rewrite Hl.
    - rewrite He. by eexists. }
  destruct Hdumps as [e He]. exists e.
  apply bind_raise. unfold lift_result. by rewrite He.
Qed.

End CacheFiles.

Lemma load_cached_volume_only_reads_witness :
  NormalizeResample.load_cached_volume sample_npz_path sample_world
  = (Raise (FileNotFoundError "No cached volume at ct_volume.npz"), sample_world)
  ∧ files (snd sample_reloaded) = files (snd sample_saved).
Proof.
  split.
  - apply (load_cached_volume_only_reads sample_npz_path sample_world). reflexivity.
  - destruct (load_cached_volume_only_reads sample_npz_path (snd sample_saved))
      as [Hframe _].
    destruct (Hframe (fst sample_reloaded) (snd sample_reloaded)) as (_ & Hf & _);
      [|exact Hf].
    unfold sample_reloaded.
    by destruct (NormalizeResample.load_cached_volume _ _).
Defined.

Lemma save_cached_volume_writes_only_its_file_witness :
  (∃ new, heap (snd sample_saved) = heap sample_world ++ new)
  ∧ dirs (snd sample_saved) = dirs sample_world
  ∧ (∀ q, q ≠ NormalizeResample.npz_file_name sample_npz_path →
          files (snd sample_saved) !! q = files sample_world !! q)
  ∧ (∀ e, Ok () = Raise e → files (snd sample_saved) = files sample_world)
  ∧ (Ok () = Ok () →
     is_Some (files (snd sample_saved) !! NormalizeResample.npz_file_name sample_npz_path)).
Proof.
  apply (save_cached_volume_writes_only_its_file sample_ct sample_npz_path sample_world).
  vm_compute. reflexivity.
Defined.

Lemma save_cached_volume_rejects_array_in_metadata_witness :
  ∃ e,
    NormalizeResample.save_cached_volume
      (NormalizeResample.mkCTVolume 0%nat sample_spacing (VRef 1%nat)) sample_npz_path
      (world0 [OArray sample_volume; ODict (<["pixels" := VRef 0%nat]> ∅)])
    = (Raise e, world0 [OArray sample_volume; ODict (<["pixels" := VRef 0%nat]> ∅)]).
Proof.
  apply (save_cached_volume_rejects_array_in_metadata
           (NormalizeResample.mkCTVolume 0%nat sample_spacing (VRef 1%nat))
           sample_npz_path
           (world0 [OArray sample_volume; ODict (<["pixels" := VRef 0%nat]> ∅)])
           1%nat (<["pixels" := VRef 0%nat]> ∅) "pixels" 0%nat sample_volume);
    reflexivity.
Defined.

(** ** The cache key and the cached call *)

Lemma str_replace_char_app c d s1 s2 :
  str_replace_char c d (s1 +:+ s2)
  = str_replace_char c d s1 +:+ str_replace_char c d s2.
Proof.
  induction s1 as [|a s1 IH]; [done|].
  exact (f_equal (String (if Ascii.eqb a c then d else a)) IH).
Qed.

Lemma path_mkdir_parents_blocked cache_dir w :
  ¬ mkdir_possible cache_dir w →
  path_mkdir_parents cache_dir w
  = (Raise (OSError "File exists or not a directory"), w).
Proof.
  intros Hblocked. unfold path_mkdir_parents.
  rewrite bool_decide_eq_true_2; [done|].
  apply not_Forall_Exists in Hblocked; [|intros q; apply _].
  eapply Exists_impl; [exact Hblocked|]. simpl. intros q Hq.
  destruct (files w !! path_str q); [by eexists|done].
Qed.

Section CachedCall.
Context `{External}.
Import NormalizeResample NormalizeResampleFacts.

(** X7: Two keys that differ only in a ["/"] written as ["_"] are different
    keys with one and the same cache file. *)
Theorem cache_keys_differing_in_slash_share_a_file cache_dir pre post w :
  pre +:+ "/" +:+ post ≠ pre +:+ "_" +:+ post
  ∧ _cache_path_for_key cache_dir (pre +:+ "/" +:+ post) w
    = _cache_path_for_key cache_dir (pre +:+ "_" +:+ post) w.
Proof.
  split.
  - induction pre as [|a pre IH]; intros Heq.
    + change (String "/" post = String "_" post) in Heq. discriminate Heq.
    + apply IH.
      change (String a (pre +:+ "/" +:+ post) = String a (pre +:+ "_" +:+ post)) in Heq.
      by injection Heq.
  - unfold _cache_path_for_key. by rewrite !str_replace_char_app.
Qed.

Lemma normalize_and_resample_data volume spacing metadata kw w ct w' :
  normalize_and_resample volume spacing metadata kw w = (Ok ct, w') →
  ∃ a, heap w' !! ct_data ct = Some (OArray a) ∧ arr_dtype a = Float32.
Proof.
  rewrite normalize_and_resample_stages.
  intros (v1 & w1 & _ & Hk)%bind_ok.
  apply bind_ok in Hk as (v2 & w2 & _ & Hk).
  apply bind_ok in Hk as (v3 & w3 & H3 & Hk).
  apply resample_to_spacing_ok in H3 as (a & Ha & Hty & _).
  destruct (metadata_stage_data _ _ _ _ _ _ _ Ha Hty Hk) as (-> & _ & Ha').
  by exists a.
Qed.

Lemma as_float32_id a : arr_dtype a = Float32 → as_float32 a = a.
Proof. intros Hty. unfold as_float32. by rewrite decide_True. Qed.

Lemma load_cached_volume_ok p w ct w' :
  load_cached_volume p w = (Ok ct, w') →
  ∃ z, files w !! path_str p = Some (FNpz z)
       ∧ heap w' !! ct_data ct = Some (OArray (as_float32 (npz_data z)))
       ∧ ct_spacing ct = spacing_float32 (npz_spacing z)
       ∧ files w' = files w.
Proof.
  intros Hrun.
  destruct (only_allocates_load_cached_volume _ _ _ _ Hrun) as (_ & _ & Hfiles & _).
  revert Hrun. unfold load_cached_volume.
  intros (found & w1 & H1 & Hk)%bind_ok. injection H1 as _ <-.
  destruct (negb found); [discriminate Hk|].
  apply bind_ok in Hk as (z & w2 & H2 & Hk).
  assert (w2 = w ∧ files w !! path_str p = Some (FNpz z)) as [-> Hz].
  { revert H2. unfold np_load.
    destruct (files w !! path_str p) as [[z0|]|]; [| |destruct (bool_decide _)];
      intros [= <- <-]; done. }
  apply bind_ok in Hk as (loaded & w3 & H3 & Hk).
  apply alloc_ok in H3 as [-> ->].
  apply bind_ok in Hk as (data & w4 & H4 & Hk).
  apply bind_ok in Hk as (md & w5 & H5 & Hk). injection Hk as <- <-.
  destruct (only_allocates_json_loads _ _ _ _ H5) as (new & Hnew & _).
  exists z. split; [done|]. split; [|done]. cbn [ct_data]. rewrite Hnew.
  apply astype_float32_ok in H4 as (a & Ha & Hcase).
  cbn [heap set_heap] in Ha. rewrite lookup_snoc in Ha. injection Ha as <-.
  destruct Hcase as [(Hty & -> & ->)|(Hne & -> & ->)]; cbn [heap set_heap].
  - rewrite lookup_app_l by (rewrite length_app; simpl; lia).
    by rewrite lookup_snoc, as_float32_id.
  - rewrite lookup_app_l by (rewrite !length_app; simpl; lia).
    rewrite lookup_snoc. unfold as_float32. by rewrite decide_False.
Qed.

Lemma cache_path_for_key_world cache_dir cache_key w p w' :
  _cache_path_for_key cache_dir cache_key w = (Ok p, w') →
  p = cache_path cache_dir cache_key ∧ w' = after_mkdir cache_dir w.
Proof.
  unfold _cache_path_for_key. intros ([] & w1 & Hmk & Hk)%bind_ok.
  injection Hk as <- <-. split; [done|].
  unfold path_mkdir_parents in Hmk. case_bool_decide; [discriminate|].
  by injection Hmk as <-.
Qed.

(** X8: Whenever the cached call returns, the path it returns is the cache
    file of the key, that file holds a volume archive, and the archive's
    data (cast to float32) is the data of the returned volume.  On a hit
    (the file exists once the directory is made, and no recomputation is
    forced) the archive is the one the file held before the call and the
    returned spacing is its spacing cast to float32; on a miss the
    archive's spacing is the returned spacing rounded to float32. *)
Theorem with_cache_returns_what_the_cache_file_holds
    cache_key load_raw_fn cache_dir force kw w ct p w' :
  normalize_and_resample_with_cache cache_key load_raw_fn cache_dir force kw w
  = (Ok (ct, p), w') →
  p = cache_path cache_dir cache_key
  ∧ ∃ z, files w' !! path_str p = Some (FNpz z)
         ∧ heap w' !! ct_data ct = Some (OArray (as_float32 (npz_data z)))
         ∧ (if exists_in p (after_mkdir cache_dir w) && negb force
            then files w !! path_str p = Some (FNpz z)
                 ∧ ct_spacing ct = spacing_float32 (npz_spacing z)
            else npz_spacing z = spacing_float32 (ct_spacing ct)).
Proof.
  unfold normalize_and_resample_with_cache.
  intros (p0 & w1 & H1 & Hk)%bind_ok.
  apply cache_path_for_key_world in H1 as (-> & ->).
  apply bind_ok in Hk as (found & w2 & H2 & Hk).
  unfold path_exists in H2.
  fold (exists_in (cache_path cache_dir cache_key) (after_mkdir cache_dir w)) in H2.
  injection H2 as <- <-.
  destruct (exists_in _ _ && negb force) eqn:Hhit.
  - apply bind_ok in Hk as (ct0 & w3 & Hload & Hk). injection Hk as <- <- <-.
    apply load_cached_volume_ok in Hload as (z & Hz & Hdata & Hsp & Hf).
    split; [done|]. exists z. rewrite Hhit, Hf. by auto.
  - apply bind_ok in Hk as ([[volume spacing] metadata] & w3 & _ & Hk).
    apply bind_ok in Hk as (ct0 & w4 & Hrun & Hk).
    apply bind_ok in Hk as ([] & w5 & Hsave & Hk). injection Hk as <- <- <-.
    split; [done|]. rewrite Hhit.
    apply normalize_and_resample_data in Hrun as (a & Ha & Hty).
    destruct (save_cached_volume_inv _ _ _ _ _ Ha Hsave) as (j & _ & Hfiles).
    destruct (writes_only_save_cached_volume _ _ _ _ _ Hsave) as ((new & Hnew) & _).
    exists (Npz (as_float32 a) (spacing_float32 (ct_spacing ct0)) j).
    split; [|split; [|done]].
    + by rewrite Hfiles, cache_path_npz_name, lookup_insert_eq.
    + cbn [npz_data]. rewrite Hnew, lookup_app_l by (by eapply lookup_lt_Some).
      by rewrite !(as_float32_id a Hty).
Qed.

(** X9: When a file stands where the cache directory or one of its
    ancestors should be, the cached call raises OSError at once: the
    world is left as it was and the raw loader is not invoked. *)
Theorem with_cache_stops_at_a_blocked_directory
    cache_key load_raw_fn cache_dir force kw w :
  ¬ mkdir_possible cache_dir w →
  normalize_and_resample_with_cache cache_key load_raw_fn cache_dir force kw w
  = (Raise (OSError "File exists or not a directory"), w).
Proof.
  intros Hblocked. unfold normalize_and_resample_with_cache, _cache_path_for_key.
  apply bind_raise, bind_raise. by apply path_mkdir_parents_blocked.
Qed.

End CachedCall.

Lemma with_cache_returns_what_the_cache_file_holds_witness :
  ∃ ct p w',
    sample_cached_call false sample_world = (Ok (ct, p), w')
    ∧ p = cache_path sample_cache_dir "nlst__1.2.3"
    ∧ ∃ z, files w' !! path_str p = Some (FNpz z)
           ∧ heap w' !! NormalizeResample.ct_data ct
             = Some (OArray (as_float32 (npz_data z)))
           ∧ (if exists_in p (after_mkdir sample_cache_dir sample_world) && negb false
              then files sample_world !! path_str p = Some (FNpz z)
                   ∧ NormalizeResample.ct_spacing ct
                     = NormalizeResample.spacing_float32 (npz_spacing z)
              else npz_spacing z
                   = NormalizeResample.spacing_float32 (NormalizeResample.ct_spacing ct)).
Proof.
  assert (is_ok (fst (sample_cached_call false sample_world)) = true) as Hok
    by (vm_compute; reflexivity).
  destruct (sample_cached_call false sample_world) as [[[ct p]|e] w'] eqn:Erun;
    [|discriminate Hok].
  exists ct, p, w'. split; [reflexivity|].
  exact (with_cache_returns_what_the_cache_file_holds (H := plain_libs)
           "nlst__1.2.3" sample_loader sample_cache_dir false
           NormalizeResample.default_kwargs sample_world ct p w' Erun).
Defined.

Lemma with_cache_stops_at_a_blocked_directory_witness :
  sample_cached_call false
    (set_files (<["out/nlst" := FOther]> ∅) sample_world)
  = (Raise (OSError "File exists or not a directory"),
     set_files (<["out/nlst" := FOther]> ∅) sample_world).
Proof.
  apply (with_cache_stops_at_a_blocked_directory (H := plain_libs)
           "nlst__1.2.3" sample_loader sample_cache_dir false
           NormalizeResample.default_kwargs
           (set_files (<["out/nlst" := FOther]> ∅) sample_world)).
  unfold mkdir_possible. intros Hall.
  apply Forall_cons in Hall as [_ Hall]. apply Forall_cons in Hall as [Hfile _].
  vm_compute in Hfile. discriminate Hfile.
Defined.

(** * Resampling and the cache directory *)

Section ResampleFrame.
Context `{External}.
Import NormalizeResample NormalizeResampleFacts.

(** X10: Resampling never writes into its input: whether it returns or
    raises, every heap object is as before, no file or directory
    changes, and the array it returns is a new float32 array. *)
Theorem resample_to_spacing_leaves_its_input v cur tgt order w r w' :
  resample_to_spacing v cur tgt order w = (r, w') →
  (∃ new, heap w' = heap w ++ new)
  ∧ files w' = files w ∧ dirs w' = dirs w
  ∧ (∀ l o, heap w !! l = Some o → heap w' !! l = Some o)
  ∧ (∀ out, r = Ok out →
       (length (heap w) ≤ out)%nat
       ∧ ∃ a, heap w' !! out = Some (OArray a) ∧ arr_dtype a = Float32).
Proof.
  intros Hrun.
  destruct (only_allocates_resample_to_spacing _ _ _ _ _ _ _ Hrun) as (new & Hh & Hf & Hd).
  split; [by exists new|]. split; [done|]. split; [done|]. split.
  - intros l o Hl. rewrite Hh. by apply lookup_app_l_Some.
  - intros out ->. apply resample_to_spacing_ok in Hrun as (a & Ha & Hty & Hlen).
    split; [done|]. by exists a.
Qed.

End ResampleFrame.

Lemma resample_to_spacing_leaves_its_input_witness :
  (∃ new, heap (snd (NormalizeResample.resample_to_spacing (H := plain_libs) 0%nat
                       sample_spacing
                       (NormalizeResample.one, NormalizeResample.one, NormalizeResample.one)
                       1 sample_world))
          = heap sample_world ++ new)
  ∧ files (snd (NormalizeResample.resample_to_spacing (H := plain_libs) 0%nat
                  sample_spacing
                  (NormalizeResample.one, NormalizeResample.one, NormalizeResample.one)
                  1 sample_world)) = files sample_world
  ∧ dirs (snd (NormalizeResample.resample_to_spacing (H := plain_libs) 0%nat
                 sample_spacing
                 (NormalizeResample.one, NormalizeResample.one, NormalizeResample.one)
                 1 sample_world)) = dirs sample_world
  ∧ (∀ l o, heap sample_world !! l = Some o →
            heap (snd (NormalizeResample.resample_to_spacing (H := plain_libs) 0%nat
                         sample_spacing
                         (NormalizeResample.one, NormalizeResample.one,
                          NormalizeResample.one)
                         1 sample_world)) !! l = Some o)
  ∧ (∀ out, Ok 3%nat = Ok out →
       (length (heap sample_world) ≤ out)%nat
       ∧ ∃ a, heap (snd (NormalizeResample.resample_to_spacing (H := plain_libs) 0%nat
                           sample_spacing
                           (NormalizeResample.one, NormalizeResample.one,
                            NormalizeResample.one)
                           1 sample_world)) !! out = Some (OArray a)
              ∧ arr_dtype a = Float32).
Proof.
  apply (resample_to_spacing_leaves_its_input (H := plain_libs) 0%nat sample_spacing
           (NormalizeResample.one, NormalizeResample.one, NormalizeResample.one)
           1 sample_world (Ok 3%nat)).
  vm_compute. reflexivity.
Defined.

Section CacheDirectory.
Context `{External}.
Import NormalizeResample.

Lemma mkdir_possible_dec cache_dir w : Decision (mkdir_possible cache_dir w).
Proof. unfold mkdir_possible. apply Forall_dec. intros q. apply _. Qed.

(** X11: A hit depends on the cache file alone: with the file in place and
    no forced recomputation, the call gives the same result for every
    loader and for every choice of normalisation options, so a volume
    cached under other options is returned as it is. *)
Theorem cache_hit_ignores_the_options
    cache_key cache_dir loader1 loader2 kw1 kw2 w :
  is_Some (files w !! path_str (cache_path cache_dir cache_key)) →
  normalize_and_resample_with_cache cache_key loader1 cache_dir false kw1 w
  = normalize_and_resample_with_cache cache_key loader2 cache_dir false kw2 w.
Proof.
  intros Hfile. destruct (mkdir_possible_dec cache_dir w) as [Hmk|Hmk].
  - rewrite !with_cache_run by done.
    assert (exists_in (cache_path cache_dir cache_key) (after_mkdir cache_dir w) = true)
      as ->; [|done].
    unfold exists_in, after_mkdir. cbn [files set_dirs].
    by rewrite bool_decide_eq_true_2.
  - unfold normalize_and_resample_with_cache, _cache_path_for_key.
    by rewrite !(bind_raise _ _ _ _ _
                   (bind_raise _ _ _ _ _ (path_mkdir_parents_blocked _ _ Hmk))).
Qed.

(** X12: Deriving the cache path makes the cache directory with all its
    ancestors and touches no file; doing it again gives the same path
    and changes nothing more. *)
Theorem cache_path_for_key_makes_the_directory_once cache_dir cache_key w p w1 :
  _cache_path_for_key cache_dir cache_key w = (Ok p, w1) →
  p = cache_path cache_dir cache_key
  ∧ files w1 = files w ∧ heap w1 = heap w
  ∧ (∀ q, q ∈ path_and_ancestors cache_dir → path_str q ∈ dirs w1)
  ∧ dirs w ⊆ dirs w1
  ∧ _cache_path_for_key cache_dir cache_key w1 = (Ok p, w1).
Proof.
  unfold _cache_path_for_key.
  intros ([] & w2 & Hmk & Hk)%bind_ok. injection Hk as <- <-.
  revert Hmk. unfold path_mkdir_parents.
  case_bool_decide as Hex; [done|]. intros [= <-].
  cbn [files heap dirs set_dirs].
  split; [done|]. split; [done|]. split; [done|]. split.
  { intros q Hq. apply elem_of_union_l, elem_of_list_to_set, list_elem_of_fmap.
    by exists q. }
  split; [apply union_subseteq_r|].
  rewrite bind_run. cbn [files set_dirs]. rewrite bool_decide_eq_false_2 by done.
  cbn [dirs set_dirs]. unfold set_dirs. cbn [heap files dirs raw_loads].
  by rewrite (assoc_L (∪)), (idemp_L (∪)).
Qed.

End CacheDirectory.

Lemma cache_hit_ignores_the_options_witness :
  NormalizeResample.normalize_and_resample_with_cache (H := plain_libs)
    "nlst__1.2.3" sample_loader sample_cache_dir false
    NormalizeResample.default_kwargs sample_world_cached
  = NormalizeResample.normalize_and_resample_with_cache (H := plain_libs)
      "nlst__1.2.3" (raise (RuntimeError "never called")) sample_cache_dir false
      (NormalizeResample.mkKwargs (of_Z 2, of_Z 2, of_Z 2) (-100, 100) true (of_Z 3) 3)
      sample_world_cached.
Proof.
  apply (cache_hit_ignores_the_options (H := plain_libs)).
  vm_compute. by eexists.
Defined.

Lemma cache_path_for_key_makes_the_directory_once_witness :
  cache_path sample_cache_dir "nlst__1.2.3" = cache_path sample_cache_dir "nlst__1.2.3"
  ∧ files (after_mkdir sample_cache_dir sample_world) = files sample_world
  ∧ heap (after_mkdir sample_cache_dir sample_world) = heap sample_world
  ∧ (∀ q, q ∈ path_and_ancestors sample_cache_dir →
          path_str q ∈ dirs (after_mkdir sample_cache_dir sample_world))
  ∧ dirs sample_world ⊆ dirs (after_mkdir sample_cache_dir sample_world)
  ∧ NormalizeResample._cache_path_for_key sample_cache_dir "nlst__1.2.3"
      (after_mkdir sample_cache_dir sample_world)
    = (Ok (cache_path sample_cache_dir "nlst__1.2.3"),
       after_mkdir sample_cache_dir sample_world).
Proof.
  apply (cache_path_for_key_makes_the_directory_once sample_cache_dir "nlst__1.2.3"
           sample_world).
  apply cache_path_for_key_run. vm_compute. repeat constructor.
Defined.

(** * Further properties of [segment_lung.py] *)

Lemma insert_by_sorted sizes i l :
  StronglySorted (λ i j, (nth i sizes 0 ≤ nth j sizes 0)%nat) l →
  StronglySorted (λ i j, (nth i sizes 0 ≤ nth j sizes 0)%nat)
    (SegmentLung.insert_by sizes i l).
Proof.
  induction 1 as [|j r Hr IH Hj]; simpl.
  - repeat constructor.
  - destruct (Nat.leb_spec (nth i sizes 0%nat) (nth j sizes 0%nat)) as [Hle|Hlt].
    + constructor; [by constructor|]. constructor; [done|].
      eapply Forall_impl; [exact Hj|]. simpl. lia.
    + constructor; [done|]. rewrite insert_by_perm. constructor; [lia|done].
Qed.

Lemma argsort_sorted sizes :
  StronglySorted (λ i j, (nth i sizes 0 ≤ nth j sizes 0)%nat)
    (SegmentLung.argsort sizes).
Proof.
  unfold SegmentLung.argsort. generalize (seq 0 (length sizes)).
  induction l as [|i l IH]; simpl; [constructor|by apply insert_by_sorted].
Qed.

Lemma sorted_last (R : nat → nat → Prop) l x y :
  (∀ a, R a a) → StronglySorted R l → last l = Some y → x ∈ l → R x y.
Proof.
  intros Hrefl. induction 1 as [|a l Hl IH Ha]; [done|].
  intros Hlast Hx. destruct l as [|b l].
  - injection Hlast as <-. apply list_elem_of_singleton in Hx as ->. apply Hrefl.
  - change (last (b :: l) = Some y) in Hlast.
    apply elem_of_cons in Hx as [->|Hx]; [|by apply IH].
    eapply Forall_forall; [exact Ha|]. by apply last_Some_elem_of.
Qed.

Lemma last_drop {A} (l : list A) k :
  (k < length l)%nat → last (drop k l) = last l.
Proof.
  revert k. induction l as [|a l IH]; intros k Hk; [simpl in Hk; lia|].
  destruct k as [|k]; [done|]. simpl in Hk.
  change (last (drop k l) = last (a :: l)). rewrite IH by lia.
  destruct l; [simpl in Hk; lia|done].
Qed.

Lemma voxel_count_absent l labeled : l ∉ labeled → voxel_count l labeled = 0%nat.
Proof.
  unfold voxel_count. induction labeled as [|x r IH]; [done|].
  intros Hl. apply not_elem_of_cons in Hl as [Hne Hl]. simpl.
  destruct (Nat.eqb_spec l x) as [->|_]; [done|by apply IH].
Qed.

Lemma voxel_count_present l labeled :
  (0 < voxel_count l labeled)%nat → l ∈ labeled.
Proof.
  intros Hpos. destruct (decide (l ∈ labeled)) as [|Hno]; [done|].
  rewrite (voxel_count_absent _ _ Hno) in Hpos. lia.
Qed.

(** The sizes after [component_sizes[0] = 0]. *)
Lemma nth_component_sizes labeled i :
  nth i (<[0%nat := 0%nat]> (SegmentLung.bincount labeled)) 0%nat
  = if (i =? 0)%nat then 0%nat else voxel_count i labeled.
Proof.
  destruct i as [|i].
  - unfold SegmentLung.bincount. by cbn.
  - simpl Nat.eqb. cbv iota.
    destruct (SegmentLung.bincount labeled !! S i) as [s|] eqn:Hs.
    + rewrite (nth_lookup_Some _ _ _ s).
      * by apply lookup_bincount.
      * by rewrite list_lookup_insert_ne.
    + rewrite nth_overflow.
      * symmetry. apply voxel_count_absent. intros Hin.
        apply max_list_elem_of_le in Hin.
        apply lookup_ge_None in Hs. rewrite length_bincount in Hs. lia.
      * rewrite length_insert. by apply lookup_ge_None.
Qed.

Lemma isin_filter_seq (P : nat → bool) n i :
  SegmentLung.isin i (List.filter P (seq 0 n)) = true ↔ (i < n)%nat ∧ P i = true.
Proof.
  rewrite isin_true, list_elem_of_In, filter_In, in_seq. split; intros [? ?]; split; auto; lia.
Qed.

(** X13: When the selection is reached with a positive
    [num_components_to_keep], a largest component is in the mask: some
    label [l ≥ 1] with the greatest voxel count of all components has
    every one of its voxels selected. *)
Theorem largest_component_is_selected config labeled lung_mask :
  0 < SegmentLung.num_components_to_keep config →
  SegmentLung.select_components config labeled = Some lung_mask →
  ∃ l, (0 < l)%nat
       ∧ (0 < voxel_count l labeled)%nat
       ∧ (∀ l', (0 < l')%nat → (voxel_count l' labeled ≤ voxel_count l labeled)%nat)
       ∧ (∀ i, labeled !! i = Some l → lung_mask !! i = Some true).
Proof.
  intros Hn. unfold SegmentLung.select_components.
  set (cs0 := <[0%nat:=0%nat]> (SegmentLung.bincount labeled)).
  set (small := if 0 <? _ then _ else _).
  set (cs1 := imap _ cs0).
  destruct (forallb _ cs1) eqn:Hall; [done|]. intros [= <-].
  assert (Hlen0 : length cs0 = S (max_list labeled)).
  { unfold cs0. by rewrite length_insert, length_bincount. }
  assert (Hlen : length cs1 = S (max_list labeled)).
  { unfold cs1. by rewrite length_imap. }
  assert (Hcs1 : ∀ i, nth i cs1 0%nat
                      = if SegmentLung.isin i small then 0%nat else nth i cs0 0%nat).
  { intros i. destruct (cs0 !! i) as [s|] eqn:Hs.
    - rewrite (nth_lookup_Some _ _ _ s Hs).
      apply nth_lookup_Some. unfold cs1. by rewrite list_lookup_imap, Hs.
    - apply lookup_ge_None in Hs.
      rewrite !nth_overflow by (rewrite ?Hlen; lia). by destruct (SegmentLung.isin _ _). }
  assert (Hsmall : ∀ i, SegmentLung.isin i small = true →
            0 < SegmentLung.min_component_size config
            ∧ Z.of_nat (nth i cs0 0%nat) < SegmentLung.min_component_size config).
  { intros i. unfold small. destruct (Z.ltb_spec 0 (SegmentLung.min_component_size config)).
    - intros [_ Hi%Z.ltb_lt]%isin_filter_seq. done.
    - done. }
  assert (Hbig : ∀ i, (i < length cs0)%nat → SegmentLung.isin i small = false →
            0 < SegmentLung.min_component_size config →
            SegmentLung.min_component_size config ≤ Z.of_nat (nth i cs0 0%nat)).
  { intros i Hi Hno Hmin. unfold small in Hno.
    rewrite (proj2 (Z.ltb_lt _ _) Hmin) in Hno.
    destruct (Z.ltb_spec (Z.of_nat (nth i cs0 0%nat)) (SegmentLung.min_component_size config))
      as [Hlt|Hge]; [|done].
    assert (SegmentLung.isin i
              (List.filter (λ i, Z.of_nat (nth i cs0 0%nat)
                                 <? SegmentLung.min_component_size config)
                 (seq 0 (length cs0))) = true) as Hyes.
    { apply isin_filter_seq. split; [done|]. by apply Z.ltb_lt. }
    congruence. }
  (* the last label of the ranking *)
  destruct (last (SegmentLung.argsort cs1)) as [y|] eqn:Hlast.
  2:{ apply last_None in Hlast.
      pose proof (Permutation_length (argsort_perm cs1)) as Hp.
      rewrite Hlast, length_seq, Hlen in Hp. done. }
  assert (Hy : (y < length cs1)%nat).
  { apply last_Some_elem_of in Hlast. rewrite argsort_perm in Hlast.
    apply elem_of_seq in Hlast. lia. }
  assert (Hmax : ∀ i, (nth i cs1 0 ≤ nth y cs1 0)%nat).
  { intros i. destruct (decide (i < length cs1)%nat) as [Hi|Hi].
    - apply (sorted_last (λ i j, (nth i cs1 0 ≤ nth j cs1 0)%nat)
               (SegmentLung.argsort cs1)); [lia|apply argsort_sorted|done|].
      rewrite argsort_perm. apply elem_of_seq. lia.
    - rewrite (nth_overflow cs1) by lia. lia. }
  assert (Hpos : (0 < nth y cs1 0)%nat).
  { destruct (Nat.eq_dec (nth y cs1 0%nat) 0%nat) as [Hz|]; [|lia].
    assert (forallb (Nat.eqb 0) cs1 = true) as Habs; [|congruence].
    apply forallb_forall. intros s Hs. apply Nat.eqb_eq.
    apply (In_nth _ _ 0%nat) in Hs as (i & _ & <-).
    pose proof (Hmax i). lia. }
  assert (Hysmall : SegmentLung.isin y small = false).
  { destruct (SegmentLung.isin y small) eqn:E; [|done].
    rewrite Hcs1, E in Hpos. lia. }
  assert (Hy0 : nth y cs1 0%nat = nth y cs0 0%nat) by (by rewrite Hcs1, Hysmall).
  assert (Hyne : y ≠ 0%nat).
  { intros ->. rewrite Hy0 in Hpos. unfold cs0 in Hpos.
    rewrite nth_component_sizes in Hpos. simpl in Hpos. lia. }
  assert (Hycount : nth y cs0 0%nat = voxel_count y labeled).
  { unfold cs0. rewrite nth_component_sizes.
    by destruct (Nat.eqb_spec y 0). }
  assert (Hkeep : SegmentLung.isin y
                    (SegmentLung.slice_from (- SegmentLung.num_components_to_keep config)
                       (SegmentLung.argsort cs1)) = true).
  { apply isin_true. unfold SegmentLung.slice_from.
    apply last_Some_elem_of. rewrite last_drop; [done|].
    pose proof (Permutation_length (argsort_perm cs1)) as Hp.
    rewrite length_seq in Hp. rewrite Hp.
    destruct (Z.ltb_spec (- SegmentLung.num_components_to_keep config) 0); lia. }
  exists y. split; [lia|]. split; [lia|]. split.
  - intros l' Hl'.
    assert (Hl0 : nth l' cs0 0%nat = voxel_count l' labeled).
    { unfold cs0. rewrite nth_component_sizes.
      destruct (Nat.eqb_spec l' 0); [lia|done]. }
    rewrite <- Hycount, <- Hl0.
    destruct (SegmentLung.isin l' small) eqn:El.
    + destruct (Hsmall _ El) as [Hmin Hlt].
      pose proof (Hbig y ltac:(rewrite Hlen0, <- Hlen; done) Hysmall Hmin). lia.
    + pose proof (Hmax l') as Hle. by rewrite (Hcs1 l'), El, Hy0 in Hle.
  - intros i Hi. rewrite !list_lookup_fmap, Hi. simpl.
    by rewrite Hysmall, Hkeep.
Qed.

Lemma largest_component_is_selected_witness :
  ∃ l, (0 < l)%nat
       ∧ (0 < voxel_count l [1; 1; 0; 2; 0; 3; 3; 3]%nat)%nat
       ∧ (∀ l', (0 < l')%nat →
           (voxel_count l' [1; 1; 0; 2; 0; 3; 3; 3]%nat
            ≤ voxel_count l [1; 1; 0; 2; 0; 3; 3; 3]%nat)%nat)
       ∧ (∀ i, [1; 1; 0; 2; 0; 3; 3; 3]%nat !! i = Some l →
               [false; false; false; false; false; true; true; true] !! i = Some true).
Proof.
  apply (largest_component_is_selected
           (SegmentLung.mkConfig (of_Z (-320)) 2 1 0 false)
           [1; 1; 0; 2; 0; 3; 3; 3]%nat).
  - reflexivity.
  - reflexivity.
Defined.

Lemma length_iter {A} (f : list A → list A) n l :
  (∀ l, length (f l) = length l) → length (Nat.iter n f l) = length l.
Proof. intros Hf. induction n as [|n IH]; simpl; [done|]. by rewrite Hf. Qed.

Lemma length_binary_closing Y X n m :
  length (Ndimage.binary_closing Y X n m) = length m.
Proof.
  unfold Ndimage.binary_closing.
  rewrite length_iter by (intros; apply length_imap).
  apply length_iter. intros; apply length_imap.
Qed.

Lemma length_binary_fill_holes Y X m :
  length (Ndimage.binary_fill_holes Y X m) = length m.
Proof.
  unfold Ndimage.binary_fill_holes. rewrite length_fmap.
  rewrite length_iter by (intros; apply length_imap). apply length_imap.
Qed.

Lemma length_slices {A} (f : list A → list A) n (m : list A) Z :
  (∀ l, length (f l) = length l) →
  (Z * n ≤ length m)%nat →
  length (flat_map (λ z, f (take n (drop (z * n) m))) (seq 0 Z)) = (Z * n)%nat.
Proof.
  intros Hf. induction Z as [|Z IH]; intros Hlen; [done|].
  rewrite seq_S, flat_map_app, length_app, IH by lia.
  simpl. rewrite app_nil_r, Hf, length_take, length_drop. lia.
Qed.

Lemma length_postprocess config Z Y X m :
  length m = (Z * (Y * X))%nat →
  length (SegmentLung.postprocess config Z Y X m) = (Z * (Y * X))%nat.
Proof.
  intros Hlen. unfold SegmentLung.postprocess.
  set (closed := if 0 <? _ then _ else m).
  assert (Hclosed : length closed = (Z * (Y * X))%nat).
  { unfold closed. destruct (0 <? _); [|done]. by rewrite length_binary_closing. }
  destruct (SegmentLung.fill_holes config); [|done].
  apply length_slices; [apply length_binary_fill_holes|lia].
Qed.

Lemma select_components_length config labeled m :
  SegmentLung.select_components config labeled = Some m → length m = length labeled.
Proof.
  unfold SegmentLung.select_components. destruct (forallb _ _); [done|].
  intros [= <-]. by rewrite !length_fmap.
Qed.

(** X14: The mask has the shape of the volume and one entry per voxel. *)
Theorem segment_lung_mask_matches_volume volume_hu spacing_mm config Z Y X m :
  arr_shape volume_hu = [Z; Y; X] →
  length (arr_data volume_hu) = (Z * (Y * X))%nat →
  SegmentLung.segment_lung volume_hu spacing_mm config = Ok m →
  SegmentLung.mask_shape m = arr_shape volume_hu
  ∧ length (SegmentLung.mask_data m) = length (arr_data volume_hu).
Proof.
  intros Hshape Hdata. unfold SegmentLung.segment_lung. rewrite Hshape.
  set (cfg := default SegmentLung.default_config config).
  fold (threshold_mask volume_hu cfg).
  assert (Hth : length (threshold_mask volume_hu cfg) = length (arr_data volume_hu)).
  { unfold threshold_mask. apply length_fmap. }
  assert (Hzeros : length (SegmentLung.mask_data
                             (SegmentLung.zeros_like [Z; Y; X] (threshold_mask volume_hu cfg)))
                   = length (arr_data volume_hu)).
  { simpl. by rewrite length_replicate. }
  destruct (negb _); [by intros [= <-]|].
  destruct (Ndimage.label Y X _) as [labeled nf] eqn:Hlabel.
  destruct (label_bound _ _ _ _ _ Hlabel) as [_ Hlen].
  destruct (_ =? _)%nat; [by intros [= <-]|].
  destruct (SegmentLung.select_components cfg labeled) as [lm|] eqn:Hsel;
    [|by intros [= <-]].
  intros [= <-]. split; [done|]. simpl.
  rewrite length_postprocess; [done|].
  rewrite (select_components_length _ _ _ Hsel). congruence.
Qed.

Lemma segment_lung_mask_matches_volume_witness :
  SegmentLung.mask_shape (SegmentLung.Mask [1; 1; 3]%nat [false; false; false])
  = arr_shape sample_scan
  ∧ length (SegmentLung.mask_data (SegmentLung.Mask [1; 1; 3]%nat [false; false; false]))
    = length (arr_data sample_scan).
Proof.
  apply (segment_lung_mask_matches_volume sample_scan None None 1 1 3); reflexivity.
Defined.

(** X15: [num_components_to_keep = 0] does not give an empty mask: the slice
    [[-0:]] is the whole ranking, so once a component survives the
    filter every voxel is selected. *)
Theorem keeping_zero_components_selects_every_voxel
    volume_hu spacing_mm config Z Y X labeled num_features lung_mask :
  arr_shape volume_hu = [Z; Y; X] →
  SegmentLung.num_components_to_keep config = 0 →
  SegmentLung.closing_iterations config ≤ 0 →
  SegmentLung.fill_holes config = false →
  existsb id (threshold_mask volume_hu config) = true →
  Ndimage.label Y X (threshold_mask volume_hu config) = (labeled, num_features) →
  (0 < num_features)%nat →
  SegmentLung.select_components config labeled = Some lung_mask →
  SegmentLung.segment_lung volume_hu spacing_mm (Some config)
  = Ok (full_mask volume_hu).
Proof.
  intros Hshape Hzero Hclose Hfill Hany Hlabel Hpos Hsel.
  destruct (label_bound _ _ _ _ _ Hlabel) as [_ Hlen].
  assert (Hmask : lung_mask = replicate (length labeled) true).
  { eapply select_components_all; [|exact Hsel]. by left. }
  assert (Hdata : length labeled = length (arr_data volume_hu)).
  { rewrite Hlen. unfold threshold_mask. apply length_fmap. }
  unfold SegmentLung.segment_lung, full_mask. rewrite Hshape. simpl default.
  fold (threshold_mask volume_hu config).
  rewrite Hany. simpl negb. cbv iota. rewrite Hlabel.
  destruct (Nat.eqb_spec num_features 0) as [->|_]; [lia|].
  rewrite Hsel. unfold SegmentLung.postprocess.
  by rewrite (proj2 (Z.ltb_ge 0 _) Hclose), Hfill, Hmask, Hdata.
Qed.

Lemma keeping_zero_components_selects_every_voxel_witness :
  SegmentLung.segment_lung sample_scan None
    (Some (SegmentLung.mkConfig (of_Z (-320)) 1 0 0 false))
  = Ok (full_mask sample_scan).
Proof.
  apply (keeping_zero_components_selects_every_voxel sample_scan None
           (SegmentLung.mkConfig (of_Z (-320)) 1 0 0 false)
           1 1 3 [1; 0; 0]%nat 1 [true; true; true]).
  - reflexivity.
  - reflexivity.
  - vm_compute. discriminate.
  - reflexivity.
  - reflexivity.
  - reflexivity.
  - lia.
  - reflexivity.
Defined.

(** ** [segment_lung_and_save] *)

Section SaveMask.
Import SegmentLung.

(** X16: The mask that is returned is the one [segment_lung] computes; the
    heap is never touched; a volume that [segment_lung] rejects, or a
    call without a cache path, leaves the file system as it was; and
    when a call with a cache path returns, the mask file is there and so
    is its directory. *)
Theorem segment_lung_and_save_effects volume_hu spacing_mm cache_path config w r w' :
  segment_lung_and_save volume_hu spacing_mm cache_path config w = (r, w') →
  heap w' = heap w ∧ raw_loads w' = raw_loads w
  ∧ (∀ m, r = Ok m → segment_lung volume_hu spacing_mm config = Ok m)
  ∧ (∀ e, segment_lung volume_hu spacing_mm config = Raise e → r = Raise e ∧ w' = w)
  ∧ (cache_path = None → r = segment_lung volume_hu spacing_mm config ∧ w' = w)
  ∧ (∀ p m, cache_path = Some p → r = Ok m →
       is_Some (files w' !! npy_file_name p)
       ∧ (∀ q, q ≠ npy_file_name p → files w' !! q = files w !! q)
       ∧ (path_parts (path_parent p) ≠ [] → path_str (path_parent p) ∈ dirs w')).
Proof.
  unfold segment_lung_and_save. rewrite bind_run. unfold lift_result at 1.
  destruct (segment_lung volume_hu spacing_mm config) as [lm|e] eqn:Hseg.
  2:{ intros [= <- <-]. repeat split; intros; simplify_eq; done. }
  destruct cache_path as [p|].
  2:{ intros [= <- <-]. repeat split; intros; simplify_eq; done. }
  rewrite bind_run. unfold path_mkdir_parents at 1.
  destruct (bool_decide (Exists _ _)).
  { intros [= <- <-]. repeat split; intros; simplify_eq; done. }
  rewrite bind_run. unfold np_save at 1.
  cbn [dirs set_dirs heap files raw_loads].
  destruct (bool_decide (npy_file_name p ∈ _)).
  { intros [= <- <-]. repeat split; intros; simplify_eq; done. }
  destruct (negb _) eqn:Hdir.
  { intros [= <- <-]. repeat split; intros; simplify_eq; done. }
  intros [= <- <-]. cbn [dirs set_dirs set_files heap files raw_loads].
  repeat split; intros; simplify_eq; try done.
  { by rewrite lookup_insert_eq. }
  { by rewrite lookup_insert_ne. }
  apply negb_false_iff in Hdir. unfold NormalizeResample.dir_exists in Hdir.
  cbn [dirs set_dirs] in Hdir.
  apply orb_true_iff in Hdir as [Hnil|Hin].
  - by apply bool_decide_eq_true in Hnil.
  - by apply bool_decide_eq_true in Hin.
Qed.

End SaveMask.

Lemma segment_lung_and_save_effects_witness :
  heap (snd (SegmentLung.segment_lung_and_save sample_tissue None
               (Some (path_of_string "out/masks/a.npy")) None sample_world))
  = heap sample_world
  ∧ is_Some (files (snd (SegmentLung.segment_lung_and_save sample_tissue None
                           (Some (path_of_string "out/masks/a.npy")) None sample_world))
             !! "out/masks/a.npy")
  ∧ SegmentLung.segment_lung_and_save sample_image None
      (Some (path_of_string "out/masks/a.npy")) None sample_world
    = (Raise (ValueError "Expected 3D volume, got shape (2, 3)"), sample_world).
Proof.
  assert (Hrun : SegmentLung.segment_lung_and_save sample_tissue None
                   (Some (path_of_string "out/masks/a.npy")) None sample_world
                 = (Ok (empty_mask sample_tissue),
                    snd (SegmentLung.segment_lung_and_save sample_tissue None
                           (Some (path_of_string "out/masks/a.npy")) None sample_world)))
    by (vm_compute; reflexivity).
  destruct (segment_lung_and_save_effects _ _ _ _ _ _ _ Hrun)
    as (Hh & _ & _ & _ & _ & Hfile).
  split; [exact Hh|]. split.
  - exact (proj1 (Hfile _ _ eq_refl eq_refl)).
  - destruct (SegmentLung.segment_lung_and_save sample_image None
                (Some (path_of_string "out/masks/a.npy")) None sample_world)
      as [r w'] eqn:Hbad.
    destruct (segment_lung_and_save_effects _ _ _ _ _ _ _ Hbad)
      as (_ & _ & _ & Hraise & _).
    destruct (Hraise (ValueError "Expected 3D volume, got shape (2, 3)") eq_refl)
      as [-> ->].
    reflexivity.
Defined.

(** * Properties of [run.py] *)

Section RunOptions.
Import Run.

Lemma pick_keys_lookup (cfg : gmap string pyval) keys (acc : gmap string pyval) k :
  foldl (λ (out : gmap string pyval) key,
           match cfg !! key with
           | Some v => <[key := v]> out
           | None => out
           end) acc keys !! k
  = if bool_decide (k ∈ keys)
    then match cfg !! k with Some v => Some v | None => acc !! k end
    else acc !! k.
Proof.
  revert acc. induction keys as [|key keys IH]; intros acc; [done|].
  simpl. rewrite IH. destruct (decide (k = key)) as [->|Hne].
  - rewrite (bool_decide_eq_true_2 (key ∈ key :: keys)) by left.
    destruct (cfg !! key) as [v|] eqn:Hv.
    + rewrite lookup_insert_eq. by destruct (bool_decide _).
    + by destruct (bool_decide _).
  - assert (bool_decide (k ∈ key :: keys) = bool_decide (k ∈ keys)) as ->.
    { apply bool_decide_ext. rewrite elem_of_cons. split; [|by right].
      by intros [?|?]. }
    destruct (cfg !! key); [by rewrite lookup_insert_ne|done].
Qed.

(** X17: The forwarded options are the recognised keys of the section with
    their values, and nothing else: an unknown key never reaches
    [normalize_and_resample].  Filtering twice changes nothing. *)
Theorem extract_normalization_kwargs_keeps_recognised_keys norm_cfg :
  (∀ k, extract_normalization_kwargs norm_cfg !! k
        = if bool_decide (k ∈ normalization_keys)
          then default ∅ norm_cfg !! k else None)
  ∧ extract_normalization_kwargs (Some (extract_normalization_kwargs norm_cfg))
    = extract_normalization_kwargs norm_cfg.
Proof.
  assert (Hlookup : ∀ cfg k,
    extract_normalization_kwargs cfg !! k
    = if bool_decide (k ∈ normalization_keys) then default ∅ cfg !! k else None).
  { intros [cfg|] k; unfold extract_normalization_kwargs.
    - change (default ∅ (Some cfg)) with cfg. case_bool_decide as Hempty.
      + subst cfg. rewrite lookup_empty. by destruct (bool_decide _).
      + rewrite pick_keys_lookup, lookup_empty.
        destruct (bool_decide _); [by destruct (cfg !! k)|done].
    - change (default ∅ None) with (∅ : gmap string pyval).
      rewrite lookup_empty. by destruct (bool_decide _). }
  split; [apply Hlookup|].
  apply map_eq. intros k. rewrite (Hlookup (Some _)).
  change (default ∅ (Some ?m)) with m. rewrite !Hlookup.
  by destruct (bool_decide _).
Qed.

(** X18: A dataset name that starts with ["/"] takes the cache out of
    [output_root]: the directories returned are [<dataset>/volumes] and
    [<dataset>/lung_masks], whatever [output_root] is.  Without a
    ["dataset_name"] entry the directories are those of ["UNKNOWN"]. *)
Theorem build_paths_for_series_cache_directories
    data_root output_root row input_path_field series_uid_field
    raw vol mask dataset key :
  _build_paths_for_series data_root output_root row input_path_field series_uid_field
  = Ok (raw, vol, mask, dataset, key) →
  dataset = default "UNKNOWN" (row !! COL_DATASET_NAME)
  ∧ vol = path_join (path_join output_root dataset) "volumes"
  ∧ mask = path_join (path_join output_root dataset) "lung_masks"
  ∧ path_parent vol = path_join output_root dataset
  ∧ path_parent mask = path_join output_root dataset
  ∧ vol ≠ mask
  ∧ (starts_with_slash dataset = true →
     vol = path_join (path_of_string dataset) "volumes"
     ∧ mask = path_join (path_of_string dataset) "lung_masks").
Proof.
  unfold _build_paths_for_series.
  destruct (row !! series_uid_field) as [uid|]; [|done]. simpl.
  destruct (row !! input_path_field) as [raw_rel|]; [|done].
  intros [= <- <- <- <- <-].
  set (dataset := default "UNKNOWN" (row !! COL_DATASET_NAME)).
  set (root := path_join output_root dataset).
  assert (Hjoin : ∀ name, path_of_string name = mkPath false [name] →
            path_join root name
            = mkPath (path_absolute root) (path_parts root ++ [name])).
  { intros name. apply path_join_file. }
  assert (Hroot : starts_with_slash dataset = true → root = path_of_string dataset).
  { intros Habs. unfold root, path_join.
    change (path_absolute (path_of_string dataset)) with (starts_with_slash dataset).
    by rewrite Habs. }
  split; [done|]. split; [done|]. split; [done|].
  rewrite (Hjoin "volumes" eq_refl), (Hjoin "lung_masks" eq_refl).
  split; [apply path_parent_snoc|]. split; [apply path_parent_snoc|].
  split.
  - intros [= Heq]. apply app_inv_head in Heq. discriminate Heq.
  - intros Habs.
    rewrite <- (Hjoin "volumes" eq_refl), <- (Hjoin "lung_masks" eq_refl).
    by rewrite (Hroot Habs).
Qed.

End RunOptions.

Lemma build_paths_for_series_cache_directories_witness :
  "/mnt/nlst" = default "UNKNOWN" (series_row "/mnt/nlst" "1.2.3" "a.nii" !! Run.COL_DATASET_NAME)
  ∧ path_of_string "/mnt/nlst/volumes"
    = path_join (path_join (path_of_string "out") "/mnt/nlst") "volumes"
  ∧ path_of_string "/mnt/nlst/lung_masks"
    = path_join (path_join (path_of_string "out") "/mnt/nlst") "lung_masks"
  ∧ path_parent (path_of_string "/mnt/nlst/volumes")
    = path_join (path_of_string "out") "/mnt/nlst"
  ∧ path_parent (path_of_string "/mnt/nlst/lung_masks")
    = path_join (path_of_string "out") "/mnt/nlst"
  ∧ path_of_string "/mnt/nlst/volumes" ≠ path_of_string "/mnt/nlst/lung_masks"
  ∧ (starts_with_slash "/mnt/nlst" = true →
     path_of_string "/mnt/nlst/volumes"
     = path_join (path_of_string "/mnt/nlst") "volumes"
     ∧ path_of_string "/mnt/nlst/lung_masks"
       = path_join (path_of_string "/mnt/nlst") "lung_masks").
Proof.
  apply (build_paths_for_series_cache_directories
           (path_of_string "data") (path_of_string "out")
           (series_row "/mnt/nlst" "1.2.3" "a.nii") "raw_image_path" "series_uid"
           (path_of_string "data/a.nii") (path_of_string "/mnt/nlst/volumes")
           (path_of_string "/mnt/nlst/lung_masks") "/mnt/nlst" "/mnt/nlst__1.2.3").
  vm_compute. reflexivity.
Defined.

(** ** The raw loader of [preprocess_single_series] *)

Lemma setdefault_run l d key value w :
  heap w !! l = Some (ODict d) →
  ∃ w', Run.setdefault (VRef l) key value w = (Ok (), w')
        ∧ heap w' = <[l := ODict (with_default key value d)]> (heap w)
        ∧ files w' = files w ∧ dirs w' = dirs w ∧ raw_loads w' = raw_loads w.
Proof.
  intros Hl. unfold Run.setdefault, with_default.
  rewrite (bind_step (dict_of (VRef l)) _ w d w).
  2:{ simpl. by rewrite (bind_step _ _ _ _ _ (get_obj_run _ _ _ Hl)). }
  destruct (d !! key) as [v|].
  - exists w. split; [done|]. by rewrite list_insert_id.
  - eexists. split.
    + simpl. rewrite (bind_step _ _ _ _ _ (get_obj_run _ _ _ Hl)).
      apply set_obj_run. by eexists.
    + done.
Qed.

Lemma segment_lung_and_save_ok volume_hu spacing_mm cache_path config w m w' :
  SegmentLung.segment_lung_and_save volume_hu spacing_mm cache_path config w
  = (Ok m, w') →
  SegmentLung.segment_lung volume_hu spacing_mm config = Ok m ∧ heap w' = heap w.
Proof.
  unfold SegmentLung.segment_lung_and_save.
  intros (lm & w1 & H1 & Hk)%bind_ok. injection H1 as -> <-.
  destruct cache_path as [p|]; [|by injection Hk as <- <-].
  apply bind_ok in Hk as ([] & w2 & H2 & Hk).
  apply bind_ok in Hk as ([] & w3 & H3 & Hk). injection Hk as <- <-.
  split; [done|]. revert H2 H3. unfold path_mkdir_parents, SegmentLung.np_save.
  destruct (bool_decide (Exists _ _)); [done|]. intros [= <-].
  cbn [dirs set_dirs].
  destruct (bool_decide (_ ∈ _)); [done|]. destruct (negb _); [done|].
  by intros [= <-].
Qed.

Lemma with_default_keeps key value (d : gmap string pyval) k v :
  d !! k = Some v → with_default key value d !! k = Some v.
Proof.
  intros Hk. unfold with_default. destruct (d !! key) eqn:Hd; [done|].
  rewrite lookup_insert_ne; [done|]. intros <-. congruence.
Qed.

Section LoaderFacts.
Context (load_ct_series : Path → M (loc * NormalizeResample.Spacing3D)).
Import Run.

(** X19: What the raw loader hands to the pipeline, once the series is
    loaded: the spacing of the series, a new array that holds the loaded
    volume with -1024 at every voxel outside the lung mask, and a new
    metadata dict with the entries of the row, to which ["source_path"]
    and ["dataset_name"] are added only where the row has no such
    entry.  The loaded volume and the row are left as they were. *)
Theorem load_raw_fn_builds_masked_copy_and_metadata
    raw_path mask_cache_dir cache_key seg_config row dataset_name
    w volume sz sy sx w1 a d masked_volume spacing metadata w' :
  load_ct_series raw_path w = (Ok (volume, (sz, sy, sx)), w1) →
  heap w1 !! volume = Some (OArray a) →
  heap w1 !! row = Some (ODict d) →
  load_raw_fn load_ct_series raw_path mask_cache_dir cache_key seg_config
    (VRef row) dataset_name w
  = (Ok (masked_volume, spacing, metadata), w') →
  ∃ lung_mask masked m,
    SegmentLung.segment_lung a (Some [sz; sy; sx]) (Some seg_config) = Ok lung_mask
    ∧ mask_outside_lung a lung_mask = Ok masked
    ∧ spacing = (sz, sy, sx)
    ∧ (length (heap w1) ≤ masked_volume)%nat
    ∧ heap w' !! masked_volume = Some (OArray masked)
    ∧ heap w' !! volume = Some (OArray a)
    ∧ metadata = VRef m
    ∧ (length (heap w1) ≤ m)%nat
    ∧ heap w' !! m
      = Some (ODict (with_default "dataset_name" (VStr dataset_name)
                       (with_default "source_path" (VStr (path_str raw_path)) d)))
    ∧ (∀ k x, d !! k = Some x →
         with_default "dataset_name" (VStr dataset_name)
           (with_default "source_path" (VStr (path_str raw_path)) d) !! k = Some x)
    ∧ heap w' !! row = Some (ODict d).
Proof.
  intros Hload Hvol Hrow. unfold load_raw_fn.
  rewrite (bind_step _ _ _ _ _ Hload).
  rewrite (bind_step _ _ _ _ _ (get_array_run _ _ _ Hvol)).
  intros (lung_mask & w2 & Hseg & Hk)%bind_ok.
  apply segment_lung_and_save_ok in Hseg as [Hseg Hh2].
  apply bind_ok in Hk as (mv & w3 & Ha & Hk).
  apply alloc_ok in Ha as [-> ->].
  apply bind_ok in Hk as (masked & w4 & Hm & Hk). injection Hm as Hm <-.
  rewrite bind_run, set_obj_run in Hk
    by (cbn [heap set_heap]; rewrite lookup_snoc; by eexists).
  cbn [heap set_heap] in Hk. rewrite insert_snoc in Hk.
  unfold set_heap in Hk. cbn [heap files dirs raw_loads] in Hk.
  set (h3 := heap w2 ++ [OArray masked]) in *.
  assert (Hrow3 : h3 !! row = Some (ODict d)).
  { unfold h3. rewrite Hh2. rewrite lookup_app_l; [done|]. by eapply lookup_lt_Some. }
  apply bind_ok in Hk as (d0 & w4 & Hd & Hk).
  apply dict_of_ok in Hd as [-> (l & [= <-] & Hl)]. cbn [heap] in Hl.
  pose proof (eq_trans (eq_sym Hl) Hrow3) as [= ->].
  apply bind_ok in Hk as (m & w5 & Ha & Hk).
  apply alloc_ok in Ha as [-> ->]. cbn [heap set_heap] in Hk.
  unfold set_heap in Hk. cbn [heap files dirs raw_loads] in Hk.
  match type of Hk with
  | (_ ≫= _) ?W = _ =>
      destruct (setdefault_run (length h3) d "source_path"
                  (VStr (path_str raw_path)) W)
        as (w6 & Hs1 & Hh6 & _); [apply lookup_snoc|]
  end.
  rewrite (bind_step _ _ _ _ _ Hs1) in Hk.
  set (d1 := with_default "source_path" (VStr (path_str raw_path)) d) in *.
  cbn [heap] in Hh6. rewrite insert_snoc in Hh6.
  destruct (setdefault_run (length h3) d1 "dataset_name" (VStr dataset_name) w6)
    as (w7 & Hs2 & Hh7 & _); [rewrite Hh6; apply lookup_snoc|].
  rewrite (bind_step _ _ _ _ _ Hs2) in Hk.
  injection Hk as <- <- <- <-.
  rewrite Hh6, insert_snoc in Hh7.
  assert (Hlen3 : length h3 = S (length (heap w1))).
  { unfold h3. rewrite Hh2, length_app. simpl. lia. }
  exists lung_mask, masked, (length h3).
  split; [done|]. split; [done|]. split; [done|]. split; [by rewrite Hh2|].
  rewrite Hh7. split.
  { rewrite lookup_app_l by (rewrite Hlen3, Hh2; lia).
    unfold h3. apply lookup_snoc. }
  split.
  { rewrite lookup_app_l by (apply lookup_lt_Some in Hvol; lia).
    unfold h3. rewrite Hh2, lookup_app_l; [done|]. by eapply lookup_lt_Some. }
  split; [done|]. split; [lia|]. split; [apply lookup_snoc|].
  split; [intros k x Hk; by do 2 apply with_default_keeps|].
  rewrite lookup_app_l; [done|]. by eapply lookup_lt_Some.
Qed.

End LoaderFacts.

Lemma load_raw_fn_builds_masked_copy_and_metadata_witness :
  ∃ lung_mask masked m,
    SegmentLung.segment_lung sample_volume
      (Some [of_Z 2; NormalizeResample.one; NormalizeResample.one])
      (Some (SegmentLung.mkConfig (of_Z (-320)) 1 1 0 false)) = Ok lung_mask
    ∧ Run.mask_outside_lung sample_volume lung_mask = Ok masked
    ∧ sample_spacing = (of_Z 2, NormalizeResample.one, NormalizeResample.one)
    ∧ (length (heap sample_world) ≤ 3)%nat
    ∧ heap (snd (sample_raw_loader sample_world)) !! 3%nat = Some (OArray masked)
    ∧ heap (snd (sample_raw_loader sample_world)) !! 0%nat = Some (OArray sample_volume)
    ∧ VRef 4%nat = VRef m
    ∧ (length (heap sample_world) ≤ m)%nat
    ∧ heap (snd (sample_raw_loader sample_world)) !! m
      = Some (ODict (with_default "dataset_name" (VStr "nlst")
                       (with_default "source_path"
                          (VStr (path_str (path_of_string "/data/scans/a.nii")))
                          sample_metadata)))
    ∧ (∀ k x, sample_metadata !! k = Some x →
         with_default "dataset_name" (VStr "nlst")
           (with_default "source_path"
              (VStr (path_str (path_of_string "/data/scans/a.nii")))
              sample_metadata) !! k = Some x)
    ∧ heap (snd (sample_raw_loader sample_world)) !! 1%nat = Some (ODict sample_metadata).
Proof.
  apply (load_raw_fn_builds_masked_copy_and_metadata sample_series_loader
           (path_of_string "/data/scans/a.nii") (path_of_string "out/nlst/lung_masks")
           "nlst__1.2.3" (SegmentLung.mkConfig (of_Z (-320)) 1 1 0 false)
           1%nat "nlst" sample_world 0%nat (of_Z 2) NormalizeResample.one
           NormalizeResample.one sample_world sample_volume sample_metadata
           3%nat sample_spacing (VRef 4%nat)).
  - reflexivity.
  - reflexivity.
  - reflexivity.
  - vm_compute. reflexivity.
Defined.

(** * The HU clamp *)

Lemma SFcompare_refl (x : float) :
  NormalizeResample.is_nan x = false → SFcompare x x = Some Eq.
Proof.
  destruct x as [s|s| |s m e]; simpl; try done.
  - intros _. by destruct s.
  - intros _. rewrite Z.compare_refl, Pos.compare_cont_refl. by destruct s.
Qed.

Lemma leb_refl (x : float) : NormalizeResample.is_nan x = false → leb x x = true.
Proof. intros Hx. unfold leb, SFleb. by rewrite SFcompare_refl. Qed.

Lemma ltb_leb (x y : float) : ltb x y = true → leb x y = true.
Proof. unfold ltb, leb, SFltb, SFleb. by destruct (SFcompare x y) as [[]|]. Qed.

Lemma leb_not_nan (x y : float) :
  leb x y = true → NormalizeResample.is_nan x = false ∧ NormalizeResample.is_nan y = false.
Proof.
  unfold leb, SFleb. destruct x as [| | |]; destruct y as [| | |]; simpl; done.
Qed.

Section ClampWindow.
Import NormalizeResample.

Lemma clip1_nan lo hi x : is_nan x = true → is_nan (clip1 lo hi x) = true.
Proof.
  intros Hx. unfold clip1, npy_min, npy_max. rewrite Hx. simpl. by rewrite Hx.
Qed.

Lemma clip1_within lo hi x :
  leb lo hi = true → is_nan x = false →
  leb lo (clip1 lo hi x) = true ∧ leb (clip1 lo hi x) hi = true.
Proof.
  intros Hwin Hx. destruct (leb_not_nan _ _ Hwin) as [Hlo Hhi].
  unfold clip1, npy_min, npy_max. rewrite Hx. simpl.
  destruct (ltb lo x) eqn:Hlox.
  - rewrite Hx. simpl. destruct (ltb x hi) eqn:Hxhi.
    + split; by apply ltb_leb.
    + split; [done|by apply leb_refl].
  - rewrite Hlo. simpl. destruct (ltb lo hi) eqn:Hlohi.
    + split; [by apply leb_refl|done].
    + split; [done|by apply leb_refl].
Qed.

(** X20: With a window whose lower bound is not above the upper one, the
    clamped array is a float32 array of the shape of the input in which,
    voxel by voxel, a NaN of the input is still NaN and every other voxel
    lies inside the window. *)
Theorem clamp_hu_puts_every_voxel_in_the_window volume a hu_min hu_max w v w' :
  leb (f32 (of_Z hu_min)) (f32 (of_Z hu_max)) = true →
  heap w !! volume = Some (OArray a) →
  clamp_hu volume hu_min hu_max w = (Ok v, w') →
  ∃ c, heap w' !! v = Some (OArray c)
       ∧ arr_dtype c = Float32
       ∧ arr_shape c = arr_shape a
       ∧ length (arr_data c) = length (arr_data a)
       ∧ Forall2 (λ x y, (is_nan x = true → is_nan y = true)
                         ∧ (is_nan x = false →
                            leb (f32 (of_Z hu_min)) y = true
                            ∧ leb y (f32 (of_Z hu_max)) = true))
           (arr_data a) (arr_data c).
Proof.
  intros Hwin Hvol Hrun.
  set (lo := f32 (of_Z hu_min)) in *. set (hi := f32 (of_Z hu_max)) in *.
  assert (Hclip : ∀ x y, is_nan y = is_nan x →
    (is_nan x = true → is_nan (clip1 lo hi y) = true)
    ∧ (is_nan x = false →
       leb lo (clip1 lo hi y) = true ∧ leb (clip1 lo hi y) hi = true)).
  { intros x y Hxy. split; intros Hx; rewrite Hx in Hxy.
    - by apply clip1_nan.
    - by apply clip1_within. }
  destruct (decide (arr_dtype a = Float32)) as [Hty|Hty].
  - rewrite (clamp_hu_float32 _ _ _ _ _ Hvol Hty) in Hrun. injection Hrun as <- <-.
    exists (clip_array hu_min hu_max a). cbn [heap set_heap].
    split; [apply list_lookup_insert_eq; by eapply lookup_lt_Some|].
    split; [done|]. split; [done|]. split; [apply length_fmap|].
    cbn [clip_array arr_data]. apply Forall2_fmap_r, Forall_Forall2_diag, Forall_forall.
    intros x _. by apply Hclip.
  - rewrite (clamp_hu_other_dtype _ _ _ _ _ Hvol Hty) in Hrun. injection Hrun as <- <-.
    exists (clip_array hu_min hu_max (cast_float32 a)). cbn [heap set_heap].
    split; [apply lookup_snoc|]. split; [done|]. split; [done|].
    split; [simpl; by rewrite !length_fmap|].
    cbn [clip_array cast_float32 arr_data].
    apply Forall2_fmap_r, Forall2_fmap_r, Forall_Forall2_diag, Forall_forall.
    intros x _. apply Hclip, f32_is_nan.
Qed.

(** X21: The orchestrator writes -1024 outside the lung mask, and the
    default window starts at -1000: once the masked float32 volume has
    been clamped with the default window, every voxel outside the mask
    is -1000, and a voxel inside the mask is its clamped HU value. *)
Theorem voxels_outside_the_lung_end_at_the_window_floor a lung_mask masked v w :
  arr_dtype a = Float32 →
  Run.mask_outside_lung a lung_mask = Ok masked →
  heap w !! v = Some (OArray masked) →
  ∃ clamped w',
    clamp_hu v (hu_window default_kwargs).1 (hu_window default_kwargs).2 w = (Ok v, w')
    ∧ heap w' !! v = Some (OArray clamped)
    ∧ ∀ i x, arr_data a !! i = Some x →
        (SegmentLung.mask_data lung_mask !! i = Some false →
         arr_data clamped !! i = Some (of_Z (-1000)))
        ∧ (SegmentLung.mask_data lung_mask !! i = Some true →
           arr_data clamped !! i
           = Some (clip1 (f32 (of_Z (-1000))) (f32 (of_Z 400)) x)).
Proof.
  intros Hty Hmask Hv. unfold Run.mask_outside_lung in Hmask.
  destruct (decide _); [|done]. injection Hmask as <-.
  eexists _, _. split; [by apply clamp_hu_float32|].
  cbn [heap set_heap]. split.
  { apply list_lookup_insert_eq. by eapply lookup_lt_Some. }
  intros i x Hx. simpl. split; intros Hb.
  - rewrite list_lookup_fmap, lookup_zip_with, Hx. simpl. rewrite Hb. simpl.
    vm_compute. reflexivity.
  - rewrite list_lookup_fmap, lookup_zip_with, Hx. simpl. by rewrite Hb.
Qed.

End ClampWindow.

Lemma clamp_hu_puts_every_voxel_in_the_window_witness :
  ∃ c, heap (snd (NormalizeResample.clamp_hu 0%nat (-1000) 400 sample_world)) !! 0%nat
       = Some (OArray c)
       ∧ arr_dtype c = Float32
       ∧ arr_shape c = arr_shape sample_volume
       ∧ length (arr_data c) = length (arr_data sample_volume)
       ∧ Forall2 (λ x y, (NormalizeResample.is_nan x = true
                          → NormalizeResample.is_nan y = true)
                         ∧ (NormalizeResample.is_nan x = false →
                            leb (f32 (of_Z (-1000))) y = true
                            ∧ leb y (f32 (of_Z 400)) = true))
           (arr_data sample_volume) (arr_data c).
Proof.
  apply (clamp_hu_puts_every_voxel_in_the_window 0%nat sample_volume (-1000) 400
           sample_world 0%nat); reflexivity.
Defined.

Lemma voxels_outside_the_lung_end_at_the_window_floor_witness :
  ∃ clamped w',
    NormalizeResample.clamp_hu 0%nat (-1000) 400
      (world0 [OArray (NdArray Float32 [1; 1; 2]%nat [of_Z (-2000); of_Z (-1024)])])
    = (Ok 0%nat, w')
    ∧ heap w' !! 0%nat = Some (OArray clamped)
    ∧ ∀ i x, arr_data sample_volume !! i = Some x →
        ([true; false] !! i = Some false →
         arr_data clamped !! i = Some (of_Z (-1000)))
        ∧ ([true; false] !! i = Some true →
           arr_data clamped !! i
           = Some (NormalizeResample.clip1 (f32 (of_Z (-1000))) (f32 (of_Z 400)) x)).
Proof.
  apply (voxels_outside_the_lung_end_at_the_window_floor sample_volume
           (SegmentLung.Mask [1; 1; 2]%nat [true; false])
           (NdArray Float32 [1; 1; 2]%nat [of_Z (-2000); of_Z (-1024)]) 0%nat
           (world0 [OArray (NdArray Float32 [1; 1; 2]%nat [of_Z (-2000); of_Z (-1024)])]));
    reflexivity.
Defined.
Ltac compare_cases :=
  repeat match goal with
  | |- context [(?a ?= ?b)%Z] =>
      destruct (Z.compare_spec a b); subst; simpl
  | |- context [Pos.compare_cont Eq ?a ?b] =>
      change (Pos.compare_cont Eq a b) with (Pos.compare a b);
      destruct (Pos.compare_spec a b); subst; simpl
  end; try done; try lia.

Lemma ltb_trans (x y z : float) : ltb x y = true → ltb y z = true → ltb x z = true.
Proof.
  unfold ltb, SFltb.
  destruct x as [[]|[]| |[] mx ex], y as [[]|[]| |[] my ey], z as [[]|[]| |[] mz ez];
    simpl; try done; compare_cases.
Qed.

Lemma ltb_asym (x y : float) : ltb x y = true → ltb y x = false.
Proof.
  unfold ltb, SFltb.
  destruct x as [[]|[]| |[] mx ex], y as [[]|[]| |[] my ey];
    simpl; try done; compare_cases.
Qed.

Section InvertedWindow.
Import NormalizeResample.

Lemma clip1_inverted lo hi x :
  ltb hi lo = true → is_nan x = false → clip1 lo hi x = hi.
Proof.
  intros Hinv Hx. unfold clip1, npy_min, npy_max. rewrite Hx. simpl.
  assert (Hlo : is_nan lo = false).
  { revert Hinv. unfold ltb, SFltb. by destruct hi, lo. }
  destruct (ltb lo x) eqn:Hlox.
  - rewrite Hx. simpl.
    by rewrite (ltb_asym _ _ (ltb_trans _ _ _ Hinv Hlox)).
  - rewrite Hlo. simpl. by rewrite (ltb_asym _ _ Hinv).
Qed.

(** X22: A window whose lower bound is above the upper one is not rejected:
    the clamp returns, and every voxel that is not NaN has become the
    upper bound. *)
Theorem clamp_hu_with_inverted_window_is_constant volume a hu_min hu_max w :
  ltb (f32 (of_Z hu_max)) (f32 (of_Z hu_min)) = true →
  heap w !! volume = Some (OArray a) →
  ∃ v w' c,
    clamp_hu volume hu_min hu_max w = (Ok v, w')
    ∧ heap w' !! v = Some (OArray c)
    ∧ length (arr_data c) = length (arr_data a)
    ∧ Forall (λ x, is_nan x = true ∨ x = f32 (of_Z hu_max)) (arr_data c).
Proof.
  intros Hinv Hvol.
  assert (Hall : ∀ data,
    Forall (λ x, is_nan x = true ∨ x = f32 (of_Z hu_max))
      (clip1 (f32 (of_Z hu_min)) (f32 (of_Z hu_max)) <$> data)).
  { intros data. apply Forall_fmap, Forall_forall. intros x _. simpl.
    destruct (is_nan x) eqn:Hx.
    - left. by apply clip1_nan.
    - right. by apply clip1_inverted. }
  destruct (decide (arr_dtype a = Float32)) as [Hty|Hty].
  - eexists _, _, (clip_array hu_min hu_max a).
    split; [by apply clamp_hu_float32|]. cbn [heap set_heap].
    split; [apply list_lookup_insert_eq; by eapply lookup_lt_Some|].
    split; [apply length_fmap|apply Hall].
  - eexists _, _, (clip_array hu_min hu_max (cast_float32 a)).
    split; [by apply clamp_hu_other_dtype|]. cbn [heap set_heap].
    split; [apply lookup_snoc|].
    split; [simpl; by rewrite !length_fmap|apply Hall].
Qed.

End InvertedWindow.

Lemma clamp_hu_with_inverted_window_is_constant_witness :
  ∃ v w' c,
    NormalizeResample.clamp_hu 0%nat 400 (-1000) sample_world = (Ok v, w')
    ∧ heap w' !! v = Some (OArray c)
    ∧ length (arr_data c) = length (arr_data sample_volume)
    ∧ Forall (λ x, NormalizeResample.is_nan x = true ∨ x = f32 (of_Z (-1000)))
        (arr_data c).
Proof.
  apply (clamp_hu_with_inverted_window_is_constant 0%nat sample_volume 400 (-1000)
           sample_world); reflexivity.
Defined.

(** * More on the pipeline stages *)

Lemma map_to_list_stamp (v1 v2 : pyval) :
  map_to_list (<["preprocessing" := v2]> (<["spacing_mm" := v1]> (∅ : gmap string pyval)))
  = [("spacing_mm", v1); ("preprocessing", v2)].
Proof. vm_compute. reflexivity. Qed.

Lemma map_to_list_record (v : pyval) :
  map_to_list (<["normalize_resample" := v]> (∅ : gmap string pyval))
  = [("normalize_resample", v)].
Proof. vm_compute. reflexivity. Qed.

Lemma map_to_list_normalize_record (v1 v2 v3 v4 v5 : pyval) :
  map_to_list
    (<["interpolation_order" := v5]>
     (<["target_spacing_mm" := v4]>
     (<["denoise_sigma" := v3]>
     (<["apply_denoising" := v2]>
     (<["hu_window" := v1]> (∅ : gmap string pyval))))))
  = [("interpolation_order", v5); ("apply_denoising", v2); ("target_spacing_mm", v4);
     ("denoise_sigma", v3); ("hu_window", v1)].
Proof. vm_compute. reflexivity. Qed.

Section Stages.
Context `{External}.
Import NormalizeResample NormalizeResampleFacts.

(** X23: Denoising leaves its input alone: every existing heap object,
    file and directory is unchanged.  Switched off, it returns the very
    array it was given and changes nothing at all; switched on, what it
    returns is a newly allocated float32 array. *)
Theorem maybe_denoise_returns_its_input_or_a_new_array volume enabled sigma w r w' :
  maybe_denoise volume enabled sigma w = (r, w') →
  (∀ l o, heap w !! l = Some o → heap w' !! l = Some o)
  ∧ files w' = files w ∧ dirs w' = dirs w
  ∧ (enabled = false → r = Ok volume ∧ w' = w)
  ∧ (enabled = true → ∀ out, r = Ok out →
       (length (heap w) ≤ out)%nat
       ∧ ∃ a, heap w' !! out = Some (OArray a) ∧ arr_dtype a = Float32).
Proof.
  intros Hrun.
  destruct (only_allocates_maybe_denoise _ _ _ _ _ _ Hrun) as (new & Hh & Hf & Hd).
  split; [intros l o Hl; rewrite Hh; by apply lookup_app_l_Some|].
  split; [done|]. split; [done|]. split.
  - intros ->. by injection Hrun as <- <-.
  - intros -> out ->. revert Hrun. unfold maybe_denoise. simpl negb. cbv iota.
    intros (v1 & w1 & H1 & Hk)%bind_ok.
    destruct (only_allocates_astype_float32 _ _ _ _ H1) as (n1 & Hn1 & _).
    apply bind_ok in Hk as (a1 & w2 & H2 & Hk).
    apply get_array_ok in H2 as [-> _].
    apply bind_ok in Hk as (res & w3 & H3 & Hk). injection H3 as _ <-.
    apply bind_ok in Hk as (l & w4 & H4 & Hk).
    apply alloc_ok in H4 as [-> ->].
    apply astype_float32_ok in Hk as (a & Ha & [(Hty & -> & ->)|(Hne & -> & ->)]).
    + split; [rewrite Hn1, length_app; lia|]. by exists a.
    + cbn [heap set_heap] in *. split; [rewrite length_app, Hn1, length_app; lia|].
      exists (cast_float32 a). split; [apply lookup_snoc|done].
Qed.

(** X24: The metadata stamped for a call without metadata is JSON-safe:
    [json.dumps] of the returned metadata succeeds and gives the
    spacing and the parameter record, tuples written as arrays. *)
Theorem stamped_metadata_serialises volume spacing kw w ct w' :
  normalize_and_resample volume spacing VNone kw w = (Ok ct, w') →
  json_dumps (heap w') (ct_metadata ct) = Ok (stamp_json kw).
Proof.
  intros Hrun.
  apply normalize_and_resample_ok in Hrun
    as (v & w3 & a & Hstage & Hlen & Hfr & Hvol & Hvol3 & Hf).
  apply metadata_stage_ok in Hstage as
    (d0 & p & dp & Hd0 & Hcase & Hmeta & Hsp & Hnew & Hp & Hrec & Hfr' & Hf');
    [|intros ? ? ? [=]].
  destruct Hd0 as [[_ ->]|(? & [=] & _)].
  destruct Hcase as [(_ & -> & ->)|[Hsome _]]; [|by rewrite lookup_empty in Hsome].
  rewrite Hmeta. unfold json_dumps.
  set (m := length (heap w3)) in *.
  destruct (length (heap w')) as [|[|[|n]]] eqn:Hn;
    try (apply lookup_lt_Some in Hrec; lia).
  destruct kw as [[[tz ty] tx] [lo hi] den sigma order].
  cbn [target_spacing spacing_tuple] in *.
  rewrite dumps_fuel_unfold. cbv beta iota.
  replace (heap w' !! m) with
    (Some (ODict (<["preprocessing" := VRef (S m)]>
                    (<["spacing_mm" := VTuple [VFloat tz; VFloat ty; VFloat tx]]> ∅))))
    by (symmetry; exact Hnew).
  rewrite map_to_list_stamp. cbn [result_mapM fst snd].
  rewrite (dumps_fuel_unfold _ _ (VTuple _)). cbn [result_mapM mbind result_bind].
  rewrite !(dumps_fuel_unfold _ _ (VFloat _)). cbn [mbind result_bind].
  rewrite (dumps_fuel_unfold _ _ (VRef _)). cbv beta iota.
  replace (heap w' !! S m) with
    (Some (ODict (<["normalize_resample" := VRef (S (S m))]> ∅)))
    by (symmetry; exact Hp).
  rewrite map_to_list_record. cbn [result_mapM fst snd mbind result_bind].
  rewrite (dumps_fuel_unfold _ _ (VRef _)). cbv beta iota.
  replace (heap w' !! S (S m)) with
    (Some (ODict (normalize_record (mkKwargs (tz, ty, tx) (lo, hi) den sigma order))))
    by (symmetry; exact Hrec).
  unfold normalize_record. cbn [hu_window interpolation_order target_spacing
                                  denoise_sigma apply_denoising spacing_tuple].
  rewrite map_to_list_normalize_record.
  cbn [result_mapM fst snd mbind result_bind].
  rewrite !dumps_fuel_unfold. cbn [result_mapM mbind result_bind].
  rewrite !dumps_fuel_unfold. cbn [result_mapM mbind result_bind].
  reflexivity.
Qed.

End Stages.

Lemma maybe_denoise_returns_its_input_or_a_new_array_witness :
  (∀ l o, heap sample_world !! l = Some o →
          heap (snd (NormalizeResample.maybe_denoise (H := plain_libs) 0%nat true
                       (dec 75 100) sample_world)) !! l = Some o)
  ∧ files (snd (NormalizeResample.maybe_denoise (H := plain_libs) 0%nat true
                  (dec 75 100) sample_world)) = files sample_world
  ∧ dirs (snd (NormalizeResample.maybe_denoise (H := plain_libs) 0%nat true
                 (dec 75 100) sample_world)) = dirs sample_world
  ∧ (true = false →
     Ok 3%nat = Ok 0%nat
     ∧ snd (NormalizeResample.maybe_denoise (H := plain_libs) 0%nat true
              (dec 75 100) sample_world) = sample_world)
  ∧ (true = true → ∀ out, Ok 3%nat = Ok out →
       (length (heap sample_world) ≤ out)%nat
       ∧ ∃ a, heap (snd (NormalizeResample.maybe_denoise (H := plain_libs) 0%nat true
                           (dec 75 100) sample_world)) !! out = Some (OArray a)
              ∧ arr_dtype a = Float32).
Proof.
  apply (maybe_denoise_returns_its_input_or_a_new_array (H := plain_libs) 0%nat true
           (dec 75 100) sample_world (Ok 3%nat)).
  vm_compute. reflexivity.
Defined.

Lemma stamped_metadata_serialises_witness :
  json_dumps
    (heap (snd (NormalizeResample.normalize_and_resample (H := plain_libs)
                  0%nat sample_spacing VNone NormalizeResample.default_kwargs
                  (world0 [OArray sample_volume]))))
    (NormalizeResample.ct_metadata
       (NormalizeResample.mkCTVolume 1%nat
          (NormalizeResample.one, NormalizeResample.one, NormalizeResample.one)
          (VRef 2%nat)))
  = Ok (stamp_json NormalizeResample.default_kwargs).
Proof.
  apply (stamped_metadata_serialises (H := plain_libs) 0%nat sample_spacing
           NormalizeResample.default_kwargs (world0 [OArray sample_volume])).
  vm_compute. reflexivity.
Defined.
